(** * AutoBlitz bot orchestration engine: a shallow embedding

    This development embeds the bot engine of [autoblitz-backend]
    ([app/bot_engine]) and states properties of it:

    - [Risk]       : [managers/risk_manager.py]
    - [OrderExec]  : [executors/order_executor.py]
    - [PositionMgr]: [managers/position_manager.py]
    - [Strategy]   : [executors/strategy_executor.py]
    - [Runner]     : [core/bot_runner.py]
    - [Lifecycle]  : [core/lifecycle_manager.py]

    Conventions.  A Python [Decimal] is an exact rational [Q]; comparisons
    between decimals are the boolean tests [Qle_bool] and friends.  The
    rounding of decimal arithmetic to 28 significant digits is not
    modelled: a property that re-derives an identity or a threshold from
    the code's expressions says that it holds with exact arithmetic.  A Python
    [int] is a [Z].  A [dict] is a [gmap]; a [list] is a [list].  A point in
    time is a number of seconds since the epoch.  A Python body that may
    raise lives in the monad [exc]; [try ... except Exception] is
    [try_except].  What a component asks of another object (the exchange
    client, the collaborators of a tick) is an argument of the function
    that asks: an outcome that is a value or an exception.  The database
    is the pair of tables of [Lifecycle.Manager], together with what
    opening a session does. *)

From Stdlib Require Import ZArith QArith Qabs Qpower String Ascii List Bool Lia Lqa.
From stdpp Require Import base gmap strings list fin_maps.
Import ListNotations.

Local Open Scope Z_scope.

(** ** Python exceptions *)

Module Py.

Inductive exn : Type :=
| TypeError
| ValueError
| KeyError
| AttributeError
| ZeroDivisionError
| RuntimeError.

Inductive exc (A : Type) : Type :=
| Return (a : A)
| Raise (e : exn).

Arguments Return {A} a.
Arguments Raise {A} e.

Definition bind {A B : Type} (m : exc A) (k : A -> exc B) : exc B :=
  match m with
  | Return a => k a
  | Raise e => Raise e
  end.

(** [try: body except Exception as e: handler e] *)
Definition try_except {A : Type} (body : exc A) (handler : exn -> exc A) : exc A :=
  match body with
  | Return a => Return a
  | Raise e => handler e
  end.

Definition returns {A : Type} (m : exc A) : Prop := exists a, m = Return a.

End Py.

Notation "'do' x <- m ; k" := (Py.bind m (fun x => k))
  (at level 10, x name, m at level 100, k at level 200).

(** Decimal comparisons, as the boolean tests the code evaluates. *)

Definition Qleb (a b : Q) : bool := Qle_bool a b.
Definition Qltb (a b : Q) : bool := negb (Qle_bool b a).
Definition Qeqb (a b : Q) : bool := Qeq_bool a b.

(** ** RiskManager *)

Module Risk.

Inductive Severity : Type := LOW | MEDIUM | HIGH | CRITICAL.

(** The [reason] strings of the source are f-strings; each format is one
    constructor, carrying the interpolated values. *)
Inductive Reason : Type :=
| ReasonDefault                                    (* "" *)
| ReasonAllPassed
| ReasonCheckRiskError
| ReasonMaxLoss (limit current : Q)
| ReasonDailyLoss (limit current : Q)
| ReasonLossPassed
| ReasonLossError
| ReasonPositionSize (limit current : Q)
| ReasonPositionPassed
| ReasonPositionError
| ReasonHourlyTrades (limit : Z)
| ReasonDailyTrades (limit : Z)
| ReasonFrequencyPassed
| ReasonVolatility (limit current : Q)
| ReasonVolatilityPassed
| ReasonDrawdown (limit current : Q)
| ReasonDrawdownPassed
| ReasonDrawdownError.

Record RiskCheckResult : Type := mkResult {
  should_stop : bool;
  should_close_position : bool;
  should_reduce_position : bool;
  should_pause : bool;
  reason : Reason;
  severity : Severity
}.

(** The dataclass defaults. *)
Definition default_result : RiskCheckResult :=
  mkResult false false false false ReasonDefault LOW.

Definition with_reason (r : Reason) : RiskCheckResult :=
  mkResult false false false false r LOW.

Inductive RiskEventMsg : Type :=
| MsgMaxLoss (pct : Q)
| MsgDailyLoss (pct : Q)
| MsgPositionSize (pct : Q)
| MsgHourlyTrades (n : Z)
| MsgDailyTrades (n : Z)
| MsgVolatility (pct : Q)
| MsgDrawdown (pct : Q)
| MsgEmergency (pct : Q).

Record RiskEvent : Type := mkEvent {
  ev_timestamp : Z;
  ev_severity : Severity;
  ev_message : RiskEventMsg
}.

Record RiskManager : Type := mkRiskManager {
  capital : Q;
  max_loss_percentage : Q;
  max_drawdown : Q;
  max_position_size : Q;
  daily_loss_limit : Q;
  max_trades_per_hour : Z;
  max_trades_per_day : Z;
  volatility_threshold : Q;
  daily_pnl : Q;
  peak_balance : Q;
  trade_count_hour : Z;
  trade_count_day : Z;
  last_trade_time : option Z;
  last_hour_reset : Z;
  last_day_reset : Z;
  last_price : option Q;          (* absent until the first volatility check *)
  risk_events : list RiskEvent
}.

(** [RiskManager.__init__], with the settings already looked up. *)
Definition init (now : Z) (cap mlp mdd mps dll : Q) (mth mtd : Z) (vt : Q) : RiskManager :=
  mkRiskManager cap mlp mdd mps dll mth mtd vt 0 cap 0 0 None now now None [].

(** The position dictionary handed to [check_risk]; only [total_cost] is
    read, through [position.get('total_cost', 0)]. *)
Record PositionView : Type := mkPositionView {
  pv_total_cost : option Q
}.

Definition set_events (rm : RiskManager) (evs : list RiskEvent) : RiskManager :=
  mkRiskManager (capital rm) (max_loss_percentage rm) (max_drawdown rm)
    (max_position_size rm) (daily_loss_limit rm) (max_trades_per_hour rm)
    (max_trades_per_day rm) (volatility_threshold rm) (daily_pnl rm)
    (peak_balance rm) (trade_count_hour rm) (trade_count_day rm)
    (last_trade_time rm) (last_hour_reset rm) (last_day_reset rm)
    (last_price rm) evs.

Definition set_last_price (rm : RiskManager) (p : option Q) : RiskManager :=
  mkRiskManager (capital rm) (max_loss_percentage rm) (max_drawdown rm)
    (max_position_size rm) (daily_loss_limit rm) (max_trades_per_hour rm)
    (max_trades_per_day rm) (volatility_threshold rm) (daily_pnl rm)
    (peak_balance rm) (trade_count_hour rm) (trade_count_day rm)
    (last_trade_time rm) (last_hour_reset rm) (last_day_reset rm)
    p (risk_events rm).

Definition set_peak_balance (rm : RiskManager) (p : Q) : RiskManager :=
  mkRiskManager (capital rm) (max_loss_percentage rm) (max_drawdown rm)
    (max_position_size rm) (daily_loss_limit rm) (max_trades_per_hour rm)
    (max_trades_per_day rm) (volatility_threshold rm) (daily_pnl rm)
    p (trade_count_hour rm) (trade_count_day rm)
    (last_trade_time rm) (last_hour_reset rm) (last_day_reset rm)
    (last_price rm) (risk_events rm).

Definition set_counters (rm : RiskManager) (pnl : Q) (h d : Z)
    (ltt : option Z) (hr dr : Z) : RiskManager :=
  mkRiskManager (capital rm) (max_loss_percentage rm) (max_drawdown rm)
    (max_position_size rm) (daily_loss_limit rm) (max_trades_per_hour rm)
    (max_trades_per_day rm) (volatility_threshold rm) pnl
    (peak_balance rm) h d ltt hr dr (last_price rm) (risk_events rm).

(** [self.risk_events[-100:]] *)
Definition last100 {A : Type} (l : list A) : list A :=
  skipn (length l - 100)%nat l.

(** [_log_risk_event]: append, then keep the most recent 100. *)
Definition _log_risk_event (now : Z) (sev : Severity) (msg : RiskEventMsg)
    (rm : RiskManager) : RiskManager :=
  let evs := risk_events rm ++ [mkEvent now sev msg] in
  set_events rm (if (100 <? length evs)%nat then last100 evs else evs).

(** [x / self.capital * 100 if self.capital > 0 else Decimal('0')] *)
Definition pct_of_capital (rm : RiskManager) (x : Q) : Q :=
  if Qltb 0 (capital rm) then (x / capital rm * 100)%Q else 0%Q.

Definition _check_loss_limits (now : Z) (total_profit : Q) (rm : RiskManager)
    : RiskCheckResult * RiskManager :=
  let loss_percentage := pct_of_capital rm total_profit in
  if Qleb loss_percentage (max_loss_percentage rm) then
    (mkResult true false false false
       (ReasonMaxLoss (max_loss_percentage rm) loss_percentage) CRITICAL,
     _log_risk_event now CRITICAL (MsgMaxLoss loss_percentage) rm)
  else
    let daily_loss_percentage := pct_of_capital rm (daily_pnl rm) in
    if Qleb daily_loss_percentage (daily_loss_limit rm) then
      (mkResult false false false true
         (ReasonDailyLoss (daily_loss_limit rm) daily_loss_percentage) HIGH,
       _log_risk_event now HIGH (MsgDailyLoss daily_loss_percentage) rm)
    else (with_reason ReasonLossPassed, rm).

Definition _check_position_size (now : Z) (position : PositionView)
    (rm : RiskManager) : RiskCheckResult * RiskManager :=
  let total_cost := match pv_total_cost position with Some c => c | None => 0%Q end in
  let position_percentage := pct_of_capital rm total_cost in
  if Qltb (max_position_size rm) position_percentage then
    (mkResult false false true false
       (ReasonPositionSize (max_position_size rm) position_percentage) MEDIUM,
     _log_risk_event now MEDIUM (MsgPositionSize position_percentage) rm)
  else (with_reason ReasonPositionPassed, rm).

Definition _check_trading_frequency (now : Z) (rm : RiskManager)
    : RiskCheckResult * RiskManager :=
  if (max_trades_per_hour rm <=? trade_count_hour rm) then
    (mkResult false false false true
       (ReasonHourlyTrades (max_trades_per_hour rm)) MEDIUM,
     _log_risk_event now MEDIUM (MsgHourlyTrades (trade_count_hour rm)) rm)
  else if (max_trades_per_day rm <=? trade_count_day rm) then
    (mkResult false false false true
       (ReasonDailyTrades (max_trades_per_day rm)) HIGH,
     _log_risk_event now HIGH (MsgDailyTrades (trade_count_day rm)) rm)
  else (with_reason ReasonFrequencyPassed, rm).

(** [if hasattr(self, 'last_price') and self.last_price:] a zero decimal
    is falsy, so the division is never by zero. *)
Definition _check_market_volatility (now : Z) (current_price : Q)
    (rm : RiskManager) : RiskCheckResult * RiskManager :=
  let pass := (with_reason ReasonVolatilityPassed,
               set_last_price rm (Some current_price)) in
  match last_price rm with
  | Some lp =>
      if Qeqb lp 0 then pass
      else
        let price_change := (Qabs (current_price - lp) / lp * 100)%Q in
        if Qltb (volatility_threshold rm) price_change then
          (mkResult false false false true
             (ReasonVolatility (volatility_threshold rm) price_change) MEDIUM,
           _log_risk_event now MEDIUM (MsgVolatility price_change) rm)
        else pass
  | None => pass
  end.

(** The division by [peak_balance] raises when the peak is zero; the
    [except] branch then returns the neutral error result, after the peak
    has already been updated. *)
Definition _check_drawdown (now : Z) (total_profit : Q) (rm : RiskManager)
    : RiskCheckResult * RiskManager :=
  let current_balance := (capital rm + total_profit)%Q in
  let rm1 := if Qltb (peak_balance rm) current_balance
             then set_peak_balance rm current_balance else rm in
  if Qeqb (peak_balance rm1) 0 then (with_reason ReasonDrawdownError, rm1)
  else
    let drawdown := ((current_balance - peak_balance rm1) / peak_balance rm1 * 100)%Q in
    if Qleb drawdown (max_drawdown rm1) then
      (mkResult true false false false
         (ReasonDrawdown (max_drawdown rm1) drawdown) CRITICAL,
       _log_risk_event now CRITICAL (MsgDrawdown drawdown) rm1)
    else (with_reason ReasonDrawdownPassed, rm1).

(** UTC calendar day of a timestamp. *)
Definition date (t : Z) : Z := t / 86400.

Definition _reset_time_counters (now : Z) (rm : RiskManager) : RiskManager :=
  let rm1 :=
    if (3600 <=? now - last_hour_reset rm)
    then set_counters rm (daily_pnl rm) 0 (trade_count_day rm)
           (last_trade_time rm) now (last_day_reset rm)
    else rm in
  if negb (date now =? date (last_day_reset rm1))
  then set_counters rm1 0%Q (trade_count_hour rm1) 0
         (last_trade_time rm1) (last_hour_reset rm1) now
  else rm1.

Definition record_trade (now : Z) (profit : Q) (rm : RiskManager) : RiskManager :=
  set_counters rm (daily_pnl rm + profit)%Q (trade_count_hour rm + 1)
    (trade_count_day rm + 1) (Some now) (last_hour_reset rm) (last_day_reset rm).

(** [check_risk].  Every sub-check catches its own exceptions, so the
    outer [except] branch is never taken and the body is written
    directly. *)
Definition check_risk (now : Z) (current_price : Q) (position : PositionView)
    (total_profit : Q) (rm : RiskManager) : RiskCheckResult * RiskManager :=
  let rm0 := _reset_time_counters now rm in
  let '(loss_check, rm1) := _check_loss_limits now total_profit rm0 in
  if should_stop loss_check then (loss_check, rm1) else
  let '(position_check, rm2) := _check_position_size now position rm1 in
  if should_reduce_position position_check then (position_check, rm2) else
  let '(frequency_check, rm3) := _check_trading_frequency now rm2 in
  if should_pause frequency_check then (frequency_check, rm3) else
  let '(volatility_check, rm4) := _check_market_volatility now current_price rm3 in
  if should_pause volatility_check then (volatility_check, rm4) else
  let '(drawdown_check, rm5) := _check_drawdown now total_profit rm4 in
  if should_stop drawdown_check then (drawdown_check, rm5) else
  (with_reason ReasonAllPassed, rm5).

(** The settings of [test_risk_manager], capital 1000. *)
Definition test_manager (now : Z) : RiskManager :=
  init now 1000 (-10) (-15) 50 (-3) 5 20 3.

(** A day on which one trade lost 60 of a capital of 1000: the daily loss
    is 6%, the limit 3%, the total loss limit 10%. *)
Definition losing_day : RiskManager := record_trade 10 (-60) (test_manager 0).

(** [emergency_stop_check]: half of the capital lost. *)
Definition emergency_stop_check (now : Z) (total_profit : Q) (rm : RiskManager)
    : bool * RiskManager :=
  let emergency_loss_threshold := (-50)%Q in
  let loss_percentage := pct_of_capital rm total_profit in
  if Qleb loss_percentage emergency_loss_threshold
  then (true, _log_risk_event now CRITICAL (MsgEmergency loss_percentage) rm)
  else (false, rm).

(** How many of the four action flags a result raises. *)
Definition flags_raised (res : RiskCheckResult) : nat :=
  ((if should_stop res then 1 else 0) +
   (if should_close_position res then 1 else 0) +
   (if should_reduce_position res then 1 else 0) +
   (if should_pause res then 1 else 0))%nat.

(** The limits and the capital a manager was configured with. *)
Definition configuration (rm : RiskManager) : Q * Q * Q * Q * Q * Z * Z * Q :=
  (capital rm, max_loss_percentage rm, max_drawdown rm, max_position_size rm,
   daily_loss_limit rm, max_trades_per_hour rm, max_trades_per_day rm,
   volatility_threshold rm).

(** [record_trade] once per profit of the list, all at time [now]. *)
Definition record_trades (now : Z) (profits : list Q) (rm : RiskManager)
    : RiskManager :=
  fold_left (fun acc p => record_trade now p acc) profits rm.

(** The six trades of [test_risk_manager], five units of profit each. *)
Definition six_trades : list Q := [5; 5; 5; 5; 5; 5]%Q.

(** What a check leaves alone: the configuration and the two trade
    counters; the peak balance never goes down. *)
Definition kept (rm rm' : RiskManager) : Prop :=
  configuration rm' = configuration rm /\
  trade_count_hour rm' = trade_count_hour rm /\
  trade_count_day rm' = trade_count_day rm /\
  (peak_balance rm <= peak_balance rm')%Q.

End Risk.

(** ** OrderExecutor *)

Module OrderExec.

Inductive OrderStatus : Type :=
| NEW | PENDING | OPEN | PARTIALLY_FILLED | FILLED | CANCELED | REJECTED | EXPIRED.

Inductive OrderSide : Type := BUY | SELL.

Inductive OrderType : Type := MARKET | LIMIT | STOP | STOP_LIMIT.

Definition OrderStatus_value (s : OrderStatus) : string :=
  match s with
  | NEW => "new" | PENDING => "pending" | OPEN => "open"
  | PARTIALLY_FILLED => "partially_filled" | FILLED => "filled"
  | CANCELED => "canceled" | REJECTED => "rejected" | EXPIRED => "expired"
  end.

(** [OrderStatus(value)]: the enum lookup by value, [ValueError] when no
    member has that value. *)
Definition OrderStatus_of_value (v : string) : Py.exc OrderStatus :=
  if (v =? "new")%string then Py.Return NEW
  else if (v =? "pending")%string then Py.Return PENDING
  else if (v =? "open")%string then Py.Return OPEN
  else if (v =? "partially_filled")%string then Py.Return PARTIALLY_FILLED
  else if (v =? "filled")%string then Py.Return FILLED
  else if (v =? "canceled")%string then Py.Return CANCELED
  else if (v =? "rejected")%string then Py.Return REJECTED
  else if (v =? "expired")%string then Py.Return EXPIRED
  else Py.Raise Py.ValueError.

Definition OrderSide_value (s : OrderSide) : string :=
  match s with BUY => "buy" | SELL => "sell" end.

Definition OrderSide_of_value (v : string) : Py.exc OrderSide :=
  if (v =? "buy")%string then Py.Return BUY
  else if (v =? "sell")%string then Py.Return SELL
  else Py.Raise Py.ValueError.

Definition OrderStatus_eqb (a b : OrderStatus) : bool :=
  match a, b with
  | NEW, NEW | PENDING, PENDING | OPEN, OPEN
  | PARTIALLY_FILLED, PARTIALLY_FILLED | FILLED, FILLED
  | CANCELED, CANCELED | REJECTED, REJECTED | EXPIRED, EXPIRED => true
  | _, _ => false
  end.

Definition OrderSide_eqb (a b : OrderSide) : bool :=
  match a, b with
  | BUY, BUY | SELL, SELL => true
  | _, _ => false
  end.

(** [str.lower], on ASCII letters. *)
Definition lower_ascii (c : ascii) : ascii :=
  let n := nat_of_ascii c in
  if ((65 <=? n) && (n <=? 90))%nat then ascii_of_nat (n + 32) else c.

Fixpoint lower (s : string) : string :=
  match s with
  | EmptyString => EmptyString
  | String c r => String (lower_ascii c) (lower r)
  end.

Record OrderInfo : Type := mkOrderInfo {
  order_id : string;
  symbol : string;
  side : OrderSide;
  type : OrderType;
  quantity : Q;
  price : option Q;
  stop_price : option Q;
  status : OrderStatus;
  filled_quantity : Q;
  remaining_quantity : option Q;
  average_price : option Q;
  cost : Q;
  fee : option (gmap string Q);
  created_at : Z;
  updated_at : Z;
  filled_at : option Z;
  client_order_id : option string;
  strategy_info : option (gmap string string)
}.

(** The dataclass constructor as the executor calls it, with
    [__post_init__] applied. *)
Definition new_order (now : Z) (sym : string) (sd : OrderSide) (ty : OrderType)
    (qty : Q) (pr : option Q) (info : gmap string string) : OrderInfo :=
  mkOrderInfo "" sym sd ty qty pr None NEW 0 (Some qty) None 0 None
    now now None None (Some info).

Definition set_order_id (o : OrderInfo) (i : string) : OrderInfo :=
  mkOrderInfo i (symbol o) (side o) (type o) (quantity o) (price o)
    (stop_price o) (status o) (filled_quantity o) (remaining_quantity o)
    (average_price o) (cost o) (fee o) (created_at o) (updated_at o)
    (filled_at o) (client_order_id o) (strategy_info o).

Definition set_status (o : OrderInfo) (s : OrderStatus) : OrderInfo :=
  mkOrderInfo (order_id o) (symbol o) (side o) (type o) (quantity o) (price o)
    (stop_price o) s (filled_quantity o) (remaining_quantity o)
    (average_price o) (cost o) (fee o) (created_at o) (updated_at o)
    (filled_at o) (client_order_id o) (strategy_info o).

Definition set_price_cost (o : OrderInfo) (avg : option Q) (c : Q) : OrderInfo :=
  mkOrderInfo (order_id o) (symbol o) (side o) (type o) (quantity o) (price o)
    (stop_price o) (status o) (filled_quantity o) (remaining_quantity o)
    avg c (fee o) (created_at o) (updated_at o)
    (filled_at o) (client_order_id o) (strategy_info o).

(** [OrderInfo.update_status] *)
Definition update_status (now : Z) (new_status : OrderStatus)
    (filled_qty avg_price : option Q) (o : OrderInfo) : OrderInfo :=
  let filled := match filled_qty with Some f => f | None => filled_quantity o end in
  let remaining := match filled_qty with
                   | Some f => Some (quantity o - f)%Q
                   | None => remaining_quantity o
                   end in
  let avg := match avg_price with Some a => Some a | None => average_price o end in
  let cst := match avg_price with Some a => (filled * a)%Q | None => cost o end in
  let is_filled := OrderStatus_eqb new_status FILLED in
  mkOrderInfo (order_id o) (symbol o) (side o) (type o) (quantity o) (price o)
    (stop_price o) new_status filled
    (if is_filled then Some 0%Q else remaining)
    avg cst (fee o) (created_at o) now
    (if is_filled then Some now else filled_at o)
    (client_order_id o) (strategy_info o).

Definition is_active (o : OrderInfo) : bool :=
  match status o with
  | NEW | PENDING | OPEN | PARTIALLY_FILLED => true
  | _ => false
  end.

Definition terminal (s : OrderStatus) : bool :=
  match s with
  | FILLED | CANCELED | REJECTED | EXPIRED => true
  | _ => false
  end.

Definition is_completed (o : OrderInfo) : bool := terminal (status o).

(** The order record (a dict) an exchange client returns.  A key that is
    absent is [None]; a response that is [None] or an empty dict is the
    [None] of [option ExchangeOrder]. *)
Record ExchangeOrder : Type := mkExchangeOrder {
  xo_id : option string;
  xo_status : option string;
  xo_price : option Q;
  xo_cost : option Q;
  xo_filled : option Q;
  xo_average : option Q
}.

(** [d[key]] *)
Definition getitem {A : Type} (v : option A) : Py.exc A :=
  match v with Some a => Py.Return a | None => Py.Raise Py.KeyError end.

(** [Decimal(str(d.get(key, 0)))] *)
Definition get_decimal (v : option Q) : Q :=
  match v with Some a => a | None => 0%Q end.

(** [Decimal(str(d.get(key, 0))) if d.get(key) else None]: an absent key
    and a zero are both falsy. *)
Definition get_truthy_decimal (v : option Q) : option Q :=
  match v with
  | Some a => if Qeqb a 0 then None else Some a
  | None => None
  end.

(** What the executor sees of its exchange client.  A submission method
    may be missing ([hasattr] is false); when present, its outcome at the
    [n]-th attempt of one submission is given by the function: it raises,
    returns nothing, or returns an order record. *)
Record ExchangeClient : Type := mkExchangeClient {
  create_market_order_method : option (nat -> Py.exc (option ExchangeOrder));
  create_limit_order_method : option (nat -> Py.exc (option ExchangeOrder))
}.

Record OrderExecutor : Type := mkOrderExecutor {
  exchange_client : ExchangeClient;
  ex_symbol : string;
  active_orders : gmap string OrderInfo;
  completed_orders : list OrderInfo;
  max_retries : nat;
  retry_delay : Q;
  total_orders : Z;
  successful_orders : Z;
  failed_orders : Z
}.

(** [OrderExecutor.__init__] *)
Definition init (client : ExchangeClient) (sym : string) : OrderExecutor :=
  mkOrderExecutor client sym ∅ [] 3 1 0 0 0.

Definition set_orders (ex : OrderExecutor) (act : gmap string OrderInfo)
    (done : list OrderInfo) : OrderExecutor :=
  mkOrderExecutor (exchange_client ex) (ex_symbol ex) act done
    (max_retries ex) (retry_delay ex)
    (total_orders ex) (successful_orders ex) (failed_orders ex).

Definition set_stats (ex : OrderExecutor) (tot succ failed : Z) : OrderExecutor :=
  mkOrderExecutor (exchange_client ex) (ex_symbol ex)
    (active_orders ex) (completed_orders ex)
    (max_retries ex) (retry_delay ex) tot succ failed.

Inductive SubmitKind : Type := SubmitMarket | SubmitLimit.

(** What [_execute_exchange_order] does that is visible from outside. *)
Inductive SubmitEvent : Type :=
| EvAttempt (attempt : nat)      (* one call of the exchange method *)
| EvBackoff (delay : Q).         (* [asyncio.sleep(self.retry_delay)] *)

(** The dummy record built when the client has no submission method. *)
Definition dummy_response (kind : SubmitKind) (dummy_id : string)
    (quantity : Q) (price : option Q) : ExchangeOrder :=
  match kind with
  | SubmitMarket =>
      mkExchangeOrder (Some dummy_id) (Some "closed"%string) price
        (Some (quantity * match price with Some p => if Qeqb p 0 then 50000 else p
                                      | None => 50000 end)%Q)
        (Some quantity) None
  | SubmitLimit =>
      mkExchangeOrder (Some dummy_id) (Some "open"%string) price
        (Some 0%Q) (Some 0%Q) None
  end.

(** The body of [for attempt in range(self.max_retries)], with
    [remaining] iterations still to run. *)
Fixpoint retry_loop (call : nat -> Py.exc (option ExchangeOrder))
    (retries : nat) (delay : Q) (remaining : nat)
    : option ExchangeOrder * list SubmitEvent :=
  match remaining with
  | O => (None, [])
  | S k =>
      let attempt := (retries - remaining)%nat in
      match call attempt with
      | Py.Return (Some r) => (Some r, [EvAttempt attempt])
      | Py.Return None =>
          let '(res, evs) := retry_loop call retries delay k in
          (res, EvAttempt attempt :: evs)
      | Py.Raise _ =>
          let '(res, evs) := retry_loop call retries delay k in
          (res, EvAttempt attempt ::
                (if (attempt <? retries - 1)%nat then [EvBackoff delay] else [])
                ++ evs)
      end
  end.

(** [_execute_exchange_order] *)
Definition _execute_exchange_order (kind : SubmitKind) (dummy_id : string)
    (quantity : Q) (price : option Q) (ex : OrderExecutor)
    : option ExchangeOrder * list SubmitEvent :=
  let method := match kind with
                | SubmitMarket => create_market_order_method (exchange_client ex)
                | SubmitLimit => create_limit_order_method (exchange_client ex)
                end in
  let call := match method with
              | Some m => m
              | None => fun _ => Py.Return (Some (dummy_response kind dummy_id quantity price))
              end in
  retry_loop call (max_retries ex) (retry_delay ex) (max_retries ex).

Definition bump_failed (ex : OrderExecutor) : OrderExecutor :=
  set_stats ex (total_orders ex) (successful_orders ex) (failed_orders ex + 1).

(** [create_market_order].  The result pairs what the method returns
    with the exchange traffic it caused.  The guarded body raises only
    before it has written to [self], so the handler starts from the
    executor as it was on entry.  The side is parsed before the exchange
    is called: a bad side fails without any submission. *)
Definition create_market_order (now : Z) (dummy_id : string) (side_str : string)
    (quantity : Q) (info : gmap string string) (ex : OrderExecutor)
    : Py.exc (option OrderInfo * OrderExecutor) * list SubmitEvent :=
  let handler := fun _ : Py.exn => Py.Return (None, bump_failed ex) in
  match OrderSide_of_value (lower side_str) with
  | Py.Raise e => (handler e, [])
  | Py.Return sd =>
      let order_info := new_order now (ex_symbol ex) sd MARKET quantity None info in
      let '(exchange_order, evs) :=
        _execute_exchange_order SubmitMarket dummy_id quantity None ex in
      (Py.try_except
         match exchange_order with
         | Some xo =>
             do oid <- getitem (xo_id xo);
             do st_str <- getitem (xo_status xo);
             do st <- OrderStatus_of_value st_str;
             let o1 := set_price_cost (set_status (set_order_id order_info oid) st)
                         (get_truthy_decimal (xo_price xo))
                         (get_decimal (xo_cost xo)) in
             if (st_str =? "closed")%string then
               let o2 := update_status now FILLED
                           (Some (get_decimal (xo_filled xo)))
                           (get_truthy_decimal (xo_average xo)) o1 in
               let ex1 := set_orders ex (active_orders ex)
                            (completed_orders ex ++ [o2]) in
               Py.Return (Some o2,
                          set_stats ex1 (total_orders ex1 + 1)
                            (successful_orders ex1 + 1) (failed_orders ex1))
             else
               let ex1 := set_orders ex (<[oid := o1]> (active_orders ex))
                            (completed_orders ex) in
               Py.Return (Some o1,
                          set_stats ex1 (total_orders ex1 + 1)
                            (successful_orders ex1) (failed_orders ex1))
         | None => Py.Return (None, bump_failed ex)
         end
         handler, evs)
  end.

(** [create_limit_order] *)
Definition create_limit_order (now : Z) (dummy_id : string) (side_str : string)
    (quantity price : Q) (info : gmap string string) (ex : OrderExecutor)
    : Py.exc (option OrderInfo * OrderExecutor) * list SubmitEvent :=
  let handler := fun _ : Py.exn => Py.Return (None, bump_failed ex) in
  match OrderSide_of_value (lower side_str) with
  | Py.Raise e => (handler e, [])
  | Py.Return sd =>
      let order_info :=
        new_order now (ex_symbol ex) sd LIMIT quantity (Some price) info in
      let '(exchange_order, evs) :=
        _execute_exchange_order SubmitLimit dummy_id quantity (Some price) ex in
      (Py.try_except
         match exchange_order with
         | Some xo =>
             do oid <- getitem (xo_id xo);
             do st_str <- getitem (xo_status xo);
             do st <- OrderStatus_of_value st_str;
             let o1 := set_status (set_order_id order_info oid) st in
             let ex1 := set_orders ex (<[oid := o1]> (active_orders ex))
                          (completed_orders ex) in
             Py.Return (Some o1,
                        set_stats ex1 (total_orders ex1 + 1)
                          (successful_orders ex1) (failed_orders ex1))
         | None => Py.Return (None, bump_failed ex)
         end
         handler, evs)
  end.

(** [cancel_order]; [response] is what [exchange_client.cancel_order]
    does on this call. *)
Definition cancel_order (now : Z) (oid : string) (response : Py.exc bool)
    (ex : OrderExecutor) : bool * OrderExecutor :=
  match active_orders ex !! oid with
  | None => (false, ex)
  | Some order_info =>
      match response with
      | Py.Return true =>
          let o1 := update_status now CANCELED None None order_info in
          (true, set_orders ex (delete oid (active_orders ex))
                   (completed_orders ex ++ [o1]))
      | Py.Return false => (false, ex)
      | Py.Raise _ => (false, ex)
      end
  end.

(** [for order in self.completed_orders: if order.order_id == order_id] *)
Definition find_completed (oid : string) (l : list OrderInfo) : option OrderInfo :=
  List.find (fun o => (order_id o =? oid)%string) l.

(** [get_order_status]; [response] is what
    [exchange_client.get_order_status] does on this call.  The order
    object is updated in place, so the refreshed order is what the active
    map holds afterwards unless it is moved. *)
Definition get_order_status (now : Z) (oid : string)
    (response : Py.exc (option ExchangeOrder)) (ex : OrderExecutor)
    : option OrderInfo * OrderExecutor :=
  match active_orders ex !! oid with
  | Some order_info =>
      let body :=
        do exchange_order <- response;
        match exchange_order with
        | Some xo =>
            let old_status := status order_info in
            do st_str <- getitem (xo_status xo);
            do new_status <- OrderStatus_of_value st_str;
            let o1 := update_status now new_status
                        (Some (get_decimal (xo_filled xo)))
                        (get_truthy_decimal (xo_average xo)) order_info in
            if is_completed o1 && negb (OrderStatus_eqb old_status new_status) then
              let ex1 := set_orders ex (delete oid (active_orders ex))
                           (completed_orders ex ++ [o1]) in
              Py.Return
                (Some o1,
                 if OrderStatus_eqb new_status FILLED
                 then set_stats ex1 (total_orders ex1)
                        (successful_orders ex1 + 1) (failed_orders ex1)
                 else ex1)
            else
              Py.Return (Some o1,
                         set_orders ex (<[oid := o1]> (active_orders ex))
                           (completed_orders ex))
        | None => Py.Return (Some order_info, ex)
        end in
      match body with
      | Py.Return r => r
      | Py.Raise _ => (None, ex)
      end
  | None => (find_completed oid (completed_orders ex), ex)
  end.

(** A schedule of status polls: the id asked for, the time, and what the
    exchange answers. *)
Record StatusCall : Type := mkStatusCall {
  sc_now : Z;
  sc_order_id : string;
  sc_response : Py.exc (option ExchangeOrder)
}.

Fixpoint run_status_calls (calls : list StatusCall) (ex : OrderExecutor)
    : OrderExecutor :=
  match calls with
  | [] => ex
  | c :: rest =>
      run_status_calls rest
        (snd (get_order_status (sc_now c) (sc_order_id c) (sc_response c) ex))
  end.

(** How many entries of the completed list carry a given id. *)
Definition count_completed (oid : string) (ex : OrderExecutor) : nat :=
  length (List.filter (fun o => (order_id o =? oid)%string) (completed_orders ex)).

(** The keys of the active map are the ids of the orders stored under
    them, as every insertion of the source has it. *)
Definition keys_agree (ex : OrderExecutor) : Prop :=
  forall k o, active_orders ex !! k = Some o -> order_id o = k.

(** [DummyExchangeClient.create_market_order] of [bot_runner.py]: a
    record with status ['closed'], filled at the ticker price. *)
Definition dummy_market_response (dummy_id : string) (amount ticker_price : Q)
    : ExchangeOrder :=
  mkExchangeOrder (Some dummy_id) (Some "closed"%string) (Some ticker_price)
    (Some (amount * ticker_price)%Q) (Some amount) (Some ticker_price).

(** The dummy client of [test_order_executor]: status ['closed'], no
    ['price'] key, average 50000. *)
Definition test_dummy_market_response (dummy_id : string) (amount : Q)
    : ExchangeOrder :=
  mkExchangeOrder (Some dummy_id) (Some "closed"%string) None
    (Some (amount * 50000)%Q) (Some amount) (Some 50000%Q).

Definition is_attempt (e : SubmitEvent) : bool :=
  match e with EvAttempt _ => true | EvBackoff _ => false end.

(** How many times the exchange method was called. *)
Definition attempts (evs : list SubmitEvent) : nat :=
  length (List.filter is_attempt evs).

(** A submission attempt fails when the exchange call raises or returns
    nothing. *)
Definition attempt_fails (o : Py.exc (option ExchangeOrder)) : Prop :=
  match o with
  | Py.Return (Some _) => False
  | _ => True
  end.

(** An exchange that is down: the market call raises, the limit call
    returns nothing. *)
Definition failing_client : ExchangeClient :=
  mkExchangeClient (Some (fun _ => Py.Raise Py.RuntimeError))
    (Some (fun _ => Py.Return None)).

(** The dummy client of [bot_runner.py], at a ticker price of 50000. *)
Definition dummy_client : ExchangeClient :=
  mkExchangeClient
    (Some (fun _ => Py.Return (Some (dummy_market_response "dummy_1" 1 50000))))
    (Some (fun _ => Py.Return
                      (Some (mkExchangeOrder (Some "dummy_limit_1"%string)
                               (Some "open"%string) (Some 51000%Q)
                               (Some 0%Q) (Some 0%Q) None)))).

(** An open limit order, tracked as active. *)
Definition open_order : OrderInfo :=
  set_status (set_order_id (new_order 0 "BTC/USDT" SELL LIMIT 1 (Some 51000%Q) ∅)
                "o1") OPEN.

Definition tracking_executor : OrderExecutor :=
  set_orders (init dummy_client "BTC/USDT") {[ "o1"%string := open_order ]} [].


(** An exchange on which a limit order is filled as it is placed: the
    record returned by the submission already says ['filled']. *)
Definition immediate_fill : ExchangeOrder :=
  mkExchangeOrder (Some "L1"%string) (Some "filled"%string) (Some 51000%Q)
    (Some 51000%Q) (Some 1%Q) (Some 51000%Q).

Definition filling_client : ExchangeClient :=
  mkExchangeClient None (Some (fun _ => Py.Return (Some immediate_fill))).

(** The executor after [create_limit_order("sell", 1, 51000)] on that
    exchange. *)
Definition after_immediate_fill : OrderExecutor :=
  match fst (create_limit_order 0 "d" "sell" 1 51000 ∅
               (init filling_client "BTC/USDT")) with
  | Py.Return (_, ex) => ex
  | Py.Raise _ => init filling_client "BTC/USDT"
  end.


Definition is_backoff (e : SubmitEvent) : bool :=
  match e with EvBackoff _ => true | EvAttempt _ => false end.

(** How many times a submission slept before retrying. *)
Definition backoffs (evs : list SubmitEvent) : nat :=
  length (List.filter is_backoff evs).

(** [get_completed_orders(limit)]:
    [self.completed_orders[-limit:] if limit else self.completed_orders].
    A negative [limit] makes the slice start at index [-limit]. *)
Definition get_completed_orders (limit : Z) (ex : OrderExecutor) : list OrderInfo :=
  if limit =? 0 then completed_orders ex
  else if 0 <? limit
       then skipn (length (completed_orders ex) - Z.to_nat limit) (completed_orders ex)
       else skipn (Z.to_nat (- limit)) (completed_orders ex).

(** The calls a bot makes on its order executor, each with what the
    exchange does during the call. *)
Inductive Op : Type :=
| CreateMarketOrder (now : Z) (dummy_id side_str : string) (quantity : Q)
    (info : gmap string string)
| CreateLimitOrder (now : Z) (dummy_id side_str : string) (quantity price : Q)
    (info : gmap string string)
| CancelOrder (now : Z) (oid : string) (response : Py.exc bool)
| GetOrderStatus (now : Z) (oid : string) (response : Py.exc (option ExchangeOrder)).

Definition executor_after (r : Py.exc (option OrderInfo * OrderExecutor))
    (ex : OrderExecutor) : OrderExecutor :=
  match r with
  | Py.Return (_, ex') => ex'
  | Py.Raise _ => ex
  end.

Definition step (op : Op) (ex : OrderExecutor) : OrderExecutor :=
  match op with
  | CreateMarketOrder now did sd qty info =>
      executor_after (fst (create_market_order now did sd qty info ex)) ex
  | CreateLimitOrder now did sd qty price info =>
      executor_after (fst (create_limit_order now did sd qty price info ex)) ex
  | CancelOrder now oid response => snd (cancel_order now oid response ex)
  | GetOrderStatus now oid response => snd (get_order_status now oid response ex)
  end.

Fixpoint run (ops : list Op) (ex : OrderExecutor) : OrderExecutor :=
  match ops with
  | [] => ex
  | op :: rest => run rest (step op ex)
  end.

(** An exchange whose market submissions fail twice, by an exception and
    by an empty answer, and then succeed with an open order. *)
Definition flaky_call (n : nat) : Py.exc (option ExchangeOrder) :=
  match n with
  | O => Py.Raise Py.RuntimeError
  | S O => Py.Return None
  | _ => Py.Return (Some (mkExchangeOrder (Some "m1"%string) (Some "open"%string)
                            None (Some 0%Q) (Some 0%Q) None))
  end.

Definition flaky_client : ExchangeClient :=
  mkExchangeClient (Some flaky_call) (Some flaky_call).




End OrderExec.

(** ** PositionManager *)

Module PositionMgr.

Import OrderExec.

Inductive PositionStatus : Type := EMPTY | BUILDING | HOLDING | CLOSING | CLOSED.

Record GridLevel : Type := mkGridLevel {
  gl_level : Z;
  gl_target_price : Q;
  gl_quantity : Q;
  gl_amount_usdt : Q;
  gl_executed : bool
}.

Record Position : Type := mkPosition {
  pos_symbol : string;
  pos_status : PositionStatus;
  total_quantity : Q;
  total_cost : Q;
  pos_average_price : Q;
  grid_level : Z;
  max_grid_level : Z;
  grid_levels : list GridLevel;
  unrealized_pnl : Q;
  realized_pnl : Q;
  target_profit_price : option Q;
  stop_loss_price : option Q;
  opened_at : option Z;
  last_update : Z
}.

(** [Position(symbol=symbol, status=PositionStatus.EMPTY)] with the
    dataclass defaults and [__post_init__]. *)
Definition empty_position (now : Z) (sym : string) : Position :=
  mkPosition sym EMPTY 0 0 0 0 7 [] 0 0 None None None now.

(** [Position.update_average_price] *)
Definition update_average_price (p : Position) : Position :=
  mkPosition (pos_symbol p) (pos_status p) (total_quantity p) (total_cost p)
    (if Qltb 0 (total_quantity p) then (total_cost p / total_quantity p)%Q else 0%Q)
    (grid_level p) (max_grid_level p) (grid_levels p)
    (unrealized_pnl p) (realized_pnl p)
    (target_profit_price p) (stop_loss_price p) (opened_at p) (last_update p).

(** [Position.calculate_unrealized_pnl] *)
Definition calculate_unrealized_pnl (current_price : Q) (p : Position) : Position :=
  mkPosition (pos_symbol p) (pos_status p) (total_quantity p) (total_cost p)
    (pos_average_price p) (grid_level p) (max_grid_level p) (grid_levels p)
    (if Qltb 0 (total_quantity p)
     then (total_quantity p * current_price - total_cost p)%Q else 0%Q)
    (realized_pnl p)
    (target_profit_price p) (stop_loss_price p) (opened_at p) (last_update p).

(** [Position.get_profit_percentage] *)
Definition get_profit_percentage (current_price : Q) (p : Position) : Q :=
  if Qltb 0 (pos_average_price p)
  then ((current_price - pos_average_price p) / pos_average_price p * 100)%Q
  else 0%Q.

Definition set_status_opened (p : Position) (s : PositionStatus)
    (opened : option Z) : Position :=
  mkPosition (pos_symbol p) s (total_quantity p) (total_cost p)
    (pos_average_price p) (grid_level p) (max_grid_level p) (grid_levels p)
    (unrealized_pnl p) (realized_pnl p)
    (target_profit_price p) (stop_loss_price p) opened (last_update p).

Definition set_holdings (p : Position) (qty cst : Q) : Position :=
  mkPosition (pos_symbol p) (pos_status p) qty cst
    (pos_average_price p) (grid_level p) (max_grid_level p) (grid_levels p)
    (unrealized_pnl p) (realized_pnl p)
    (target_profit_price p) (stop_loss_price p) (opened_at p) (last_update p).

Definition set_grid_level (p : Position) (g : Z) : Position :=
  mkPosition (pos_symbol p) (pos_status p) (total_quantity p) (total_cost p)
    (pos_average_price p) g (max_grid_level p) (grid_levels p)
    (unrealized_pnl p) (realized_pnl p)
    (target_profit_price p) (stop_loss_price p) (opened_at p) (last_update p).

Definition set_realized_pnl (p : Position) (r : Q) : Position :=
  mkPosition (pos_symbol p) (pos_status p) (total_quantity p) (total_cost p)
    (pos_average_price p) (grid_level p) (max_grid_level p) (grid_levels p)
    (unrealized_pnl p) r
    (target_profit_price p) (stop_loss_price p) (opened_at p) (last_update p).

Definition set_target_update (p : Position) (t : option Q) (now : Z) : Position :=
  mkPosition (pos_symbol p) (pos_status p) (total_quantity p) (total_cost p)
    (pos_average_price p) (grid_level p) (max_grid_level p) (grid_levels p)
    (unrealized_pnl p) (realized_pnl p)
    t (stop_loss_price p) (opened_at p) now.

Record PositionManager : Type := mkPositionManager {
  bot_id : Z;
  capital : Q;
  pm_symbol : string;
  position : Position;
  pending_orders : gmap string OrderInfo;
  pm_completed_orders : list OrderInfo;
  total_cycles : Z;
  successful_cycles : Z;
  total_fees : Q
}.

(** [PositionManager.__init__] followed by [initialize], which leaves the
    empty position in place. *)
Definition init (now : Z) (bot : Z) (cap : Q) (sym : string) : PositionManager :=
  mkPositionManager bot cap sym (empty_position now sym) ∅ [] 0 0 0.

Definition set_position (pm : PositionManager) (p : Position) : PositionManager :=
  mkPositionManager (bot_id pm) (capital pm) (pm_symbol pm) p
    (pending_orders pm) (pm_completed_orders pm)
    (total_cycles pm) (successful_cycles pm) (total_fees pm).

Definition set_pending (pm : PositionManager) (pend : gmap string OrderInfo)
    (done : list OrderInfo) : PositionManager :=
  mkPositionManager (bot_id pm) (capital pm) (pm_symbol pm) (position pm)
    pend done (total_cycles pm) (successful_cycles pm) (total_fees pm).

Definition set_cycles (pm : PositionManager) (tc sc : Z) (fees : Q) : PositionManager :=
  mkPositionManager (bot_id pm) (capital pm) (pm_symbol pm) (position pm)
    (pending_orders pm) (pm_completed_orders pm) tc sc fees.

(** [add_buy_order] *)
Definition add_buy_order (now : Z) (o : OrderInfo) (pm : PositionManager)
    : PositionManager :=
  if negb (OrderSide_eqb (side o) BUY) then pm
  else
    let pm1 := set_pending pm (<[order_id o := o]> (pending_orders pm))
                 (pm_completed_orders pm) in
    match pos_status (position pm1) with
    | EMPTY => set_position pm1 (set_status_opened (position pm1) BUILDING (Some now))
    | _ => pm1
    end.

(** [add_sell_order] *)
Definition add_sell_order (o : OrderInfo) (pm : PositionManager) : PositionManager :=
  if negb (OrderSide_eqb (side o) SELL) then pm
  else
    let pm1 := set_pending pm (<[order_id o := o]> (pending_orders pm))
                 (pm_completed_orders pm) in
    if Qleb (total_quantity (position pm1)) (quantity o)
    then set_position pm1
           (set_status_opened (position pm1) CLOSING (opened_at (position pm1)))
    else pm1.

(** [_close_position]; the status passes through [CLOSED] for the one
    second the method sleeps and is [EMPTY] when it returns. *)
Definition _close_position (pm : PositionManager) : PositionManager :=
  let p := position pm in
  set_position pm
    (mkPosition (pos_symbol p) EMPTY 0 0 0 0 (max_grid_level p) (grid_levels p)
       0 (realized_pnl p) (target_profit_price p) (stop_loss_price p)
       (opened_at p) (last_update p)).

(** The dust threshold [Decimal('0.00001')]. *)
Definition dust : Q := 1 # 100000.

(** [if order.fee: self.total_fees += Decimal(str(order.fee.get('cost', 0)))] *)
Definition add_fee (o : OrderInfo) (pm : PositionManager) : PositionManager :=
  match fee o with
  | Some d =>
      if decide (d = ∅) then pm
      else set_cycles pm (total_cycles pm) (successful_cycles pm)
             (total_fees pm + match d !! "cost"%string with
                              | Some c => c | None => 0 end)%Q
  | None => pm
  end.

Definition touch (now : Z) (pm : PositionManager) : PositionManager :=
  set_position pm
    (set_target_update (position pm) (target_profit_price (position pm)) now).

(** [_process_filled_order] *)
Definition _process_filled_order (now : Z) (o : OrderInfo) (pm : PositionManager)
    : PositionManager :=
  let pm1 :=
    match side o with
    | BUY =>
        let p := position pm in
        let p1 := set_holdings p (total_quantity p + filled_quantity o)%Q
                    (total_cost p + cost o)%Q in
        let p2 := update_average_price p1 in
        let p3 := set_grid_level p2 (grid_level p2 + 1) in
        set_position pm (set_status_opened p3 HOLDING (opened_at p3))
    | SELL =>
        let p := position pm in
        let sold_quantity := filled_quantity o in
        let sold_value := cost o in
        let cost_basis := (pos_average_price p * sold_quantity)%Q in
        let pnl := (sold_value - cost_basis)%Q in
        let p1 := set_realized_pnl p (realized_pnl p + pnl)%Q in
        let qty := (total_quantity p1 - sold_quantity)%Q in
        let p2 := set_holdings p1 qty (qty * pos_average_price p1)%Q in
        let pm2 := set_position pm p2 in
        if Qleb (total_quantity p2) dust then
          let pm3 := _close_position pm2 in
          set_cycles pm3 (total_cycles pm3 + 1)
            (if Qltb 0 pnl then successful_cycles pm3 + 1 else successful_cycles pm3)
            (total_fees pm3)
        else pm2
    end in
  touch now (add_fee o pm1).

(** [update_order_status] *)
Definition update_order_status (now : Z) (updated_order : OrderInfo)
    (pm : PositionManager) : PositionManager :=
  let oid := order_id updated_order in
  match pending_orders pm !! oid with
  | None => pm
  | Some _ =>
      let pm1 := set_pending pm (<[oid := updated_order]> (pending_orders pm))
                   (pm_completed_orders pm) in
      match status updated_order with
      | FILLED =>
          let pm2 := _process_filled_order now updated_order pm1 in
          set_pending pm2 (delete oid (pending_orders pm2))
            (pm_completed_orders pm2 ++ [updated_order])
      | CANCELED | REJECTED =>
          set_pending pm1 (delete oid (pending_orders pm1))
            (pm_completed_orders pm1 ++ [updated_order])
      | _ => pm1
      end
  end.

(** [update_position] *)
Definition update_position (now : Z) (current_price : Q) (pm : PositionManager)
    : PositionManager :=
  let p := calculate_unrealized_pnl current_price (position pm) in
  let truthy := match target_profit_price p with
                | Some t => negb (Qeqb t 0) | None => false end in
  let target :=
    if Qltb 0 (total_quantity p) && negb truthy
    then Some (pos_average_price p * (1 + (1 # 2) / 100))%Q
    else target_profit_price p in
  set_position pm (set_target_update p target now).

(** [clear_position] *)
Definition clear_position (now : Z) (pm : PositionManager) : PositionManager :=
  set_pending (set_position pm (empty_position now (pm_symbol pm)))
    ∅ (pm_completed_orders pm).

(** [has_open_position] *)
Definition has_open_position (pm : PositionManager) : bool :=
  match pos_status (position pm) with
  | BUILDING | HOLDING | CLOSING => true
  | _ => false
  end.

(** [should_add_grid_level] *)
Definition should_add_grid_level (current_price drop_threshold : Q)
    (pm : PositionManager) : bool :=
  let p := position pm in
  if (max_grid_level p <=? grid_level p) then false
  else if Qleb (pos_average_price p) 0 then false
  else Qleb drop_threshold
         ((pos_average_price p - current_price) / pos_average_price p * 100)%Q.

(** The calls a bot makes on its position manager. *)
Inductive Op : Type :=
| AddBuyOrder (now : Z) (o : OrderInfo)
| AddSellOrder (o : OrderInfo)
| UpdateOrderStatus (now : Z) (o : OrderInfo)
| UpdatePosition (now : Z) (current_price : Q)
| ClearPosition (now : Z).

Definition step (op : Op) (pm : PositionManager) : PositionManager :=
  match op with
  | AddBuyOrder now o => add_buy_order now o pm
  | AddSellOrder o => add_sell_order o pm
  | UpdateOrderStatus now o => update_order_status now o pm
  | UpdatePosition now price => update_position now price pm
  | ClearPosition now => clear_position now pm
  end.

Fixpoint run (ops : list Op) (pm : PositionManager) : PositionManager :=
  match ops with
  | [] => pm
  | op :: rest => run rest (step op pm)
  end.

(** A market buy that the exchange reports filled: [qty] units at [px]. *)
Definition filled_buy (oid : string) (qty px : Q) : OrderInfo :=
  update_status 0 FILLED (Some qty) (Some px)
    (set_order_id (new_order 0 "BTC/USDT" BUY MARKET qty None ∅) oid).

(** Registering and then filling one buy. *)
Definition buy_cycle (oid : string) (qty px : Q) : list Op :=
  [AddBuyOrder 0 (filled_buy oid qty px); UpdateOrderStatus 0 (filled_buy oid qty px)].

Definition eight_buys : list Op :=
  buy_cycle "b1" 1 100 ++ buy_cycle "b2" 1 100 ++ buy_cycle "b3" 1 100 ++
  buy_cycle "b4" 1 100 ++ buy_cycle "b5" 1 100 ++ buy_cycle "b6" 1 100 ++
  buy_cycle "b7" 1 100 ++ buy_cycle "b8" 1 100.

(** The accounting identity between the three holdings fields. *)
Definition average_consistent (p : Position) : Prop :=
  (0 < total_quantity p)%Q ->
  (pos_average_price p == total_cost p / total_quantity p)%Q.

(** Two fills at different prices: 1 unit at 100, then 2 units at 97. *)
Definition two_buys : list Op := buy_cycle "b1" 1 100 ++ buy_cycle "b2" 2 97.

(** [should_take_profit] *)
Definition should_take_profit (current_price profit_threshold : Q)
    (pm : PositionManager) : bool :=
  if Qleb (pos_average_price (position pm)) 0 then false
  else Qleb profit_threshold (get_profit_percentage current_price (position pm)).

(** [should_stop_loss] *)
Definition should_stop_loss (current_price loss_threshold : Q)
    (pm : PositionManager) : bool :=
  if Qleb (pos_average_price (position pm)) 0 then false
  else Qleb (get_profit_percentage current_price (position pm)) loss_threshold.

(** [Decimal ** int], as far as it is a finite number: [None] when it is
    not, which happens for a zero base only, where an exponent of zero
    raises [InvalidOperation] and a negative exponent gives [Infinity]. *)
Definition decimal_pow (base : Q) (exponent : Z) : option Q :=
  if Qeqb base 0 && (exponent <=? 0) then None else Some (base ^ exponent)%Q.

(** [get_next_grid_amount]: [base_amount * multiplier ** (next_level - 1)],
    as far as it is a finite number. *)
Definition get_next_grid_amount (base_amount multiplier : Q)
    (pm : PositionManager) : option Q :=
  let next_level := grid_level (position pm) + 1 in
  match decimal_pow multiplier (next_level - 1) with
  | Some factor => Some (base_amount * factor)%Q
  | None => None
  end.

(** [Decimal.quantize(Decimal('0.0001'), rounding=ROUND_DOWN)]: the digits
    after the fourth decimal are cut off, toward zero. *)
Definition quantize_down4 (q : Q) : Q :=
  Z.quot (Qnum q * 10000) (Zpos (Qden q)) # 10000.

(** [calculate_position_size] *)
Definition calculate_position_size (usdt_amount price : Q) : Q :=
  if Qleb price 0 then 0%Q else quantize_down4 (usdt_amount / price).

(** [calculate_cycle_profit]; an order without an average price makes the
    subtraction raise. *)
Definition calculate_cycle_profit (sell_order : OrderInfo) (pm : PositionManager)
    : Py.exc Q :=
  match side sell_order with
  | BUY => Py.Return 0%Q
  | SELL =>
      match average_price sell_order with
      | None => Py.Raise Py.TypeError
      | Some sold_at =>
          Py.Return ((sold_at - pos_average_price (position pm))
                     * filled_quantity sell_order)%Q
      end
  end.

(** A market sell that the exchange reports filled: [qty] units at [px]. *)
Definition filled_sell (oid : string) (qty px : Q) : OrderInfo :=
  update_status 0 FILLED (Some qty) (Some px)
    (set_order_id (new_order 0 "BTC/USDT" SELL MARKET qty None ∅) oid).

(** Registering and then filling one sell. *)
Definition sell_cycle (oid : string) (qty px : Q) : list Op :=
  [AddSellOrder (filled_sell oid qty px); UpdateOrderStatus 0 (filled_sell oid qty px)].

(** The position manager after the two buys of [two_buys]: 3 units bought
    for 294. *)
Definition holding_three : PositionManager := run two_buys (init 0 1 1000 "BTC/USDT").

(** Whether an update of that status retires the order. *)
Definition retires (s : OrderStatus) : bool :=
  match s with
  | FILLED | CANCELED | REJECTED => true
  | _ => false
  end.

(** Every filled buy of the schedule reports a quantity that is not
    negative. *)
Definition buys_nonnegative (ops : list Op) : Prop :=
  Forall (fun op => match op with
                    | UpdateOrderStatus _ o =>
                        side o = BUY -> (0 <= filled_quantity o)%Q
                    | _ => True
                    end) ops.

Definition is_clear (op : Op) : bool :=
  match op with
  | ClearPosition _ => true
  | _ => false
  end.

(** The cycle counters: the successful cycles are among the counted ones. *)
Definition counters_ok (pm : PositionManager) : Prop :=
  0 <= successful_cycles pm <= total_cycles pm.

(** A position whose target price was set by a price update at 98, sold
    out, and bought again at 50. *)
Definition next_cycle : list Op :=
  sell_cycle "s1" 3 99 ++ buy_cycle "b3" 1 50 ++ [UpdatePosition 0 50].

(** [PositionStatus.value] *)
Definition PositionStatus_value (s : PositionStatus) : string :=
  match s with
  | EMPTY => "empty"
  | BUILDING => "building"
  | HOLDING => "holding"
  | CLOSING => "closing"
  | CLOSED => "closed"
  end.

(** A Python [float]: a finite binary fraction or an infinity. *)
Inductive PyFloat : Type :=
| Finite (x : Q)
| Infinity (negative : bool).

(** The numbers a position dict can hold. *)
Inductive Num : Type :=
| NInt (n : Z)
| NFloat (f : PyFloat)
| NDecimal (d : Q).

(** A position dict; [None] is an absent key.  The two target prices are
    present in the dict of [get_current_position] also when their value is
    [None], and so is [opened_at]. *)
Record PositionDict : Type := mkPositionDict {
  pd_symbol : option string;
  pd_status : option string;
  pd_total_quantity : option Num;
  pd_total_cost : option Num;
  pd_average_price : option Num;
  pd_grid_level : option Z;
  pd_max_grid_level : option Z;
  pd_unrealized_pnl : option Num;
  pd_realized_pnl : option Num;
  pd_target_profit_price : option (option Num);
  pd_stop_loss_price : option (option Num);
  pd_opened_at : option (option Z);
  pd_last_update : option Z;
  pd_last_buy_price : option Num;
  pd_total_invested : option Num
}.

(** [float(x) if x else None] for an optional decimal. *)
Definition float_if_truthy (to_float : Q -> PyFloat) (x : option Q) : option Num :=
  match x with
  | Some d => if Qeqb d 0 then None else Some (NFloat (to_float d))
  | None => None
  end.

(** [get_current_position]; [to_float] is the conversion [float(...)] of a
    decimal. *)
Definition get_current_position (to_float : Q -> PyFloat) (pm : PositionManager)
    : PositionDict :=
  let p := position pm in
  mkPositionDict
    (Some (pos_symbol p))
    (Some (PositionStatus_value (pos_status p)))
    (Some (NFloat (to_float (total_quantity p))))
    (Some (NFloat (to_float (total_cost p))))
    (Some (NFloat (to_float (pos_average_price p))))
    (Some (grid_level p))
    (Some (max_grid_level p))
    (Some (NFloat (to_float (unrealized_pnl p))))
    (Some (NFloat (to_float (realized_pnl p))))
    (Some (float_if_truthy to_float (target_profit_price p)))
    (Some (float_if_truthy to_float (stop_loss_price p)))
    (Some (opened_at p))
    (Some (last_update p))
    None
    None.

End PositionMgr.

(** ** StrategyExecutor *)

Module Strategy.

Import PositionMgr.

(** A call that raises yields [None]; [get_signal] catches every
    exception. *)
Definition bind {A B : Type} (m : option A) (k : A -> option B) : option B :=
  match m with
  | Some a => k a
  | None => None
  end.

Notation "'let?' x := m 'in' k" := (bind m (fun x => k))
  (at level 10, x name, m at level 100, k at level 200).

Inductive Action : Type := BUY | SELL | HOLD.

Inductive OrderKind : Type := LIMIT | MARKET.

(** The texts of [reason]. *)
Inductive Reason : Type :=
| InitialBuy                      (* "단타로 1단계 매수" *)
| GridBuy (next_level : Z)        (* "단타로 {next_level}단계 물타기" *)
| TakeProfit (profit_rate : Q)    (* "단타로 익절 (수익률: ...%)" *)
| StopLoss                        (* "단타로 손절" *)
| Waiting                         (* "단타로 대기 중" *)
| MaxGridLevel                    (* "최대 그리드 레벨 도달" *)
| NotImplementedYet               (* "... 전략 구현 예정" *)
| Unsupported                     (* "지원하지 않는 전략" *)
| ErrorOccurred.                  (* "오류 발생: ..." *)

(** [StrategySignal]; [confidence] keeps its default 1.0 and
    [stop_loss_price] its default [None] in every signal the executor
    builds. *)
Record StrategySignal : Type := mkStrategySignal {
  action : Action;
  price : option Q;
  quantity : option Num;
  order_type : OrderKind;
  reason : Reason;
  sig_grid_level : option Z;
  sig_target_profit_price : option Q
}.

(** [StrategySignal(action="HOLD", reason=...)] *)
Definition hold (why : Reason) : StrategySignal :=
  mkStrategySignal HOLD None None LIMIT why None None.

(** The keys of [settings] that the executor reads. *)
Record Settings : Type := mkSettings {
  s_capital : option Q;
  s_profit_target : option Q;
  s_stop_loss : option Q;
  s_grid_levels : option Z;
  s_base_amount : option Q;
  s_multiplier : option Q
}.

Record StrategyExecutor : Type := mkStrategyExecutor {
  strategy_name : string;
  settings : Settings;
  profit_target : Q;
  stop_loss : Q;
  grid_levels : Z;
  base_amount : Q;
  multiplier : Q;
  (* the attribute exists only after [_initialize_dantaro] *)
  grid_amounts : option (list Q)
}.

Definition get_default {A : Type} (x : option A) (default : A) : A :=
  match x with
  | Some a => a
  | None => default
  end.

(** [StrategyExecutor.__init__] *)
Definition __init__ (name : string) (st : Settings) : StrategyExecutor :=
  mkStrategyExecutor name st
    (get_default (s_profit_target st) (1 # 2))
    (get_default (s_stop_loss st) (-10)%Q)
    (get_default (s_grid_levels st) 7)
    (get_default (s_base_amount st) 10%Q)
    (get_default (s_multiplier st) 2%Q)
    None.

(** [_calculate_grid_amounts]: [base_amount * multiplier ** level] for
    [level in range(grid_levels)].  The levels are not negative, so the
    power has no finite value only where it raises. *)
Fixpoint grid_amounts_from (base m : Q) (level : Z) (count : nat) : option (list Q) :=
  match count with
  | O => Some []
  | S rest =>
      let? factor := decimal_pow m level in
      let? tail := grid_amounts_from base m (level + 1) rest in
      Some ((base * factor)%Q :: tail)
  end.

Definition _calculate_grid_amounts (ex : StrategyExecutor) : option (list Q) :=
  grid_amounts_from (base_amount ex) (multiplier ex) 0 (Z.to_nat (grid_levels ex)).

Definition set_grid_amounts (ex : StrategyExecutor) (l : list Q) : StrategyExecutor :=
  mkStrategyExecutor (strategy_name ex) (settings ex) (profit_target ex)
    (stop_loss ex) (grid_levels ex) (base_amount ex) (multiplier ex) (Some l).

(** [_initialize_dantaro]: [ValueError] when one of the required settings
    is missing. *)
Definition _initialize_dantaro (ex : StrategyExecutor) : option StrategyExecutor :=
  match s_capital (settings ex), s_profit_target (settings ex),
        s_grid_levels (settings ex) with
  | Some _, Some _, Some _ =>
      let? amounts := _calculate_grid_amounts ex in
      Some (set_grid_amounts ex amounts)
  | _, _, _ => None
  end.

(** [initialize] *)
Definition initialize (ex : StrategyExecutor) : option StrategyExecutor :=
  if String.eqb (strategy_name ex) "dantaro" then _initialize_dantaro ex
  else Some ex.

(** [amounts[i]], with Python's negative indices; [IndexError] outside. *)
Definition py_index (amounts : list Q) (i : Z) : option Q :=
  let len := Z.of_nat (length amounts) in
  if (0 <=? i) then nth_error amounts (Z.to_nat i)
  else if (- len <=? i) then nth_error amounts (Z.to_nat (len + i))
  else None.

Definition num_value (v : Num) : option Q :=
  match v with
  | NInt n => Some (inject_Z n)
  | NDecimal d => Some d
  | NFloat _ => None
  end.

(** [v <= 0] *)
Definition le_zero (v : Num) : bool :=
  match v with
  | NInt n => n <=? 0
  | NDecimal d => Qleb d 0
  | NFloat (Finite x) => Qleb x 0
  | NFloat (Infinity negative) => negative
  end.

(** [d - v] and [v - d] for a decimal [d]: a [float] operand raises
    [TypeError]. *)
Definition decimal_minus (d : Q) (v : Num) : option Q :=
  let? x := num_value v in Some (d - x)%Q.

Definition minus_decimal (v : Num) (d : Q) : option Q :=
  let? x := num_value v in Some (x - d)%Q.

(** [d / v] for a decimal [d]; a zero divisor raises. *)
Definition decimal_over (d : Q) (v : Num) : option Q :=
  let? x := num_value v in
  if Qeqb x 0 then None else Some (d / x)%Q.

(** [(current_price - average_price) / average_price * 100] *)
Definition rate_over (current_price : Q) (average_price : Num) : option Q :=
  let? diff := decimal_minus current_price average_price in
  let? ratio := decimal_over diff average_price in
  Some (ratio * 100)%Q.

(** [_should_take_profit] *)
Definition _should_take_profit (ex : StrategyExecutor) (current_price : Q)
    (average_price : Num) : option bool :=
  if le_zero average_price then Some false
  else
    let? profit_rate := rate_over current_price average_price in
    Some (Qleb (profit_target ex) profit_rate).

(** [_should_add_position] *)
Definition _should_add_position (ex : StrategyExecutor) (current_price : Q)
    (position : PositionDict) : option bool :=
  let last_buy_price := get_default (pd_last_buy_price position) (NInt 0) in
  let current_level := get_default (pd_grid_level position) 0 in
  if le_zero last_buy_price || (grid_levels ex <=? current_level) then Some false
  else
    let? diff := minus_decimal last_buy_price current_price in
    let? ratio := decimal_over diff last_buy_price in
    Some (Qleb 2%Q (ratio * 100)%Q).

(** [_should_stop_loss] *)
Definition _should_stop_loss (ex : StrategyExecutor) (current_price : Q)
    (position : PositionDict) : option bool :=
  let average_price := get_default (pd_average_price position) (NInt 0) in
  if le_zero average_price then Some false
  else
    let? loss_rate := rate_over current_price average_price in
    Some (Qleb loss_rate (stop_loss ex)).

(** [buy_amount_usdt / current_price] *)
Definition decimal_div (a b : Q) : option Q :=
  if Qeqb b 0 then None else Some (a / b)%Q.

(** [_dantaro_initial_buy] *)
Definition _dantaro_initial_buy (ex : StrategyExecutor) (current_price : Q)
    : option StrategySignal :=
  let? amounts := grid_amounts ex in
  let? buy_amount_usdt := py_index amounts 0 in
  let? qty := decimal_div buy_amount_usdt current_price in
  Some (mkStrategySignal BUY (Some current_price) (Some (NDecimal qty)) MARKET
          InitialBuy (Some 1)
          (Some (current_price * (1 + profit_target ex / 100))%Q)).

(** [_dantaro_add_buy_signal] *)
Definition _dantaro_add_buy_signal (ex : StrategyExecutor) (current_price : Q)
    (current_level : Z) : option StrategySignal :=
  let next_level := current_level + 1 in
  if grid_levels ex <? next_level then Some (hold MaxGridLevel)
  else
    let? amounts := grid_amounts ex in
    let? buy_amount_usdt := py_index amounts (next_level - 1) in
    let? qty := decimal_div buy_amount_usdt current_price in
    Some (mkStrategySignal BUY (Some current_price) (Some (NDecimal qty)) MARKET
            (GridBuy next_level) (Some next_level) None).

(** [_dantaro_sell_signal]; the reason text formats the profit rate. *)
Definition _dantaro_sell_signal (current_price : Q) (total_quantity average_price : Num)
    : option StrategySignal :=
  let? profit_rate := rate_over current_price average_price in
  Some (mkStrategySignal SELL (Some current_price) (Some total_quantity) MARKET
          (TakeProfit profit_rate) (Some 0) None).

(** [_dantaro_stop_loss_signal] *)
Definition _dantaro_stop_loss_signal (current_price : Q) (total_quantity : Num)
    : StrategySignal :=
  mkStrategySignal SELL (Some current_price) (Some total_quantity) MARKET
    StopLoss (Some 0) None.

(** [_execute_dantaro_strategy] *)
Definition _execute_dantaro_strategy (ex : StrategyExecutor) (current_price : Q)
    (position : PositionDict) : option StrategySignal :=
  let current_grid_level := get_default (pd_grid_level position) 0 in
  let average_price := get_default (pd_average_price position) (NInt 0) in
  let total_quantity := get_default (pd_total_quantity position) (NInt 0) in
  if current_grid_level =? 0 then _dantaro_initial_buy ex current_price
  else
    let? take := _should_take_profit ex current_price average_price in
    if take then _dantaro_sell_signal current_price total_quantity average_price
    else
      let? add := _should_add_position ex current_price position in
      if add then _dantaro_add_buy_signal ex current_price current_grid_level
      else
        let? stop := _should_stop_loss ex current_price position in
        if stop then Some (_dantaro_stop_loss_signal current_price total_quantity)
        else Some (hold Waiting).

(** [get_signal]: the handler of the strategy, with every exception turned
    into a HOLD.  The market analysis and the signal history that the
    method also writes are read by no handler. *)
Definition get_signal (ex : StrategyExecutor) (current_price : Q)
    (position : PositionDict) : StrategySignal :=
  let handled :=
    if String.eqb (strategy_name ex) "dantaro"
    then _execute_dantaro_strategy ex current_price position
    else if String.eqb (strategy_name ex) "scalping" then Some (hold NotImplementedYet)
    else if String.eqb (strategy_name ex) "grid" then Some (hold NotImplementedYet)
    else Some (hold Unsupported) in
  match handled with
  | Some signal => signal
  | None => hold ErrorOccurred
  end.

(** The settings of the module's own test: 7 levels, base 10, doubling. *)
Definition test_settings : Settings :=
  mkSettings (Some 1000%Q) (Some (1 # 2)) (Some (-10)%Q) (Some 7) (Some 10%Q)
    (Some 2%Q).

(** A position dict with decimal values, as the strategy expects it. *)
Definition decimal_position (level : Z) (average last_buy qty : Q) : PositionDict :=
  mkPositionDict None None (Some (NDecimal qty)) None (Some (NDecimal average))
    (Some level) None None None None None None None (Some (NDecimal last_buy)) None.

Fixpoint sum (l : list Q) : Q :=
  match l with
  | [] => 0%Q
  | x :: rest => (x + sum rest)%Q
  end.

End Strategy.

(** ** BotRunner *)

Module Runner.

Inductive BotState : Type :=
| IDLE | INITIALIZING | RUNNING | PAUSED | STOPPING | STOPPED | ERROR.

(** The [config] dictionary; the constructor subscripts four keys. *)
Record Config : Type := mkConfig {
  cfg_symbol : option string;
  cfg_strategy : option string;
  cfg_capital : option Q;
  cfg_exchange : option string
}.

(** A positional argument of a call.  Python binds arguments by position
    and does not look at their types. *)
Inductive PyArg : Type :=
| ArgInt (z : Z)
| ArgContext (bot : Z)            (* a [BotContext] object *)
| ArgApiKeys                      (* the dictionary of API keys *)
| ArgConfig (c : Config).

Record BotRunner : Type := mkBotRunner {
  bot_id : PyArg;
  user_id : PyArg;
  symbol : string;
  strategy_name : string;
  capital : Q;
  exchange_name : string;
  state : BotState;
  _stop_requested : bool;
  _graceful_stop_requested : bool;
  _paused : bool;
  _running : bool;
  last_price : option Q;
  tick_count : Z;
  error_count : Z;
  tick_interval : Q;
  heartbeat_interval : Q;
  price_update_interval : Q;
  total_trades : Z;
  successful_trades : Z;
  total_profit : Q
}.

(** [config[key]] on whatever was bound to [config] *)
Definition subscript {A : Type} (config : PyArg) (key : Config -> option A)
    : Py.exc A :=
  match config with
  | ArgConfig c => match key c with
                   | Some v => Py.Return v
                   | None => Py.Raise Py.KeyError
                   end
  | ArgApiKeys => Py.Raise Py.KeyError
  | _ => Py.Raise Py.TypeError
  end.

(** [BotRunner.__init__(self, bot_id, user_id, config)] *)
Definition __init__ (a_bot_id a_user_id a_config : PyArg) : Py.exc BotRunner :=
  do sym <- subscript a_config cfg_symbol;
  do strat <- subscript a_config cfg_strategy;
  do cap <- subscript a_config cfg_capital;
  do exch <- subscript a_config cfg_exchange;
  Py.Return (mkBotRunner a_bot_id a_user_id sym strat cap exch IDLE
               false false false false None 0 0 5 60 10 0 0 0).

(** The call [BotRunner(args...)]: the constructor has three required
    positional parameters besides [self]; any other number of arguments
    is a [TypeError] raised before the body runs. *)
Definition BotRunner_call (args : list PyArg) : Py.exc BotRunner :=
  match args with
  | [a; b; c] => __init__ a b c
  | _ => Py.Raise Py.TypeError
  end.

Definition set_flags (r : BotRunner) (st : BotState)
    (stop graceful paused running : bool) : BotRunner :=
  mkBotRunner (bot_id r) (user_id r) (symbol r) (strategy_name r) (capital r)
    (exchange_name r) st stop graceful paused running
    (last_price r) (tick_count r) (error_count r)
    (tick_interval r) (heartbeat_interval r) (price_update_interval r)
    (total_trades r) (successful_trades r) (total_profit r).

Definition set_progress (r : BotRunner) (price : option Q) (ticks errors : Z)
    : BotRunner :=
  mkBotRunner (bot_id r) (user_id r) (symbol r) (strategy_name r) (capital r)
    (exchange_name r) (state r) (_stop_requested r)
    (_graceful_stop_requested r) (_paused r) (_running r)
    price ticks errors
    (tick_interval r) (heartbeat_interval r) (price_update_interval r)
    (total_trades r) (successful_trades r) (total_profit r).

Definition set_trades (r : BotRunner) (trades wins : Z) (profit : Q) : BotRunner :=
  mkBotRunner (bot_id r) (user_id r) (symbol r) (strategy_name r) (capital r)
    (exchange_name r) (state r) (_stop_requested r)
    (_graceful_stop_requested r) (_paused r) (_running r)
    (last_price r) (tick_count r) (error_count r)
    (tick_interval r) (heartbeat_interval r) (price_update_interval r)
    trades wins profit.

(** *** External control methods *)

Definition stop (r : BotRunner) : BotRunner :=
  set_flags r (state r) true (_graceful_stop_requested r) (_paused r) (_running r).

Definition request_graceful_stop (r : BotRunner) : BotRunner :=
  set_flags r (state r) (_stop_requested r) true (_paused r) (_running r).

Definition pause (r : BotRunner) : BotRunner :=
  set_flags r PAUSED (_stop_requested r) (_graceful_stop_requested r) true (_running r).

Definition resume (r : BotRunner) : BotRunner :=
  set_flags r RUNNING (_stop_requested r) (_graceful_stop_requested r) false (_running r).

Definition is_running (r : BotRunner) : bool := _running r.

Inductive Control : Type :=
| CallStop | CallRequestGracefulStop | CallPause | CallResume.

Definition apply_control (c : Control) (r : BotRunner) : BotRunner :=
  match c with
  | CallStop => stop r
  | CallRequestGracefulStop => request_graceful_stop r
  | CallPause => pause r
  | CallResume => resume r
  end.

Definition apply_controls (cs : list Control) (r : BotRunner) : BotRunner :=
  fold_left (fun acc c => apply_control c acc) cs r.

(** *** The collaborators, as one tick sees them *)

Inductive SignalAction : Type := BUY | SELL | HOLD | OtherAction.

Inductive StopReason : Type :=
| ReasonRisk (why : Risk.Reason)
| ReasonRiskManagement            (* "리스크 관리" *)
| ReasonConsecutiveErrors.        (* "연속 오류 발생" *)

(** What the loop does that is visible outside the runner. *)
Inductive Event : Type :=
| EvSleep (seconds : Q)
| EvGetMarketData
| EvCheckRisk
| EvGetSignal
| EvExecuteBuy
| EvExecuteSell
| EvUpdateOrders
| EvUpdatePosition
| EvUpdatePerformance
| EvTickError
| EvEmergencyStop (reason : StopReason)
| EvCancelAllOrders
| EvMarketSell (quantity : Q) (reason : StopReason).

(** The answers the collaborators give during one iteration of the main
    loop.  A call whose callee has no handler of its own may raise. *)
Record TickEnv : Type := mkTickEnv {
  (* control methods called by the owner since the previous iteration *)
  te_controls : list Control;
  (* the task is cancelled while this iteration is suspended *)
  te_cancelled : bool;
  (* [position_manager.has_open_position()] *)
  te_has_position : bool;
  (* [_get_market_data()]: nothing, or a ticker whose ['last'] converts to
     a decimal or fails to *)
  te_market_data : option (Py.exc Q);
  (* [position_manager.get_current_position()] in the tick *)
  te_position : Py.exc unit;
  (* [risk_manager.check_risk(...)] *)
  te_risk : Risk.RiskCheckResult;
  (* [strategy_executor.get_signal(...)] *)
  te_signal : SignalAction;
  (* whether the executed signal produced an order *)
  te_order_placed : bool;
  (* profits of the sells that [_update_orders] finds filled *)
  te_sell_profits : list Q;
  (* ['total_quantity'] of the position read by [_close_all_positions] *)
  te_held_quantity : Py.exc Q
}.

(** [_close_all_positions]: cancel what is open, then sell what is held;
    a failure in between is logged and swallowed. *)
Definition _close_all_positions (reason : StopReason) (env : TickEnv)
    : list Event :=
  EvCancelAllOrders ::
  match te_held_quantity env with
  | Py.Return q => if Qltb 0 q then [EvMarketSell q reason] else []
  | Py.Raise _ => []
  end.

(** [_emergency_stop] *)
Definition _emergency_stop (reason : StopReason) (env : TickEnv) (r : BotRunner)
    : BotRunner * list Event :=
  (set_flags r ERROR true (_graceful_stop_requested r) (_paused r) (_running r),
   EvEmergencyStop reason :: _close_all_positions reason env).

(** [_on_order_filled] for each filled sell found by [_update_orders] *)
Definition record_profit (r : BotRunner) (profit : Q) : BotRunner :=
  set_trades r (total_trades r)
    (if Qltb 0 profit then successful_trades r + 1 else successful_trades r)
    (total_profit r + profit)%Q.

Inductive LoopControl : Type := Continue | Break.

(** How the guarded body of one iteration ends. *)
Inductive TickOutcome : Type :=
| Finished (r : BotRunner) (trace : list Event) (ctl : LoopControl)
| Raised (r : BotRunner) (trace : list Event)
| Cancelled (r : BotRunner).

(** Steps 3 to 6 of the tick, after the risk gate. *)
Definition trade_steps (env : TickEnv) (r : BotRunner) : BotRunner * list Event :=
  let '(r1, ev) :=
    match te_signal env with
    | BUY =>
        ((if te_order_placed env
          then set_trades r (total_trades r + 1) (successful_trades r) (total_profit r)
          else r), [EvExecuteBuy])
    | SELL =>
        ((if te_order_placed env
          then set_trades r (total_trades r + 1) (successful_trades r) (total_profit r)
          else r), [EvExecuteSell])
    | HOLD => (fold_left record_profit (te_sell_profits env) r, [EvUpdateOrders])
    | OtherAction => (r, [])
    end in
  (r1, EvGetSignal :: ev ++
       [EvUpdatePosition; EvUpdatePerformance; EvSleep (tick_interval r)]).

(** The [try] body of [_main_trading_loop]. *)
Definition tick_body (env : TickEnv) (r : BotRunner) : TickOutcome :=
  let r1 := set_progress r (last_price r) (tick_count r + 1) (error_count r) in
  if te_cancelled env then Cancelled r1
  else if _paused r1 then Finished r1 [EvSleep (tick_interval r1)] Continue
  else if _graceful_stop_requested r1 && negb (te_has_position env)
  then Finished r1 [] Break
  else
    match te_market_data env with
    | None => Finished r1 [EvGetMarketData; EvSleep (tick_interval r1 * 2)] Continue
    | Some (Py.Raise _) => Raised r1 [EvGetMarketData]
    | Some (Py.Return current_price) =>
        let r2 := set_progress r1 (Some current_price) (tick_count r1) (error_count r1) in
        match te_position env with
        | Py.Raise _ => Raised r2 [EvGetMarketData]
        | Py.Return _ =>
            let risk_result := te_risk env in
            if Risk.should_stop risk_result then
              let '(r3, evs) :=
                _emergency_stop (ReasonRisk (Risk.reason risk_result)) env r2 in
              Finished r3 ([EvGetMarketData; EvCheckRisk] ++ evs) Break
            else
              let closing :=
                if Risk.should_close_position risk_result
                then _close_all_positions ReasonRiskManagement env else [] in
              if Risk.should_pause risk_result then
                Finished (pause r2) ([EvGetMarketData; EvCheckRisk] ++ closing) Continue
              else
                let '(r3, evs) := trade_steps env r2 in
                Finished r3 ([EvGetMarketData; EvCheckRisk] ++ closing ++ evs) Continue
        end
    end.

(** One iteration of [while not self._stop_requested], with its two
    [except] clauses. *)
Definition loop_iteration (env : TickEnv) (r : BotRunner)
    : BotRunner * list Event * LoopControl :=
  match tick_body env r with
  | Finished r1 tr ctl => (r1, tr, ctl)
  | Cancelled r1 => (r1, [], Break)
  | Raised r1 tr =>
      let r2 := set_progress r1 (last_price r1) (tick_count r1) (error_count r1 + 1) in
      if (5 <=? error_count r2) then
        let '(r3, evs) := _emergency_stop ReasonConsecutiveErrors env r2 in
        (r3, tr ++ EvTickError :: evs, Break)
      else (r2, tr ++ [EvTickError; EvSleep (tick_interval r2 * 2)], Continue)
  end.

Record LoopResult : Type := mkLoopResult {
  lr_runner : BotRunner;
  lr_trace : list Event;
  lr_exited : bool;          (* the [while] loop has been left *)
  lr_iterations : nat        (* iterations whose body was entered *)
}.

(** [_main_trading_loop] against a schedule of environments, one per
    iteration.  When the schedule is used up the loop is still running
    unless the stop flag is set. *)
Fixpoint _main_trading_loop (envs : list TickEnv) (r : BotRunner) : LoopResult :=
  match envs with
  | [] => mkLoopResult r [] (_stop_requested r) 0
  | env :: rest =>
      let r0 := apply_controls (te_controls env) r in
      if _stop_requested r0 then mkLoopResult r0 [] true 0
      else
        match loop_iteration env r0 with
        | (r1, tr, Break) => mkLoopResult r1 tr true 1
        | (r1, tr, Continue) =>
            let res := _main_trading_loop rest r1 in
            mkLoopResult (lr_runner res) (tr ++ lr_trace res)
              (lr_exited res) (S (lr_iterations res))
        end
  end.

(** One iteration of [_heartbeat_loop]: a debug log line and
    [_save_bot_state], whose body is [pass]. *)
Definition _save_bot_state (r : BotRunner) : BotRunner := r.

Definition heartbeat_iteration (r : BotRunner) : BotRunner * list Event :=
  (_save_bot_state r, [EvSleep (heartbeat_interval r)]).

(** One iteration of [_price_update_loop]. *)
Definition price_update_iteration (ticker : Py.exc (option Q)) (r : BotRunner)
    : BotRunner * list Event :=
  match ticker with
  | Py.Return (Some p) =>
      (set_progress r (Some p) (tick_count r) (error_count r),
       [EvSleep (price_update_interval r)])
  | Py.Return None => (r, [EvSleep (price_update_interval r)])
  | Py.Raise _ => (r, [EvSleep (price_update_interval r * 2)])
  end.

(** [initialize]: the exchange client falls back to the dummy client on
    any failure and the initial ticker read is best effort, so only the
    construction of the components can make it fail. *)
Definition initialize (components : Py.exc unit) (ticker : option Q)
    (r : BotRunner) : Py.exc BotRunner * BotRunner :=
  let r1 := set_flags r INITIALIZING (_stop_requested r)
              (_graceful_stop_requested r) (_paused r) (_running r) in
  match components with
  | Py.Raise e =>
      let r2 := set_flags r1 ERROR (_stop_requested r1)
                  (_graceful_stop_requested r1) (_paused r1) (_running r1) in
      (Py.Raise e, r2)
  | Py.Return _ =>
      let r2 := match ticker with
                | Some p => set_progress r1 (Some p) (tick_count r1) (error_count r1)
                | None => r1
                end in
      let r3 := set_flags r2 IDLE (_stop_requested r2)
                  (_graceful_stop_requested r2) (_paused r2) (_running r2) in
      (Py.Return r3, r3)
  end.

Definition is_tick_error (e : Event) : bool :=
  match e with EvTickError => true | _ => false end.

Definition is_emergency_stop (e : Event) : bool :=
  match e with EvEmergencyStop _ => true | _ => false end.

Definition is_market_sell (e : Event) : bool :=
  match e with EvMarketSell _ _ => true | _ => false end.

Definition is_cancel_all (e : Event) : bool :=
  match e with EvCancelAllOrders => true | _ => false end.

Definition is_sleep (e : Event) : bool :=
  match e with EvSleep _ => true | _ => false end.

Definition count (p : Event -> bool) (tr : list Event) : nat :=
  length (List.filter p tr).

(** A runner as [create_bot_runner(1, 100, config)] builds it. *)
Definition sample_runner : BotRunner :=
  mkBotRunner (ArgInt 1) (ArgInt 100) "BTC/USDT" "dantaro" 1000 "okx" IDLE
    false false false false None 0 0 5 60 10 0 0 0.



(** Control calls that neither resume nor stop. *)
Definition keeps_paused (c : Control) : bool :=
  match c with
  | CallPause | CallRequestGracefulStop => true
  | CallResume | CallStop => false
  end.

(** An iteration during which the task is not cancelled and nobody calls
    [resume()] or [stop()]. *)
Definition undisturbed (env : TickEnv) : bool :=
  negb (te_cancelled env) && forallb keeps_paused (te_controls env).

(** A paused runner on which a graceful stop has been requested. *)
Definition paused_runner : BotRunner :=
  request_graceful_stop (pause sample_runner).

(** An iteration with a flat position, during which [pause()] is called
    once more. *)
Definition flat_env : TickEnv :=
  mkTickEnv [CallPause] false false (Some (Py.Return 50000%Q)) (Py.Return tt)
    (Risk.with_reason Risk.ReasonAllPassed) BUY true [] (Py.Return 0%Q).


End Runner.

(** ** BotLifecycleManager *)

Module Lifecycle.

Inductive BotAction : Type := START | STOP | PAUSE | RESUME | FORCE_STOP.

(** [app/models/bot.py] *)
Inductive BotStatus : Type :=
| CREATED | RUNNING | PAUSED | STOPPING | STOPPED | ERROR.

(** The messages of the source, one constructor per text. *)
Inductive Message : Type :=
| MsgBotNotFound
| MsgAlreadyRunning
| MsgCannotStart (s : BotStatus)
| MsgNoApiKeys
| MsgException (e : Py.exn)           (* [str(e)] *)
| MsgStarted
| MsgNotRunning
| MsgStopAfterCycle
| MsgStopped
| MsgStoppedNoRunner
| MsgForceStopped
| MsgForcedByUser
| MsgPaused
| MsgNoPausedBot
| MsgResumed
| MsgHeartbeatTimeout                 (* "봇 응답 없음 (타임아웃)" *)
| MsgConsecutiveErrors (e : Py.exn)
| MsgServerRestart.

Record Response : Type := mkResponse {
  success : bool;
  message : Message
}.

Definition ok (m : Message) : Response := mkResponse true m.
Definition failure (m : Message) : Response := mkResponse false m.

(** A row of the [bots] table. *)
Record Bot : Type := mkBot {
  id : Z;
  user_id : Z;
  exchange : string;
  symbol : string;
  strategy : string;
  capital : Q;
  status : BotStatus;
  started_at : option Q;
  stopped_at : option Q;
  error_message : option Message
}.

(** A row of the [users] table, as far as the API keys go. *)
Record User : Type := mkUser {
  okx_api_key : option string;
  okx_secret_key : option string;
  okx_passphrase : option string;
  upbit_access_key : option string;
  upbit_secret_key : option string
}.

Inductive ApiKeys : Type :=
| OkxKeys (api_key secret_key passphrase : option string)
| UpbitKeys (access_key secret_key : option string).

Record BotContext : Type := mkBotContext {
  ctx_bot_id : Z;
  ctx_user_id : Z;
  ctx_exchange : string;
  ctx_symbol : string;
  ctx_strategy : string;
  ctx_capital : Q;
  runner : option Runner.BotRunner;
  last_heartbeat : option Q;
  error_count : Z
}.

(** The manager together with the persistence collaborator it writes
    to: the registry of running bots, the two tables, the bot ids for
    which a [_run_bot] task has been created, and what entering
    [async with get_async_session()] does: it yields a session or raises.
    Timestamps are seconds, as rationals. *)
Record Manager : Type := mkManager {
  running_bots : gmap Z BotContext;
  bots_table : gmap Z Bot;
  users_table : gmap Z User;
  run_tasks : list Z;
  get_async_session : Py.exc unit
}.

(** [get_async_session] as [app/core/database.py] defines it is an async
    generator function; the object it returns has no [__aenter__], so
    entering [async with] on it raises. *)
Definition database_py_session : Py.exc unit := Py.Raise Py.TypeError.

Definition set_running (m : Manager) (reg : gmap Z BotContext) : Manager :=
  mkManager reg (bots_table m) (users_table m) (run_tasks m) (get_async_session m).

Definition set_bots (m : Manager) (tbl : gmap Z Bot) : Manager :=
  mkManager (running_bots m) tbl (users_table m) (run_tasks m) (get_async_session m).

Definition set_tasks (m : Manager) (ts : list Z) : Manager :=
  mkManager (running_bots m) (bots_table m) (users_table m) ts (get_async_session m).

Definition set_runner (c : BotContext) (r : option Runner.BotRunner)
    (hb : option Q) : BotContext :=
  mkBotContext (ctx_bot_id c) (ctx_user_id c) (ctx_exchange c) (ctx_symbol c)
    (ctx_strategy c) (ctx_capital c) r hb (error_count c).

Definition set_error_count (c : BotContext) (n : Z) : BotContext :=
  mkBotContext (ctx_bot_id c) (ctx_user_id c) (ctx_exchange c) (ctx_symbol c)
    (ctx_strategy c) (ctx_capital c) (runner c) (last_heartbeat c) n.

(** [update(Bot).where(Bot.id == bot_id).values(status=..., ...)]: each
    column is either left alone ([None]) or assigned. *)
Definition update_bot (bot_id : Z) (st : BotStatus)
    (started stopped : option (option Q)) (err : option (option Message))
    (m : Manager) : Manager :=
  set_bots m
    (alter (fun b =>
              mkBot (id b) (user_id b) (exchange b) (symbol b) (strategy b)
                (capital b) st
                (match started with Some v => v | None => started_at b end)
                (match stopped with Some v => v | None => stopped_at b end)
                (match err with Some v => v | None => error_message b end))
       bot_id (bots_table m)).

(** [_get_user_api_keys]; it opens a session of its own, and any failure
    makes it return [None]. *)
Definition _get_user_api_keys (uid : Z) (exch : string) (m : Manager)
    : option ApiKeys :=
  match get_async_session m with
  | Py.Raise _ => None
  | Py.Return _ =>
      match users_table m !! uid with
      | None => None
      | Some u =>
          if (OrderExec.lower exch =? "okx")%string
          then Some (OkxKeys (okx_api_key u) (okx_secret_key u) (okx_passphrase u))
          else if (OrderExec.lower exch =? "upbit")%string
          then Some (UpbitKeys (upbit_access_key u) (upbit_secret_key u))
          else None
      end
  end.

Definition startable (s : BotStatus) : bool :=
  match s with
  | CREATED | STOPPED | ERROR => true
  | _ => false
  end.

(** What [runner.initialize()] meets when it runs: whether the components
    can be built, and the first ticker price. *)
Record InitEnv : Type := mkInitEnv {
  ie_components : Py.exc unit;
  ie_ticker : option Q
}.

(** [_start_bot(bot, session)], on the session its caller has opened.
    The runner is built by the call [BotRunner(context, user_api_keys)],
    with two arguments. *)
Definition _start_bot (now : Q) (env : InitEnv) (bot : Bot) (m : Manager)
    : Response * Manager :=
  if decide (is_Some (running_bots m !! id bot)) then (failure MsgAlreadyRunning, m)
  else if negb (startable (status bot)) then (failure (MsgCannotStart (status bot)), m)
  else
    match _get_user_api_keys (user_id bot) (exchange bot) m with
    | None => (failure MsgNoApiKeys, m)
    | Some user_api_keys =>
        let context := mkBotContext (id bot) (user_id bot) (exchange bot)
                         (symbol bot) (strategy bot) (capital bot) None None 0 in
        let started :=
          do r <- Runner.BotRunner_call [Runner.ArgContext (id bot); Runner.ArgApiKeys];
          fst (Runner.initialize (ie_components env) (ie_ticker env) r) in
        match started with
        | Py.Return r =>
            let context1 := set_runner context (Some r) (Some now) in
            let m1 := set_running m (<[id bot := context1]> (running_bots m)) in
            let m2 := update_bot (id bot) RUNNING (Some (Some now)) None
                        (Some None) m1 in
            (ok MsgStarted, set_tasks m2 (run_tasks m2 ++ [id bot]))
        | Py.Raise e =>
            (failure (MsgException e),
             update_bot (id bot) ERROR None None (Some (Some (MsgException e))) m)
        end
    end.

(** [BotRunner] has no attribute [has_open_position] (the method of that
    name belongs to the position manager) and none called
    [force_close_all_positions]: the attribute lookup raises. *)
Definition runner_has_open_position (r : Runner.BotRunner) : Py.exc bool :=
  Py.Raise Py.AttributeError.

Definition runner_force_close_all_positions (r : Runner.BotRunner)
    : Py.exc Runner.BotRunner :=
  Py.Raise Py.AttributeError.

(** [_stop_bot] *)
Definition _stop_bot (now : Q) (bot_id : Z) (m : Manager) : Response * Manager :=
  match running_bots m !! bot_id with
  | None => (failure MsgNotRunning, m)
  | Some context =>
      let body :=
        match runner context with
        | Some r =>
            do has_position <- runner_has_open_position r;
            if has_position : bool then
              let c1 := set_runner context (Some (Runner.request_graceful_stop r))
                          (last_heartbeat context) in
              Py.Return (ok MsgStopAfterCycle,
                         update_bot bot_id STOPPING None (Some None) None
                           (set_running m (<[bot_id := c1]> (running_bots m))))
            else
              Py.Return (ok MsgStopped,
                         update_bot bot_id STOPPED None (Some (Some now)) None
                           (set_running m (delete bot_id (running_bots m))))
        | None =>
            Py.Return (ok MsgStoppedNoRunner,
                       update_bot bot_id STOPPED None (Some (Some now)) None
                         (set_running m (delete bot_id (running_bots m))))
        end in
      match body with
      | Py.Return r => r
      | Py.Raise e => (failure (MsgException e), m)
      end
  end.

(** [_force_stop_bot] *)
Definition _force_stop_bot (now : Q) (bot_id : Z) (m : Manager)
    : Response * Manager :=
  match running_bots m !! bot_id with
  | None => (failure MsgNotRunning, m)
  | Some context =>
      let body :=
        do _ <- match runner context with
                | Some r => do r1 <- runner_force_close_all_positions r;
                            Py.Return (Some (Runner.stop r1))
                | None => Py.Return None
                end;
        Py.Return (ok MsgForceStopped,
                   update_bot bot_id STOPPED None (Some (Some now))
                     (Some (Some MsgForcedByUser))
                     (set_running m (delete bot_id (running_bots m)))) in
      match body with
      | Py.Return r => r
      | Py.Raise e => (failure (MsgException e), m)
      end
  end.

(** [_pause_bot] *)
Definition _pause_bot (bot_id : Z) (m : Manager) : Response * Manager :=
  match running_bots m !! bot_id with
  | None => (failure MsgNotRunning, m)
  | Some context =>
      match runner context with
      | None => (failure MsgNotRunning, m)
      | Some r =>
          let c1 := set_runner context (Some (Runner.pause r))
                      (last_heartbeat context) in
          (ok MsgPaused,
           update_bot bot_id PAUSED None None None
             (set_running m (<[bot_id := c1]> (running_bots m))))
      end
  end.

(** [_resume_bot] *)
Definition _resume_bot (bot_id : Z) (m : Manager) : Response * Manager :=
  match running_bots m !! bot_id with
  | None => (failure MsgNoPausedBot, m)
  | Some context =>
      match runner context with
      | None => (failure MsgNoPausedBot, m)
      | Some r =>
          let c1 := set_runner context (Some (Runner.resume r))
                      (last_heartbeat context) in
          (ok MsgResumed,
           update_bot bot_id RUNNING None None None
             (set_running m (<[bot_id := c1]> (running_bots m))))
      end
  end.

(** [execute_bot_action] *)
Definition execute_bot_action (now : Q) (env : InitEnv) (bot_id : Z)
    (action : BotAction) (uid : Z) (m : Manager) : Response * Manager :=
  match get_async_session m with
  | Py.Raise e => (failure (MsgException e), m)
  | Py.Return _ =>
      match bots_table m !! bot_id with
      | None => (failure MsgBotNotFound, m)
      | Some bot =>
          if negb (user_id bot =? uid) then (failure MsgBotNotFound, m)
          else
            match action with
            | START => _start_bot now env bot m
            | STOP => _stop_bot now bot_id m
            | PAUSE => _pause_bot bot_id m
            | RESUME => _resume_bot bot_id m
            | FORCE_STOP => _force_stop_bot now bot_id m
            end
      end
  end.

(** [_run_bot], from the point where [context.runner.run()] has ended,
    normally or with an exception.  [context] is the object the task was
    created with.  When the session of the error branch cannot be opened,
    the exception leaves the handler and only the [finally] clause runs. *)
Definition _run_bot (now : Q) (context : BotContext) (outcome : Py.exc unit)
    (m : Manager) : Manager :=
  let m1 :=
    match outcome with
    | Py.Return _ => m
    | Py.Raise e =>
        let c1 := set_error_count context (error_count context + 1) in
        if (3 <=? error_count c1) then
          match get_async_session m with
          | Py.Return _ =>
              set_running
                (update_bot (ctx_bot_id c1) ERROR None (Some (Some now))
                   (Some (Some (MsgConsecutiveErrors e))) m)
                (delete (ctx_bot_id c1) (running_bots m))
          | Py.Raise _ => m
          end
        else m
    end in
  set_running m1 (delete (ctx_bot_id context) (running_bots m1)).

(** [_cleanup_dead_bot]; the status update and the removal from the
    registry are both inside the [try], after the session is opened. *)
Definition _cleanup_dead_bot (now : Q) (bot_id : Z) (m : Manager) : Manager :=
  match get_async_session m with
  | Py.Return _ =>
      let m1 := update_bot bot_id ERROR None (Some (Some now))
                  (Some (Some MsgHeartbeatTimeout)) m in
      set_running m1 (delete bot_id (running_bots m1))
  | Py.Raise _ => m
  end.

(** The two tests of the sweep on one registry entry; an entry can be
    listed twice. *)
Definition dead_entries (now : Q) (entry : Z * BotContext) : list Z :=
  let '(bot_id, context) := entry in
  (match last_heartbeat context with
   | Some hb => if Qltb 300 (now - hb) then [bot_id] else []
   | None => []
   end) ++
  (match runner context with
   | Some r => if negb (Runner.is_running r) then [bot_id] else []
   | None => []
   end).

(** One pass of the [while] body of [_monitor_bots]. *)
Definition _monitor_bots (now : Q) (m : Manager) : Manager :=
  let dead_bots := flat_map (dead_entries now) (map_to_list (running_bots m)) in
  fold_left (fun acc bot_id => _cleanup_dead_bot now bot_id acc) dead_bots m.

(** [_recover_running_bots] *)
Definition _recover_running_bots (m : Manager) : Manager :=
  match get_async_session m with
  | Py.Return _ =>
      set_bots m
        ((fun b =>
            match status b with
            | RUNNING =>
                mkBot (id b) (user_id b) (exchange b) (symbol b) (strategy b)
                  (capital b) STOPPED (started_at b) (stopped_at b)
                  (Some MsgServerRestart)
            | _ => b
            end) <$> bots_table m)
  | Py.Raise _ => m
  end.

(** [_emergency_stop_bot] for every registered bot ([_stop_all_bots]):
    each runner is told to stop and each entry is deleted. *)
Definition _stop_all_bots (m : Manager) : Manager := set_running m ∅.

(** Progress of a bot's own loops: the runner object held by the context
    changes, by some method of [BotRunner]. *)
Definition runner_step (bot_id : Z) (f : Runner.BotRunner -> Runner.BotRunner)
    (m : Manager) : Manager :=
  set_running m
    (alter (fun c => set_runner c (f <$> runner c) (last_heartbeat c))
       bot_id (running_bots m)).

(** Everything that can happen to a manager between two sweeps. *)
Inductive Op : Type :=
| ExecuteBotAction (now : Q) (env : InitEnv) (bot_id : Z)
    (action : BotAction) (uid : Z)
| RunBotEnds (now : Q) (context : BotContext) (outcome : Py.exc unit)
| RunnerStep (bot_id : Z) (f : Runner.BotRunner -> Runner.BotRunner)
| MonitorBots (now : Q)
| RecoverRunningBots
| StopAllBots.

Definition step (op : Op) (m : Manager) : Manager :=
  match op with
  | ExecuteBotAction now env bot_id action uid =>
      snd (execute_bot_action now env bot_id action uid m)
  | RunBotEnds now context outcome => _run_bot now context outcome m
  | RunnerStep bot_id f => runner_step bot_id f m
  | MonitorBots now => _monitor_bots now m
  | RecoverRunningBots => _recover_running_bots m
  | StopAllBots => _stop_all_bots m
  end.

Fixpoint run (ops : list Op) (m : Manager) : Manager :=
  match ops with
  | [] => m
  | op :: rest => run rest (step op m)
  end.

(** One iteration of the runner's heartbeat loop, as a runner step. *)
Definition heartbeat_step (r : Runner.BotRunner) : Runner.BotRunner :=
  fst (Runner.heartbeat_iteration r).

(** A user with OKX keys and a freshly created bot of theirs. *)
Definition sample_user : User :=
  mkUser (Some "key"%string) (Some "secret"%string) (Some "phrase"%string) None None.

Definition sample_bot : Bot :=
  mkBot 1 100 "okx" "BTC/USDT" "dantaro" 1000 CREATED None None None.

Definition sample_manager : Manager :=
  mkManager ∅ {[ 1 := sample_bot ]} {[ 100 := sample_user ]} [] (Py.Return tt).

Definition sample_init_env : InitEnv := mkInitEnv (Py.Return tt) (Some 50000%Q).

(** A manager whose registry holds bot 1, started at time 1000. *)
Definition sample_context : BotContext :=
  mkBotContext 1 100 "okx" "BTC/USDT" "dantaro" 1000
    (Some (Runner.set_flags Runner.sample_runner Runner.RUNNING
             false false false true))
    (Some 1000%Q) 0.

Definition registered_manager : Manager :=
  mkManager {[ 1 := sample_context ]}
    {[ 1 := mkBot 1 100 "okx" "BTC/USDT" "dantaro" 1000 RUNNING
              (Some 1000%Q) None None ]}
    {[ 100 := sample_user ]} [1] (Py.Return tt).

(** [sample_manager] over the session factory of [app/core/database.py]. *)
Definition sample_manager_database_py : Manager :=
  mkManager (running_bots sample_manager) (bots_table sample_manager)
    (users_table sample_manager) (run_tasks sample_manager)
    database_py_session.

(** [registered_manager] over the same session factory. *)
Definition registered_manager_database_py : Manager :=
  mkManager (running_bots registered_manager) (bots_table registered_manager)
    (users_table registered_manager) (run_tasks registered_manager)
    database_py_session.

(** The registry loses entries or keeps them with the heartbeat they had. *)
Definition heartbeats_kept (m m' : Manager) : Prop :=
  forall i c', running_bots m' !! i = Some c' ->
    exists c, running_bots m !! i = Some c /\ last_heartbeat c' = last_heartbeat c.

(** What happens to bot 1 of [registered_manager] in its first minutes:
    heartbeats, a pause and a resume, more heartbeats. *)
Definition five_minutes : list Op :=
  [RunnerStep 1 heartbeat_step;
   ExecuteBotAction 1100 sample_init_env 1 PAUSE 100;
   RunnerStep 1 heartbeat_step;
   ExecuteBotAction 1200 sample_init_env 1 RESUME 100;
   MonitorBots 1250;
   RunnerStep 1 heartbeat_step].


End Lifecycle.

(** * Properties *)

(** ** Decimal comparisons *)

Lemma Qleb_le a b : Qleb a b = true <-> (a <= b)%Q.
Proof. apply Qle_bool_iff. Qed.

Lemma Qltb_lt a b : Qltb a b = true <-> (a < b)%Q.
Proof.
  unfold Qltb. rewrite negb_true_iff. split.
  - intros H. apply Qnot_le_lt. intros Hle.
    apply Qle_bool_iff in Hle. congruence.
  - intros H. destruct (Qle_bool b a) eqn:E; [|reflexivity].
    apply Qle_bool_iff in E. exfalso. eapply Qlt_not_le; eauto.
Qed.

Lemma Qleb_false_gt a b : Qleb a b = false <-> (b < a)%Q.
Proof.
  unfold Qleb. split.
  - intros H. apply Qnot_le_lt. intros Hle. apply Qle_bool_iff in Hle. congruence.
  - intros H. destruct (Qle_bool a b) eqn:E; [|reflexivity].
    apply Qle_bool_iff in E. exfalso. eapply Qlt_not_le; eauto.
Qed.

Lemma Qltb_false_ge a b : Qltb a b = false <-> (b <= a)%Q.
Proof.
  unfold Qltb. rewrite negb_false_iff. apply Qle_bool_iff.
Qed.

(** ** RiskManager *)

Section RiskFacts.

Import Risk.

(** The result the loss check computes for the daily breach is a pause of
    severity HIGH... *)
Lemma loss_check_reports_daily_breach :
  let res := fst (_check_loss_limits 20 (-60) losing_day) in
  should_stop res = false /\ should_pause res = true /\ severity res = HIGH.
Proof. vm_compute. auto. Qed.

(** ...but [check_risk] only looks at [should_stop] of that result, so no
    call ever returns it. *)
Lemma check_risk_never_daily_loss now price position profit rm limit current :
  reason (fst (check_risk now price position profit rm)) <> ReasonDailyLoss limit current.
Proof.
  unfold check_risk.
  destruct (_check_loss_limits _ _ _) as [lc rm1] eqn:E1.
  destruct (should_stop lc) eqn:S1.
  { unfold _check_loss_limits in E1.
    repeat match type of E1 with
           | context [if ?c then _ else _] => destruct c
           end; inversion E1; subst; simpl in *; congruence. }
  destruct (_check_position_size _ _ _) as [pc rm2] eqn:E2.
  destruct (should_reduce_position pc) eqn:S2.
  { unfold _check_position_size in E2.
    destruct (Qltb _ _); inversion E2; subst; simpl in *; congruence. }
  destruct (_check_trading_frequency _ _) as [fc rm3] eqn:E3.
  destruct (should_pause fc) eqn:S3.
  { unfold _check_trading_frequency in E3.
    repeat match type of E3 with
           | context [if ?c then _ else _] => destruct c
           end; inversion E3; subst; simpl in *; congruence. }
  destruct (_check_market_volatility _ _ _) as [vc rm4] eqn:E4.
  destruct (should_pause vc) eqn:S4.
  { unfold _check_market_volatility in E4.
    destruct (last_price rm3);
    repeat match type of E4 with
           | context [if ?c then _ else _] => destruct c
           end; inversion E4; subst; simpl in *; congruence. }
  destruct (_check_drawdown _ _ _) as [dc rm5] eqn:E5.
  destruct (should_stop dc) eqn:S5.
  { unfold _check_drawdown in E5.
    repeat match type of E5 with
           | context [if ?c then _ else _] => destruct c
           end; inversion E5; subst; simpl in *; congruence. }
  simpl. congruence.
Qed.

(** C2.  The claim: when the total-loss check does not breach but the
    daily loss ratio is at or below [daily_loss_limit], [check_risk]
    returns [should_pause = true] with severity HIGH.  On [losing_day]
    the premises hold (total loss -6% above the -10% limit, daily loss
    -6% below the -3% limit) and [check_risk] returns the neutral passed
    result: no pause, severity LOW. *)
Theorem check_risk_drops_daily_loss_pause :
  let rm := _reset_time_counters 20 losing_day in
  let res := fst (check_risk 20 50000 (mkPositionView (Some 200%Q)) (-60) losing_day) in
  Qleb (pct_of_capital rm (-60)) (max_loss_percentage rm) = false /\
  Qleb (pct_of_capital rm (daily_pnl rm)) (daily_loss_limit rm) = true /\
  should_pause res = false /\
  severity res = LOW /\
  reason res = ReasonAllPassed.
Proof. vm_compute. auto 6. Qed.

End RiskFacts.

(** ** OrderExecutor *)

Section OrderExecFacts.

Import OrderExec.

Lemma OrderStatus_value_roundtrip st :
  OrderStatus_of_value (OrderStatus_value st) = Py.Return st.
Proof. destruct st; reflexivity. Qed.

Lemma closed_is_no_status : OrderStatus_of_value "closed" = Py.Raise Py.ValueError.
Proof. reflexivity. Qed.

Lemma attempts_cons_attempt a evs : attempts (EvAttempt a :: evs) = S (attempts evs).
Proof. reflexivity. Qed.

Lemma attempts_backoff (b : bool) delay evs :
  attempts ((if b then [EvBackoff delay] else []) ++ evs) = attempts evs.
Proof. destruct b; reflexivity. Qed.

(** When every attempt fails the loop runs all its iterations. *)
Lemma retry_loop_all_fail call retries delay k :
  (k <= retries)%nat ->
  (forall n, (n < retries)%nat -> attempt_fails (call n)) ->
  fst (retry_loop call retries delay k) = None /\
  attempts (snd (retry_loop call retries delay k)) = k.
Proof.
  intros Hk Hfail. induction k as [|k IH]; [split; reflexivity|].
  cbn [retry_loop].
  assert (Hlt : (retries - S k < retries)%nat) by lia.
  specialize (Hfail _ Hlt).
  destruct IH as [IH1 IH2]; [lia|].
  destruct (call (retries - S k)%nat) as [[xo|]|e]; cbn in Hfail; [contradiction| |];
    destruct (retry_loop call retries delay k) as [res evs];
    cbn [fst snd] in *; (split; [assumption|]);
    rewrite attempts_cons_attempt, ?attempts_backoff; congruence.
Qed.

(** The loop never calls the exchange more often than its bound. *)
Lemma retry_loop_bounded call retries delay k :
  (attempts (snd (retry_loop call retries delay k)) <= k)%nat.
Proof.
  induction k as [|k IH]; [cbn; lia|].
  cbn [retry_loop].
  destruct (call (retries - S k)%nat) as [[xo|]|e].
  - cbn. lia.
  - destruct (retry_loop call retries delay k) as [res evs].
    cbn [snd] in *. rewrite attempts_cons_attempt. lia.
  - destruct (retry_loop call retries delay k) as [res evs].
    cbn [snd] in *. rewrite attempts_cons_attempt, attempts_backoff. lia.
Qed.

Lemma create_market_order_returns now did side_str qty info ex :
  Py.returns (fst (create_market_order now did side_str qty info ex)).
Proof.
  unfold create_market_order, Py.returns.
  destruct (OrderSide_of_value _) as [sd|e]; [|cbn; eauto].
  destruct (_execute_exchange_order _ _ _ _ _) as [[xo|] evs]; cbn; [|eauto].
  destruct (getitem (xo_id xo)) as [oid|]; cbn; [|eauto].
  destruct (getitem (xo_status xo)) as [st_str|]; cbn; [|eauto].
  destruct (OrderStatus_of_value st_str) as [st|]; cbn; [|eauto].
  destruct (st_str =? "closed")%string; eauto.
Qed.

Lemma create_limit_order_returns now did side_str qty price info ex :
  Py.returns (fst (create_limit_order now did side_str qty price info ex)).
Proof.
  unfold create_limit_order, Py.returns.
  destruct (OrderSide_of_value _) as [sd|e]; [|cbn; eauto].
  destruct (_execute_exchange_order _ _ _ _ _) as [[xo|] evs]; cbn; [|eauto].
  destruct (getitem (xo_id xo)) as [oid|]; cbn; [|eauto].
  destruct (getitem (xo_status xo)) as [st_str|]; cbn; [|eauto].
  destruct (OrderStatus_of_value st_str) as [st|]; cbn; eauto.
Qed.

(** C6.  [create_market_order] and [create_limit_order] never raise to the
    caller.  When every submission attempt of the exchange fails (raises or
    returns nothing), the exchange method is called [max_retries] times, no
    more, and the method returns the failure value [None], having counted
    one failed order. *)
Theorem exhausted_retries_return_failure
    now did side_str qty price info ex market_call limit_call :
  create_market_order_method (exchange_client ex) = Some market_call ->
  create_limit_order_method (exchange_client ex) = Some limit_call ->
  (forall n, (n < max_retries ex)%nat -> attempt_fails (market_call n)) ->
  (forall n, (n < max_retries ex)%nat -> attempt_fails (limit_call n)) ->
  let m := create_market_order now did side_str qty info ex in
  let l := create_limit_order now did side_str qty price info ex in
  fst m = Py.Return (None, bump_failed ex) /\
  fst l = Py.Return (None, bump_failed ex) /\
  (attempts (snd m) <= max_retries ex)%nat /\
  (attempts (snd l) <= max_retries ex)%nat /\
  (Py.returns (OrderSide_of_value (lower side_str)) ->
   attempts (snd m) = max_retries ex /\ attempts (snd l) = max_retries ex).
Proof.
  intros Hm Hl Fm Fl.
  pose proof (retry_loop_all_fail market_call (max_retries ex) (retry_delay ex)
                (max_retries ex) (le_n _) Fm) as [Rm Am].
  pose proof (retry_loop_all_fail limit_call (max_retries ex) (retry_delay ex)
                (max_retries ex) (le_n _) Fl) as [Rl Al].
  cbv zeta. unfold create_market_order, create_limit_order, _execute_exchange_order.
  rewrite Hm, Hl.
  destruct (OrderSide_of_value (lower side_str)) as [sd|e].
  - destruct (retry_loop market_call _ _ _) as [rm em].
    destruct (retry_loop limit_call _ _ _) as [rl el].
    cbn [fst snd] in *. subst rm rl. cbn [Py.try_except].
    split; [reflexivity|]. split; [reflexivity|].
    split; [lia|]. split; [lia|]. intros _. split; assumption.
  - cbn [fst snd]. unfold attempts. cbn [List.filter length].
    split; [reflexivity|]. split; [reflexivity|].
    split; [lia|]. split; [lia|]. intros [a Ha]. discriminate.
Qed.

Lemma exhausted_retries_witness :
  fst (create_market_order 0 "d" "BUY" 1 ∅ (init failing_client "BTC/USDT"))
  = Py.Return (None, bump_failed (init failing_client "BTC/USDT")) /\
  attempts (snd (create_market_order 0 "d" "BUY" 1 ∅ (init failing_client "BTC/USDT")))
  = 3%nat.
Proof.
  pose proof (exhausted_retries_return_failure 0 "d" "BUY" 1 51000 ∅
                (init failing_client "BTC/USDT")
                (fun _ => Py.Raise Py.RuntimeError) (fun _ => Py.Return None)
                eq_refl eq_refl (fun _ _ => I) (fun _ _ => I)) as H.
  cbv zeta in H. destruct H as (H1 & _ & _ & _ & H5).
  split; [exact H1|].
  apply H5. exists BUY. reflexivity.
Defined.

(** C8.  When the record the exchange returns for a market order has the
    status ['closed'], [create_market_order] returns [None] and counts a
    failed order: ['closed'] is not a value of [OrderStatus], so the
    conversion raises inside the guarded body.  Nothing else of the
    executor changes. *)
Theorem closed_market_order_is_reported_failed
    now did side_str qty info ex xo evs :
  _execute_exchange_order SubmitMarket did qty None ex = (Some xo, evs) ->
  xo_status xo = Some "closed"%string ->
  fst (create_market_order now did side_str qty info ex)
  = Py.Return (None, bump_failed ex) /\
  failed_orders (bump_failed ex) = failed_orders ex + 1 /\
  total_orders (bump_failed ex) = total_orders ex /\
  successful_orders (bump_failed ex) = successful_orders ex /\
  active_orders (bump_failed ex) = active_orders ex /\
  completed_orders (bump_failed ex) = completed_orders ex.
Proof.
  intros Hx Hs. repeat split.
  unfold create_market_order.
  destruct (OrderSide_of_value _) as [sd|e]; [|reflexivity].
  rewrite Hx. cbn.
  destruct (getitem (xo_id xo)) as [oid|]; cbn; [|reflexivity].
  rewrite Hs. reflexivity.
Qed.

Lemma closed_market_order_witness :
  fst (create_market_order 0 "d" "buy" 1 ∅ (init dummy_client "BTC/USDT"))
  = Py.Return (None, bump_failed (init dummy_client "BTC/USDT")).
Proof.
  apply (closed_market_order_is_reported_failed 0 "d" "buy" 1 ∅
           (init dummy_client "BTC/USDT")
           (dummy_market_response "dummy_1" 1 50000)
           [EvAttempt 0]); reflexivity.
Defined.

Lemma update_status_order_id now st f a o :
  order_id (update_status now st f a o) = order_id o.
Proof. reflexivity. Qed.

Lemma update_status_status now st f a o : status (update_status now st f a o) = st.
Proof. reflexivity. Qed.

(** What one poll can do to the two collections: nothing, refresh the
    order in place, or move it. *)
Lemma get_order_status_shape now oid resp ex :
  let ex' := snd (get_order_status now oid resp ex) in
  (active_orders ex' = active_orders ex /\
   completed_orders ex' = completed_orders ex) \/
  (exists o o1,
      active_orders ex !! oid = Some o /\ order_id o1 = order_id o /\
      ((active_orders ex' = <[oid := o1]> (active_orders ex) /\
        completed_orders ex' = completed_orders ex) \/
       (active_orders ex' = delete oid (active_orders ex) /\
        completed_orders ex' = completed_orders ex ++ [o1]))).
Proof.
  unfold get_order_status.
  destruct (active_orders ex !! oid) as [o|] eqn:Hact; [|left; split; reflexivity].
  destruct resp as [[xo|]|e]; cbn; try (left; split; reflexivity).
  destruct (getitem (xo_status xo)) as [st_str|]; cbn; [|left; split; reflexivity].
  destruct (OrderStatus_of_value st_str) as [st|]; cbn; [|left; split; reflexivity].
  right.
  exists o, (update_status now st (Some (get_decimal (xo_filled xo)))
               (get_truthy_decimal (xo_average xo)) o).
  split; [reflexivity|]. split; [reflexivity|].
  destruct (is_completed _ && _).
  - right. destruct (OrderStatus_eqb st FILLED); split; reflexivity.
  - left. split; reflexivity.
Qed.


Lemma keys_agree_poll now oid resp ex :
  keys_agree ex -> keys_agree (snd (get_order_status now oid resp ex)).
Proof.
  intros Hk. unfold keys_agree in *.
  destruct (get_order_status_shape now oid resp ex)
    as [[Ha _]|(o & o1 & Hact & Hid & [[Ha _]|[Ha _]])]; rewrite Ha.
  - exact Hk.
  - intros k x. rewrite lookup_insert. case_decide.
    + intros [= <-]. subst k. rewrite Hid. eauto.
    + apply Hk.
  - intros k x. rewrite lookup_delete. case_decide; [discriminate|apply Hk].
Qed.







(** A limit order that the exchange reports ['filled'] when it is placed
    (none of the bundled clients does) is stored in the active set with
    the status FILLED; the polls that follow report ['filled'] again, the
    test [old_status != new_status] is false each time, and the order is
    never moved: it stays active and the completed set stays empty. *)
Lemma filled_at_creation_is_never_moved :
  (status <$> active_orders after_immediate_fill !! "L1"%string) = Some FILLED /\
  let ex := run_status_calls
              [mkStatusCall 1 "L1" (Py.Return (Some immediate_fill));
               mkStatusCall 2 "L1" (Py.Return (Some immediate_fill))]
              after_immediate_fill in
  (status <$> active_orders ex !! "L1"%string) = Some FILLED /\
  completed_orders ex = [] /\
  ~ (active_orders ex !! "L1"%string = None /\ count_completed "L1" ex = 1%nat).
Proof.
  split; [vm_compute; reflexivity|]. cbv zeta.
  split; [vm_compute; reflexivity|].
  split; [vm_compute; reflexivity|].
  intros [_ H]. vm_compute in H. discriminate.
Qed.







End OrderExecFacts.

(** ** PositionManager *)

Section PositionFacts.

Import OrderExec PositionMgr.

Lemma process_filled_order_consistent now o pm :
  average_consistent (position pm) ->
  average_consistent (position (_process_filled_order now o pm)).
Proof.
  intros Hinv. unfold _process_filled_order, average_consistent.
  assert (Hfee : forall pm0, position (touch now (add_fee o pm0)) =
                             set_target_update (position pm0)
                               (target_profit_price (position pm0)) now).
  { intros pm0. unfold touch, add_fee.
    destruct (fee o) as [d|]; [destruct (decide (d = ∅))|]; reflexivity. }
  rewrite Hfee. destruct (side o).
  - cbn. intros Hpos. apply Qltb_lt in Hpos. rewrite Hpos. reflexivity.
  - cbn.
    destruct (Qleb (total_quantity (position pm) - filled_quantity o) dust) eqn:Hd.
    + cbn. intros Hpos. exfalso. exact (Qlt_irrefl _ Hpos).
    + cbn. intros Hpos. field. intros Hz. rewrite Hz in Hpos.
      exact (Qlt_irrefl _ Hpos).
Qed.

Lemma step_consistent op pm :
  average_consistent (position pm) -> average_consistent (position (step op pm)).
Proof.
  intros Hinv. destruct op as [now o|o|now o|now price|now]; cbn [step].
  - unfold add_buy_order.
    destruct (negb _); [exact Hinv|]. cbn.
    destruct (pos_status (position pm)); exact Hinv.
  - unfold add_sell_order.
    destruct (negb _); [exact Hinv|]. cbn.
    destruct (Qleb _ _); exact Hinv.
  - unfold update_order_status.
    destruct (pending_orders pm !! order_id o); [|exact Hinv].
    destruct (status o); try exact Hinv.
    cbn [set_pending position].
    apply process_filled_order_consistent. exact Hinv.
  - unfold update_position. cbn. exact Hinv.
  - unfold clear_position, average_consistent. cbn.
    intros Hpos. exfalso. exact (Qlt_irrefl _ Hpos).
Qed.

Lemma run_consistent ops : forall pm,
  average_consistent (position pm) -> average_consistent (position (run ops pm)).
Proof.
  induction ops as [|op rest IH]; intros pm Hinv; [exact Hinv|].
  cbn [run]. apply IH, step_consistent, Hinv.
Qed.

(** C4.  After any sequence of calls on a position manager, and so after
    any sequence of filled buy orders passed to [update_order_status],
    a position that holds a positive quantity has
    [average_price = total_cost / total_quantity] (as exact decimals). *)
Theorem average_price_is_cost_over_quantity ops now bot cap sym :
  let p := position (run ops (init now bot cap sym)) in
  (0 < total_quantity p)%Q ->
  (pos_average_price p == total_cost p / total_quantity p)%Q.
Proof.
  cbv zeta. apply run_consistent.
  unfold average_consistent. cbn. intros Hpos. exfalso.
  exact (Qlt_irrefl _ Hpos).
Qed.

Lemma average_price_witness :
  let p := position (run two_buys (init 0 1 1000 "BTC/USDT")) in
  (total_quantity p == 3)%Q /\
  (pos_average_price p == total_cost p / total_quantity p)%Q.
Proof.
  split; [vm_compute; reflexivity|].
  apply (average_price_is_cost_over_quantity two_buys 0 1 1000 "BTC/USDT").
  vm_compute. reflexivity.
Defined.

Lemma process_filled_order_grid_level now o pm :
  0 <= grid_level (position pm) ->
  0 <= grid_level (position (_process_filled_order now o pm)).
Proof.
  intros Hinv. unfold _process_filled_order.
  assert (Hfee : forall pm0, grid_level (position (touch now (add_fee o pm0))) =
                             grid_level (position pm0)).
  { intros pm0. unfold touch, add_fee.
    destruct (fee o) as [d|]; [destruct (decide (d = ∅))|]; reflexivity. }
  rewrite Hfee. destruct (side o); cbn.
  - lia.
  - destruct (Qleb _ dust); cbn; [lia|exact Hinv].
Qed.

Lemma step_grid_level_nonneg op pm :
  0 <= grid_level (position pm) -> 0 <= grid_level (position (step op pm)).
Proof.
  intros Hinv. destruct op as [now o|o|now o|now price|now]; cbn [step].
  - unfold add_buy_order.
    destruct (negb _); [exact Hinv|]. cbn.
    destruct (pos_status (position pm)); exact Hinv.
  - unfold add_sell_order.
    destruct (negb _); [exact Hinv|]. cbn.
    destruct (Qleb _ _); exact Hinv.
  - unfold update_order_status.
    destruct (pending_orders pm !! order_id o); [|exact Hinv].
    destruct (status o); try exact Hinv.
    cbn [set_pending position].
    apply process_filled_order_grid_level. exact Hinv.
  - unfold update_position. cbn. exact Hinv.
  - unfold clear_position. cbn. lia.
Qed.

Lemma run_grid_level_nonneg ops : forall pm,
  0 <= grid_level (position pm) -> 0 <= grid_level (position (run ops pm)).
Proof.
  induction ops as [|op rest IH]; intros pm Hinv; [exact Hinv|].
  cbn [run]. apply IH, step_grid_level_nonneg, Hinv.
Qed.

(** C3, as stated: the grid level stays within [0, max_grid_level].  Eight
    filled buys in a row take the level to 8 while [max_grid_level] is 7:
    [_process_filled_order] adds one and compares with nothing. *)
Lemma grid_level_exceeds_max :
  let p := position (run eight_buys (init 0 1 1000 "BTC/USDT")) in
  grid_level p = 8 /\ max_grid_level p = 7 /\
  ~ (0 <= grid_level p <= max_grid_level p).
Proof.
  vm_compute. split; [reflexivity|]. split; [reflexivity|].
  intros [_ H]. apply H. reflexivity.
Qed.

(** C3, amended.  The grid level is never negative, in any reachable state
    of a position manager; a Filled buy passed to [update_order_status] for
    a pending order raises it by exactly one and leaves [max_grid_level] as
    it was, so the level stays within the maximum when it was below it
    before the fill. *)
Theorem grid_level_nonneg_and_incremented :
  (forall ops now bot cap sym,
      0 <= grid_level (position (run ops (init now bot cap sym)))) /\
  (forall now o pm,
      is_Some (pending_orders pm !! order_id o) ->
      status o = FILLED -> side o = BUY ->
      let pm' := update_order_status now o pm in
      grid_level (position pm') = grid_level (position pm) + 1 /\
      max_grid_level (position pm') = max_grid_level (position pm) /\
      (grid_level (position pm) < max_grid_level (position pm) ->
       grid_level (position pm') <= max_grid_level (position pm'))).
Proof.
  split.
  - intros ops now bot cap sym. apply run_grid_level_nonneg. cbn. lia.
  - intros now o pm [old Hold] Hst Hside. cbv zeta.
    unfold update_order_status. rewrite Hold, Hst.
    unfold _process_filled_order. rewrite Hside.
    assert (Hfee : forall pm0,
               grid_level (position (touch now (add_fee o pm0))) =
               grid_level (position pm0) /\
               max_grid_level (position (touch now (add_fee o pm0))) =
               max_grid_level (position pm0)).
    { intros pm0. unfold touch, add_fee.
      destruct (fee o) as [d|]; [destruct (decide (d = ∅))|]; split; reflexivity. }
    cbn [set_pending position].
    match goal with
    | |- context [touch now (add_fee o ?x)] => destruct (Hfee x) as [H1 H2]
    end.
    rewrite H1, H2. cbn. split; [reflexivity|]. split; [reflexivity|]. lia.
Qed.

Lemma grid_level_incremented_witness :
  let pm := add_buy_order 0 (filled_buy "b1" 1 100) (init 0 1 1000 "BTC/USDT") in
  grid_level (position (update_order_status 0 (filled_buy "b1" 1 100) pm)) =
  grid_level (position pm) + 1.
Proof.
  refine (proj1 (proj2 grid_level_nonneg_and_incremented 0 (filled_buy "b1" 1 100)
                   (add_buy_order 0 (filled_buy "b1" 1 100)
                      (init 0 1 1000 "BTC/USDT")) _ _ _)).
  - vm_compute. eauto.
  - reflexivity.
  - reflexivity.
Defined.

End PositionFacts.

(** ** BotRunner *)

Section RunnerFacts.

Import Runner.

Lemma count_app p tr1 tr2 : count p (tr1 ++ tr2) = (count p tr1 + count p tr2)%nat.
Proof. unfold count. now rewrite List.filter_app, List.length_app. Qed.

Lemma apply_controls_cons c cs r :
  apply_controls (c :: cs) r = apply_controls cs (apply_control c r).
Proof. reflexivity. Qed.

Lemma apply_controls_error_count cs : forall r,
  error_count (apply_controls cs r) = error_count r.
Proof.
  induction cs as [|c cs IH]; intros r; [reflexivity|].
  rewrite apply_controls_cons, IH. destruct c; reflexivity.
Qed.

Lemma apply_controls_keeps_paused cs : forall r,
  forallb keeps_paused cs = true ->
  _paused r = true ->
  _paused (apply_controls cs r) = true /\
  _stop_requested (apply_controls cs r) = _stop_requested r /\
  tick_interval (apply_controls cs r) = tick_interval r.
Proof.
  induction cs as [|c cs IH]; intros r Hcs Hp; [auto|].
  rewrite apply_controls_cons. cbn in Hcs. apply andb_true_iff in Hcs as [Hc Hcs].
  destruct c; try discriminate.
  - destruct (IH (request_graceful_stop r) Hcs Hp) as (H1 & H2 & H3). auto.
  - destruct (IH (pause r) Hcs eq_refl) as (H1 & H2 & H3). auto.
Qed.

(** A paused iteration: the tick counter moves and the loop sleeps. *)
Lemma paused_iteration env r :
  te_cancelled env = false -> _paused r = true ->
  loop_iteration env r =
  (set_progress r (last_price r) (tick_count r + 1) (error_count r),
   [EvSleep (tick_interval r)], Continue).
Proof.
  intros Hc Hp. unfold loop_iteration, tick_body. rewrite Hc. cbn. rewrite Hp.
  reflexivity.
Qed.

(** C10.  While the pause flag is set, and as long as neither [resume()]
    nor [stop()] is called, every iteration of the main loop only sleeps
    and continues: the trace of the loop is one sleep of [tick_interval]
    per iteration (no market data, no risk check, no order), and the loop
    does not exit, whether or not a graceful stop has been requested and
    whether or not the position is flat.  A call of [stop()] ends the loop
    at its next test. *)
Theorem paused_loop_only_sleeps envs r :
  _paused r = true ->
  _stop_requested r = false ->
  forallb undisturbed envs = true ->
  let res := _main_trading_loop envs r in
  lr_exited res = false /\
  lr_iterations res = length envs /\
  lr_trace res = repeat (EvSleep (tick_interval r)) (length envs) /\
  _paused (lr_runner res) = true /\
  _stop_requested (lr_runner res) = false /\
  (forall env rest, In CallStop (te_controls env) ->
     lr_exited (_main_trading_loop (env :: rest) (lr_runner res)) = true /\
     lr_trace (_main_trading_loop (env :: rest) (lr_runner res)) = []).
Proof.
  assert (Stop : forall env rest r0, In CallStop (te_controls env) ->
             lr_exited (_main_trading_loop (env :: rest) r0) = true /\
             lr_trace (_main_trading_loop (env :: rest) r0) = []).
  { intros env rest r0 Hin.
    assert (G : forall cs r1, _stop_requested r1 = true ->
                              _stop_requested (apply_controls cs r1) = true).
    { induction cs as [|c cs IHc]; intros r1 H1; [exact H1|].
      rewrite apply_controls_cons. apply IHc. destruct c; cbn; auto. }
    assert (Hstop : _stop_requested (apply_controls (te_controls env) r0) = true).
    { revert r0. induction (te_controls env) as [|c cs IHc]; intros r0;
        [contradiction|].
      rewrite apply_controls_cons. destruct Hin as [->|Hin]; [|auto].
      apply G. reflexivity. }
    cbn [_main_trading_loop]. rewrite Hstop. split; reflexivity. }
  revert r. induction envs as [|env rest IH]; intros r Hp Hs Hu; cbv zeta.
  - cbn [_main_trading_loop lr_exited lr_iterations lr_trace lr_runner length repeat].
    split; [exact Hs|]. split; [reflexivity|]. split; [reflexivity|].
    split; [exact Hp|]. split; [exact Hs|]. intros e l. apply Stop.
  - cbn in Hu. apply andb_true_iff in Hu as [Hue Hu].
    unfold undisturbed in Hue. apply andb_true_iff in Hue as [Hc Hcs].
    apply negb_true_iff in Hc.
    destruct (apply_controls_keeps_paused _ r Hcs Hp) as (Hp0 & Hs0 & Ht0).
    cbn [_main_trading_loop]. rewrite Hs0, Hs.
    rewrite (paused_iteration _ _ Hc Hp0).
    set (r1 := set_progress _ _ _ _).
    assert (Hp1 : _paused r1 = true) by exact Hp0.
    assert (Hs1 : _stop_requested r1 = false) by (unfold r1; cbn; congruence).
    assert (Ht1 : tick_interval r1 = tick_interval r) by exact Ht0.
    specialize (IH r1 Hp1 Hs1 Hu). cbv zeta in IH.
    destruct IH as (I1 & I2 & I3 & I4 & I5 & I6).
    cbn [lr_exited lr_iterations lr_trace lr_runner length repeat].
    rewrite I2, I3, Ht1, Ht0.
    split; [exact I1|]. split; [reflexivity|]. split; [reflexivity|].
    split; [exact I4|]. split; [exact I5|]. intros e l. apply Stop.
Qed.

Lemma paused_loop_witness :
  let res := _main_trading_loop [flat_env; flat_env; flat_env] paused_runner in
  lr_exited res = false /\ lr_trace res = repeat (EvSleep 5) 3.
Proof.
  pose proof (paused_loop_only_sleeps [flat_env; flat_env; flat_env] paused_runner
                eq_refl eq_refl eq_refl) as H.
  cbv zeta in H. destruct H as (H1 & _ & H3 & _).
  split; [exact H1|exact H3].
Defined.

Lemma close_all_counts reason env :
  count is_tick_error (_close_all_positions reason env) = 0%nat /\
  count is_emergency_stop (_close_all_positions reason env) = 0%nat /\
  count is_cancel_all (_close_all_positions reason env) = 1%nat /\
  (count is_market_sell (_close_all_positions reason env) <= 1)%nat.
Proof.
  unfold _close_all_positions, count.
  destruct (te_held_quantity env) as [q|e]; [destruct (Qltb 0 q)|]; cbn; lia.
Qed.

Lemma trade_steps_counts env r :
  error_count (fst (trade_steps env r)) = error_count r /\
  count is_tick_error (snd (trade_steps env r)) = 0%nat /\
  count is_emergency_stop (snd (trade_steps env r)) = 0%nat.
Proof.
  unfold trade_steps.
  assert (F : forall l r0, error_count (fold_left record_profit l r0) = error_count r0).
  { induction l as [|x l IHl]; intros r0; [reflexivity|]. cbn. now rewrite IHl. }
  destruct (te_signal env); [destruct (te_order_placed env)..| |]; cbn; auto.
Qed.

(** How the guarded body can end, as far as errors and emergency stops are
    concerned. *)
Lemma tick_body_cases env r :
  match tick_body env r with
  | Finished r1 tr ctl =>
      error_count r1 = error_count r /\
      count is_tick_error tr = 0%nat /\
      (count is_emergency_stop tr <= 1)%nat /\
      (ctl = Continue -> count is_emergency_stop tr = 0%nat)
  | Raised r1 tr =>
      error_count r1 = error_count r /\
      count is_tick_error tr = 0%nat /\
      count is_emergency_stop tr = 0%nat
  | Cancelled r1 => error_count r1 = error_count r
  end.
Proof.
  unfold tick_body.
  destruct (te_cancelled env); [reflexivity|].
  cbn [_paused _graceful_stop_requested set_progress].
  destruct (_paused r); [cbn; auto|].
  destruct (_graceful_stop_requested r && negb (te_has_position env));
    [cbn; auto|].
  destruct (te_market_data env) as [[price|e]|]; [|cbn; auto..].
  destruct (te_position env) as [u|e]; [|cbn; auto].
  destruct (Risk.should_stop (te_risk env)).
  { unfold _emergency_stop. cbv beta iota zeta.
    destruct (close_all_counts (ReasonRisk (Risk.reason (te_risk env))) env)
      as (C1 & C2 & _).
    change (EvEmergencyStop ?x :: ?l) with ([EvEmergencyStop x] ++ l).
    rewrite !count_app, C1, C2. cbn.
    split; [reflexivity|]. split; [reflexivity|]. split; [lia|]. discriminate. }
  set (closing := if Risk.should_close_position (te_risk env)
                  then _close_all_positions ReasonRiskManagement env else []).
  assert (Hc : count is_tick_error closing = 0%nat /\
               count is_emergency_stop closing = 0%nat).
  { unfold closing. destruct (Risk.should_close_position (te_risk env));
      [|split; reflexivity].
    destruct (close_all_counts ReasonRiskManagement env) as (C1 & C2 & _).
    split; assumption. }
  destruct Hc as [Hc1 Hc2].
  destruct (Risk.should_pause (te_risk env)).
  { rewrite !count_app, Hc1, Hc2. cbn. auto. }
  match goal with
  | |- context [trade_steps env ?x] =>
      destruct (trade_steps_counts env x) as (T1 & T2 & T3);
      destruct (trade_steps env x) as [r3 evs]
  end.
  cbn [fst snd] in *.
  rewrite !count_app, Hc1, Hc2, T2, T3. cbn in *. auto.
Qed.

(** One iteration: it passes without a tick error, or it counts one error
    and goes on, or it counts the fifth error, stops and exits. *)
Lemma loop_iteration_cases env r :
  let '(r1, tr, ctl) := loop_iteration env r in
  (error_count r1 = error_count r /\
   count is_tick_error tr = 0%nat /\
   (count is_emergency_stop tr <= 1)%nat /\
   (ctl = Continue -> count is_emergency_stop tr = 0%nat)) \/
  (error_count r1 = error_count r + 1 /\ error_count r1 < 5 /\
   ctl = Continue /\
   count is_tick_error tr = 1%nat /\ count is_emergency_stop tr = 0%nat) \/
  (5 <= error_count r + 1 /\ ctl = Break /\
   state r1 = ERROR /\ _stop_requested r1 = true /\
   exists tr0,
     tr = tr0 ++ EvTickError :: EvEmergencyStop ReasonConsecutiveErrors
                  :: _close_all_positions ReasonConsecutiveErrors env /\
     count is_tick_error tr0 = 0%nat /\ count is_emergency_stop tr0 = 0%nat).
Proof.
  unfold loop_iteration. pose proof (tick_body_cases env r) as H.
  destruct (tick_body env r) as [r1 tr ctl|r1 tr|r1].
  - left. exact H.
  - destruct H as (He & Ht & Hs).
    cbn [error_count set_progress].
    destruct (5 <=? error_count r1 + 1) eqn:E.
    + right. right. apply Z.leb_le in E. cbn.
      split; [lia|]. split; [reflexivity|]. split; [reflexivity|].
      split; [reflexivity|]. exists tr. auto.
    + right. left. apply Z.leb_gt in E.
      rewrite !count_app, Ht, Hs. cbn. repeat split; try lia; reflexivity.
  - left. cbn. auto.
Qed.





End RunnerFacts.

(** ** BotLifecycleManager *)

Section LifecycleFacts.

Import Lifecycle.

(** A call of [BotRunner] with two arguments cannot bind [config]. *)
Lemma BotRunner_call_two_arguments a b :
  Runner.BotRunner_call [a; b] = Py.Raise Py.TypeError.
Proof. reflexivity. Qed.

Lemma api_keys_need_session uid exch m keys :
  _get_user_api_keys uid exch m = Some keys -> get_async_session m = Py.Return tt.
Proof.
  unfold _get_user_api_keys. destruct (get_async_session m) as [[]|e];
    [reflexivity|discriminate].
Qed.

(** [_start_bot] never succeeds and never touches the registry or the
    task list. *)
Lemma start_bot_never_registers now env bot m :
  success (fst (_start_bot now env bot m)) = false /\
  running_bots (snd (_start_bot now env bot m)) = running_bots m /\
  run_tasks (snd (_start_bot now env bot m)) = run_tasks m /\
  get_async_session (snd (_start_bot now env bot m)) = get_async_session m.
Proof.
  unfold _start_bot.
  destruct (decide _); [auto|].
  destruct (negb _); [auto|].
  destruct (_get_user_api_keys _ _ _); [|auto].
  rewrite BotRunner_call_two_arguments. cbn. auto.
Qed.

(** With a session that opens and the premises of the claim, the start
    goes as far as the construction of the runner: the [TypeError] of the
    two-argument call is caught, the row is written as Error with that
    message, and the action returns a failure. *)
Lemma start_action_fails_with_type_error now env bot m keys :
  bots_table m !! id bot = Some bot ->
  running_bots m !! id bot = None ->
  startable (status bot) = true ->
  _get_user_api_keys (user_id bot) (exchange bot) m = Some keys ->
  let res := execute_bot_action now env (id bot) START (user_id bot) m in
  fst res = failure (MsgException Py.TypeError) /\
  exists b, bots_table (snd res) !! id bot = Some b /\
            status b = ERROR /\
            error_message b = Some (MsgException Py.TypeError).
Proof.
  intros Hbot Hreg Hst Hkeys. cbv zeta.
  unfold execute_bot_action.
  rewrite (api_keys_need_session _ _ _ _ Hkeys), Hbot, Z.eqb_refl. cbn [negb].
  unfold _start_bot.
  destruct (decide _) as [[c Hc]|_]; [congruence|].
  rewrite Hst, Hkeys. cbn [negb]. rewrite BotRunner_call_two_arguments.
  cbn [Py.bind fst snd update_bot set_bots running_bots run_tasks bots_table].
  split; [reflexivity|].
  eexists. rewrite lookup_alter, decide_True by reflexivity.
  rewrite Hbot. cbn. split; [reflexivity|]. split; reflexivity.
Qed.

(** The start of [sample_bot], with a session that opens... *)
Lemma start_sample_bot :
  fst (execute_bot_action 1000 sample_init_env 1 START 100 sample_manager)
  = failure (MsgException Py.TypeError) /\
  status <$> bots_table
               (snd (execute_bot_action 1000 sample_init_env 1 START 100
                       sample_manager)) !! 1 = Some ERROR.
Proof. vm_compute. split; reflexivity. Qed.

(** ...and with the session factory of [app/core/database.py]: the action
    fails on entering [async with], before [_start_bot] is called, and
    changes nothing. *)
Lemma start_sample_bot_database_py :
  execute_bot_action 1000 sample_init_env 1 START 100 sample_manager_database_py
  = (failure (MsgException Py.TypeError), sample_manager_database_py).
Proof. reflexivity. Qed.

(** C1.  The claim: a bot whose status allows starting, that is not in the
    registry and whose user has API keys is started by
    [execute_bot_action(bot_id, START, user_id)]: a runner is built, the
    bot is persisted as Running, its run is scheduled and success is
    returned.  The code never does that, for any bot and any state of the
    manager: the runner is built by [BotRunner(context, user_api_keys)],
    two arguments for a constructor that requires three, so every start
    that gets that far raises [TypeError] and is answered with a failure.
    The registry and the task list are left as they were and no row
    becomes Running. *)
Theorem start_action_never_succeeds now env i uid m :
  let res := execute_bot_action now env i START uid m in
  success (fst res) = false /\
  running_bots (snd res) = running_bots m /\
  run_tasks (snd res) = run_tasks m /\
  (forall j b, bots_table (snd res) !! j = Some b -> status b = RUNNING ->
               bots_table m !! j = Some b).
Proof.
  cbv zeta. unfold execute_bot_action.
  destruct (get_async_session m); [|cbn; auto].
  destruct (bots_table m !! i) as [bot|]; [|cbn; auto].
  destruct (negb _); [cbn; auto|].
  destruct (start_bot_never_registers now env bot m) as (H1 & H2 & H3 & _).
  split; [exact H1|]. split; [exact H2|]. split; [exact H3|].
  unfold _start_bot.
  destruct (decide _); [cbn; auto|].
  destruct (negb _); [cbn; auto|].
  destruct (_get_user_api_keys _ _ _); [|cbn; auto].
  rewrite BotRunner_call_two_arguments.
  cbn [Py.bind fst snd update_bot set_bots bots_table].
  intros j b Hb Hst. rewrite lookup_alter in Hb. case_decide; [|exact Hb].
  subst j. destruct (bots_table m !! id bot); [|discriminate].
  cbn in Hb. injection Hb as <-. discriminate.
Qed.

Lemma heartbeats_kept_refl m : heartbeats_kept m m.
Proof. intros i c H. eauto. Qed.

Lemma heartbeats_kept_trans m1 m2 m3 :
  heartbeats_kept m1 m2 -> heartbeats_kept m2 m3 -> heartbeats_kept m1 m3.
Proof.
  intros H12 H23 i c3 H3.
  destruct (H23 _ _ H3) as (c2 & H2 & E2).
  destruct (H12 _ _ H2) as (c1 & H1 & E1).
  exists c1. split; [exact H1|congruence].
Qed.

Lemma heartbeats_kept_same m m' :
  running_bots m' = running_bots m -> heartbeats_kept m m'.
Proof. intros E i c H. rewrite E in H. eauto. Qed.

Lemma heartbeats_kept_delete m m' i :
  running_bots m' = delete i (running_bots m) -> heartbeats_kept m m'.
Proof.
  intros E j c H. rewrite E in H. apply lookup_delete_Some in H as [_ H]. eauto.
Qed.

(** Putting a context back with a different runner and the same
    heartbeat. *)
Lemma heartbeats_kept_insert m m' i c r :
  running_bots m !! i = Some c ->
  running_bots m' = <[i := set_runner c r (last_heartbeat c)]> (running_bots m) ->
  heartbeats_kept m m'.
Proof.
  intros Hc E j c' H. rewrite E in H.
  apply lookup_insert_Some in H as [[<- <-]|[_ H]]; eauto.
Qed.

Lemma cleanup_dead_bot_kept now i m :
  heartbeats_kept m (_cleanup_dead_bot now i m) /\
  get_async_session (_cleanup_dead_bot now i m) = get_async_session m.
Proof.
  unfold _cleanup_dead_bot.
  destruct (get_async_session m) eqn:E; [|split; [apply heartbeats_kept_refl|exact E]].
  split; [apply (heartbeats_kept_delete _ _ i); reflexivity|exact E].
Qed.

Lemma cleanup_all_kept now dead : forall m,
  heartbeats_kept m (fold_left (fun acc i => _cleanup_dead_bot now i acc) dead m) /\
  get_async_session (fold_left (fun acc i => _cleanup_dead_bot now i acc) dead m)
  = get_async_session m.
Proof.
  induction dead as [|i dead IH]; intros m; [split; [apply heartbeats_kept_refl|reflexivity]|].
  cbn [fold_left].
  destruct (IH (_cleanup_dead_bot now i m)) as [I1 I2].
  destruct (cleanup_dead_bot_kept now i m) as [C1 C2].
  split; [eapply heartbeats_kept_trans; eassumption|congruence].
Qed.

(** No operation gives a registered context another heartbeat, and none
    changes the session factory. *)
Lemma step_heartbeats_kept op m :
  heartbeats_kept m (step op m) /\
  get_async_session (step op m) = get_async_session m.
Proof.
  destruct op as [now env i action uid|now context outcome|i f|now| |]; cbn [step].
  - unfold execute_bot_action.
    destruct (get_async_session m) eqn:Es;
      [|split; [apply heartbeats_kept_refl|exact Es]].
    destruct (bots_table m !! i) as [bot|];
      [|split; [apply heartbeats_kept_refl|exact Es]].
    destruct (negb _); [split; [apply heartbeats_kept_refl|exact Es]|].
    destruct action.
    + destruct (start_bot_never_registers now env bot m) as (_ & H1 & _ & H2).
      split; [apply heartbeats_kept_same; exact H1|congruence].
    + unfold _stop_bot.
      destruct (running_bots m !! i) as [c|] eqn:Hc;
        [|split; [apply heartbeats_kept_refl|exact Es]].
      destruct (runner c); cbn; [split; [apply heartbeats_kept_refl|exact Es]|].
      split; [apply (heartbeats_kept_delete _ _ i); reflexivity|exact Es].
    + unfold _pause_bot.
      destruct (running_bots m !! i) as [c|] eqn:Hc;
        [|split; [apply heartbeats_kept_refl|exact Es]].
      destruct (runner c); cbn; [|split; [apply heartbeats_kept_refl|exact Es]].
      split; [eapply heartbeats_kept_insert; [exact Hc|reflexivity]|exact Es].
    + unfold _resume_bot.
      destruct (running_bots m !! i) as [c|] eqn:Hc;
        [|split; [apply heartbeats_kept_refl|exact Es]].
      destruct (runner c); cbn; [|split; [apply heartbeats_kept_refl|exact Es]].
      split; [eapply heartbeats_kept_insert; [exact Hc|reflexivity]|exact Es].
    + unfold _force_stop_bot.
      destruct (running_bots m !! i) as [c|] eqn:Hc;
        [|split; [apply heartbeats_kept_refl|exact Es]].
      destruct (runner c); cbn; [split; [apply heartbeats_kept_refl|exact Es]|].
      split; [apply (heartbeats_kept_delete _ _ i); reflexivity|exact Es].
  - unfold _run_bot.
    destruct outcome as [u|e];
      [split; [apply (heartbeats_kept_delete _ _ (ctx_bot_id context))|]; reflexivity|].
    cbn [error_count set_error_count ctx_bot_id].
    destruct (3 <=? _);
      [|split; [apply (heartbeats_kept_delete _ _ (ctx_bot_id context))|]; reflexivity].
    destruct (get_async_session m) eqn:Es;
      [|split; [apply (heartbeats_kept_delete _ _ (ctx_bot_id context));
                reflexivity|exact Es]].
    split; [|exact Es].
    intros j c' H. cbn in H.
    apply lookup_delete_Some in H as [_ H].
    apply lookup_delete_Some in H as [_ H]. eauto.
  - split; [|reflexivity].
    intros j c' H. unfold runner_step in H. cbn in H.
    rewrite lookup_alter in H. case_decide.
    + subst j. destruct (running_bots m !! i) as [c|]; [|discriminate].
      cbn in H. injection H as <-. eauto.
    + eauto.
  - apply cleanup_all_kept.
  - unfold _recover_running_bots.
    destruct (get_async_session m) eqn:Es;
      (split; [apply heartbeats_kept_same; reflexivity|exact Es]).
  - split; [|reflexivity].
    intros j c' H. cbn in H. rewrite lookup_empty in H. discriminate.
Qed.

Lemma run_heartbeats_kept ops : forall m,
  heartbeats_kept m (run ops m) /\
  get_async_session (run ops m) = get_async_session m.
Proof.
  induction ops as [|op rest IH]; intros m;
    [split; [apply heartbeats_kept_refl|reflexivity]|].
  cbn [run]. destruct (IH (step op m)) as [I1 I2].
  destruct (step_heartbeats_kept op m) as [S1 S2].
  split; [eapply heartbeats_kept_trans; eassumption|congruence].
Qed.







(** A heartbeat older than 300 seconds puts the bot on the list of dead
    bots. *)
Lemma stale_is_dead now m i c h :
  running_bots m !! i = Some c ->
  last_heartbeat c = Some h ->
  (300 < now - h)%Q ->
  In i (flat_map (dead_entries now) (map_to_list (running_bots m))).
Proof.
  intros Hc Hh Hlt. apply in_flat_map. exists (i, c). split.
  - apply list_elem_of_In, elem_of_map_to_list. exact Hc.
  - unfold dead_entries. rewrite Hh.
    apply Qltb_lt in Hlt. rewrite Hlt. apply in_or_app. left. left. reflexivity.
Qed.

(** With the session factory of [app/core/database.py] no cleanup gets as
    far as its first statement: the sweep changes nothing. *)
Lemma sweep_without_session now m e :
  get_async_session m = Py.Raise e -> _monitor_bots now m = m.
Proof.
  intros Hs. unfold _monitor_bots.
  induction (flat_map _ _) as [|i dead IH]; [reflexivity|].
  cbn [fold_left]. unfold _cleanup_dead_bot at 2. rewrite Hs. exact IH.
Qed.

(** The part of the claim that needs no session: the heartbeat of a
    registered bot is the one it was registered with, whatever happens in
    between, and a sweep later than 300 seconds after it lists the bot as
    dead. *)
Lemma stale_heartbeat_is_listed ops m i c h now :
  running_bots m !! i = Some c ->
  last_heartbeat c = Some h ->
  is_Some (running_bots (run ops m) !! i) ->
  (300 < now - h)%Q ->
  (forall c1, running_bots (run ops m) !! i = Some c1 -> last_heartbeat c1 = Some h) /\
  In i (flat_map (dead_entries now) (map_to_list (running_bots (run ops m)))).
Proof.
  intros Hc Hh [c1 Hc1] Hlt.
  destruct (run_heartbeats_kept ops m) as [Hk _].
  assert (Hkept : forall c2, running_bots (run ops m) !! i = Some c2 ->
                             last_heartbeat c2 = Some h).
  { intros c2 H2. destruct (Hk _ _ H2) as (c0 & H0 & E).
    rewrite Hc in H0. injection H0 as <-. congruence. }
  split; [exact Hkept|].
  exact (stale_is_dead now (run ops m) i c1 h Hc1 (Hkept _ Hc1) Hlt).
Qed.






(** With the session factory of [app/core/database.py], which is an
    async generator and not a context manager, a registry built by hand
    shows what the sweep would do: bot 1 of
    [registered_manager_database_py] keeps the heartbeat 1000 through
    [five_minutes] and the sweep at 1301 lists it as dead, but
    [_cleanup_dead_bot] cannot enter [async with get_async_session()], its
    handler only logs, and the sweep returns the manager as it was.  The
    code cannot reach such a registry: with that factory no bot is ever
    registered. *)
Lemma stale_bot_is_listed_but_not_marked :
  let m := run five_minutes registered_manager_database_py in
  (last_heartbeat <$> running_bots m !! 1) = Some (Some 1000%Q) /\
  In 1 (flat_map (dead_entries 1301) (map_to_list (running_bots m))) /\
  _monitor_bots 1301 m = m /\
  is_Some (running_bots (_monitor_bots 1301 m) !! 1) /\
  (status <$> bots_table (_monitor_bots 1301 m) !! 1) = Some RUNNING.
Proof.
  cbv zeta.
  assert (Hm : _monitor_bots 1301 (run five_minutes registered_manager_database_py)
               = run five_minutes registered_manager_database_py).
  { apply (sweep_without_session _ _ Py.TypeError).
    rewrite (proj2 (run_heartbeats_kept _ _)). reflexivity. }
  rewrite Hm.
  split; [vm_compute; reflexivity|].
  split; [|split; [reflexivity|split; [vm_compute; eauto|vm_compute; reflexivity]]].
  refine (proj2 (stale_heartbeat_is_listed five_minutes registered_manager_database_py
                   1 sample_context 1000 1301 _ _ _ _)).
  - reflexivity.
  - reflexivity.
  - vm_compute. eauto.
  - vm_compute. reflexivity.
Qed.

End LifecycleFacts.

(** * Further properties of the engine *)

(** ** RiskManager: the order of the checks, its log and its counters *)

Section RiskMoreFacts.

Import Risk.

Lemma log_risk_event_configuration now sev msg rm :
  configuration (_log_risk_event now sev msg rm) = configuration rm.
Proof. reflexivity. Qed.

Lemma reset_time_counters_configuration now rm :
  configuration (_reset_time_counters now rm) = configuration rm /\
  peak_balance (_reset_time_counters now rm) = peak_balance rm /\
  risk_events (_reset_time_counters now rm) = risk_events rm /\
  last_price (_reset_time_counters now rm) = last_price rm.
Proof.
  unfold _reset_time_counters.
  destruct (3600 <=? _); destruct (negb _); auto.
Qed.

Lemma pct_of_capital_configuration rm rm' x :
  configuration rm' = configuration rm -> pct_of_capital rm' x = pct_of_capital rm x.
Proof.
  unfold configuration, pct_of_capital. intros H.
  assert (Hc : capital rm' = capital rm) by congruence. now rewrite Hc.
Qed.

(** X1.  The total-loss check comes first and wins: when the loss ratio is
    at or below [max_loss_percentage], [check_risk] returns the stop of
    severity CRITICAL with that reason, whatever the other counters, the
    position and the price are. *)
Theorem total_loss_breach_stops now price position profit rm :
  Qleb (pct_of_capital rm profit) (max_loss_percentage rm) = true ->
  fst (check_risk now price position profit rm) =
  mkResult true false false false
    (ReasonMaxLoss (max_loss_percentage rm) (pct_of_capital rm profit)) CRITICAL.
Proof.
  intros H. unfold check_risk.
  destruct (reset_time_counters_configuration now rm) as (Hc & _).
  set (rm0 := _reset_time_counters now rm) in *.
  unfold _check_loss_limits.
  rewrite (pct_of_capital_configuration rm rm0 profit Hc).
  assert (Hm : max_loss_percentage rm0 = max_loss_percentage rm)
    by (unfold configuration in Hc; congruence).
  rewrite Hm, H. reflexivity.
Qed.

Lemma total_loss_breach_witness :
  should_stop (fst (check_risk 20 50000 (mkPositionView (Some 200%Q)) (-120)
                      (test_manager 0))) = true.
Proof.
  rewrite (total_loss_breach_stops 20 50000 (mkPositionView (Some 200%Q)) (-120)
             (test_manager 0)); reflexivity.
Defined.

Ltac split_check E :=
  repeat match type of E with
         | context [if ?c then _ else _] => destruct c
         | context [match ?c with Some _ => _ | None => _ end] => destruct c
         end;
  inversion E; subst; clear E.

(** X2.  Every result of [check_risk] has one of four shapes: a stop of
    severity CRITICAL, a request to reduce the position of severity
    MEDIUM, a pause of severity MEDIUM or HIGH, or the neutral passed
    result.  So it never asks to close the position, never raises two
    flags at once, and is LOW only when nothing is raised. *)
Theorem check_risk_result_shapes now price position profit rm :
  let res := fst (check_risk now price position profit rm) in
  (exists r, res = mkResult true false false false r CRITICAL) \/
  (exists r, res = mkResult false false true false r MEDIUM) \/
  (exists r sev, res = mkResult false false false true r sev /\
                 (sev = MEDIUM \/ sev = HIGH)) \/
  res = with_reason ReasonAllPassed.
Proof.
  cbv zeta. unfold check_risk.
  destruct (_check_loss_limits _ _ _) as [lc rm1] eqn:E1.
  destruct (should_stop lc) eqn:S1.
  { unfold _check_loss_limits in E1.
    split_check E1; cbn in *; try discriminate; left; eauto. }
  destruct (_check_position_size _ _ _) as [pc rm2] eqn:E2.
  destruct (should_reduce_position pc) eqn:S2.
  { unfold _check_position_size in E2.
    split_check E2; cbn in *; try discriminate; right; left; eauto. }
  destruct (_check_trading_frequency _ _) as [fc rm3] eqn:E3.
  destruct (should_pause fc) eqn:S3.
  { unfold _check_trading_frequency in E3.
    split_check E3; cbn in *; try discriminate; right; right; left; eauto. }
  destruct (_check_market_volatility _ _ _) as [vc rm4] eqn:E4.
  destruct (should_pause vc) eqn:S4.
  { unfold _check_market_volatility in E4.
    split_check E4; cbn in *; try discriminate; right; right; left; eauto. }
  destruct (_check_drawdown _ _ _) as [dc rm5] eqn:E5.
  destruct (should_stop dc) eqn:S5.
  { unfold _check_drawdown in E5.
    split_check E5; cbn in *; try discriminate; left; eauto. }
  right. right. right. reflexivity.
Qed.

Lemma log_risk_event_bounded now sev msg rm :
  (length (risk_events rm) <= 100)%nat ->
  (length (risk_events (_log_risk_event now sev msg rm)) <= 100)%nat.
Proof.
  intros H. unfold _log_risk_event. cbn [risk_events set_events].
  destruct (100 <? _)%nat eqn:E.
  - unfold last100. rewrite length_skipn, length_app. cbn. lia.
  - apply Nat.ltb_ge in E. exact E.
Qed.

(** X3.  The log of risk events never grows beyond 100 entries: a call of
    [check_risk] on a manager whose log has at most 100 entries leaves at
    most 100, however many of its checks log an event. *)
Theorem risk_events_bounded now price position profit rm :
  (length (risk_events rm) <= 100)%nat ->
  (length (risk_events (snd (check_risk now price position profit rm))) <= 100)%nat.
Proof.
  intros H. unfold check_risk.
  destruct (reset_time_counters_configuration now rm) as (_ & _ & Hr & _).
  set (rm0 := _reset_time_counters now rm) in *.
  assert (H0 : (length (risk_events rm0) <= 100)%nat) by (rewrite Hr; exact H).
  clearbody rm0. clear H Hr rm.
  assert (L1 : (length (risk_events (snd (_check_loss_limits now profit rm0))) <= 100)%nat).
  { unfold _check_loss_limits.
    repeat match goal with |- context [if ?c then _ else _] => destruct c end;
      cbn [snd]; auto using log_risk_event_bounded. }
  destruct (_check_loss_limits _ _ _) as [lc rm1]. cbn [snd] in L1.
  destruct (should_stop lc); [exact L1|].
  assert (L2 : (length (risk_events (snd (_check_position_size now position rm1))) <= 100)%nat).
  { unfold _check_position_size.
    repeat match goal with |- context [if ?c then _ else _] => destruct c end;
      cbn [snd]; auto using log_risk_event_bounded. }
  destruct (_check_position_size _ _ _) as [pc rm2]. cbn [snd] in L2.
  destruct (should_reduce_position pc); [exact L2|].
  assert (L3 : (length (risk_events (snd (_check_trading_frequency now rm2))) <= 100)%nat).
  { unfold _check_trading_frequency.
    repeat match goal with |- context [if ?c then _ else _] => destruct c end;
      cbn [snd]; auto using log_risk_event_bounded. }
  destruct (_check_trading_frequency _ _) as [fc rm3]. cbn [snd] in L3.
  destruct (should_pause fc); [exact L3|].
  assert (L4 : (length (risk_events (snd (_check_market_volatility now price rm3))) <= 100)%nat).
  { unfold _check_market_volatility.
    destruct (last_price rm3);
    repeat match goal with |- context [if ?c then _ else _] => destruct c end;
      cbn [snd]; auto using log_risk_event_bounded. }
  destruct (_check_market_volatility _ _ _) as [vc rm4]. cbn [snd] in L4.
  destruct (should_pause vc); [exact L4|].
  assert (L5 : (length (risk_events (snd (_check_drawdown now profit rm4))) <= 100)%nat).
  { unfold _check_drawdown.
    assert (P : forall b : bool,
               (length (risk_events
                          (if b then set_peak_balance rm4 (capital rm4 + profit)%Q
                           else rm4)) <= 100)%nat)
      by (intros []; exact L4).
    specialize (P (Qltb (peak_balance rm4) (capital rm4 + profit))).
    set (rmp := if Qltb _ _ then _ else rm4) in *. clearbody rmp.
    repeat match goal with |- context [if ?c then _ else _] => destruct c end;
      cbn [snd]; auto using log_risk_event_bounded. }
  destruct (_check_drawdown _ _ _) as [dc rm5]. cbn [snd] in L5.
  destruct (should_stop dc); exact L5.
Qed.

Lemma risk_events_bounded_witness :
  (length (risk_events
             (snd (check_risk 20 50000 (mkPositionView (Some 200%Q)) (-120)
                     (test_manager 0)))) <= 100)%nat.
Proof.
  apply (risk_events_bounded 20 50000 (mkPositionView (Some 200%Q)) (-120)
           (test_manager 0)).
  cbn. lia.
Defined.

Lemma kept_refl rm : kept rm rm.
Proof. repeat split. apply Qle_refl. Qed.

Lemma kept_trans a b c : kept a b -> kept b c -> kept a c.
Proof.
  intros (A1 & A2 & A3 & A4) (B1 & B2 & B3 & B4).
  repeat split; try congruence. eapply Qle_trans; eassumption.
Qed.

Lemma kept_log now sev msg rm : kept rm (_log_risk_event now sev msg rm).
Proof. repeat split. apply Qle_refl. Qed.

Lemma check_loss_limits_kept now profit rm :
  kept rm (snd (_check_loss_limits now profit rm)).
Proof.
  unfold _check_loss_limits.
  repeat match goal with |- context [if ?c then _ else _] => destruct c end;
    cbn [snd]; auto using kept_refl, kept_log.
Qed.

Lemma check_position_size_kept now position rm :
  kept rm (snd (_check_position_size now position rm)).
Proof.
  unfold _check_position_size.
  repeat match goal with |- context [if ?c then _ else _] => destruct c end;
    cbn [snd]; auto using kept_refl, kept_log.
Qed.

Lemma check_trading_frequency_kept now rm :
  kept rm (snd (_check_trading_frequency now rm)).
Proof.
  unfold _check_trading_frequency.
  repeat match goal with |- context [if ?c then _ else _] => destruct c end;
    cbn [snd]; auto using kept_refl, kept_log.
Qed.

Lemma check_market_volatility_kept now price rm :
  kept rm (snd (_check_market_volatility now price rm)).
Proof.
  unfold _check_market_volatility.
  destruct (last_price rm);
  repeat match goal with |- context [if ?c then _ else _] => destruct c end;
    cbn [snd]; auto using kept_refl, kept_log; repeat split; apply Qle_refl.
Qed.

Lemma check_drawdown_kept now profit rm :
  kept rm (snd (_check_drawdown now profit rm)).
Proof.
  unfold _check_drawdown.
  assert (P : kept rm (if Qltb (peak_balance rm) (capital rm + profit)
                       then set_peak_balance rm (capital rm + profit)%Q else rm)).
  { destruct (Qltb _ _) eqn:E; [|apply kept_refl].
    repeat split. cbn. apply Qlt_le_weak, Qltb_lt, E. }
  set (rmp := if Qltb _ _ then _ else rm) in *. clearbody rmp.
  repeat match goal with |- context [if ?c then _ else _] => destruct c end;
    cbn [snd]; auto; eapply kept_trans; eauto using kept_log.
Qed.

(** X4.  [check_risk] never changes the capital or any of the configured
    limits, and the peak balance it tracks never goes down. *)
Theorem check_risk_keeps_configuration now price position profit rm :
  configuration (snd (check_risk now price position profit rm)) = configuration rm /\
  (peak_balance rm <= peak_balance (snd (check_risk now price position profit rm)))%Q.
Proof.
  assert (K : configuration (snd (check_risk now price position profit rm))
              = configuration rm /\
              (peak_balance rm
               <= peak_balance (snd (check_risk now price position profit rm)))%Q).
  { unfold check_risk.
    destruct (reset_time_counters_configuration now rm) as (Hc & Hp & _).
    set (rm0 := _reset_time_counters now rm) in *. rewrite <- Hc, <- Hp.
    clearbody rm0.
    pose proof (check_loss_limits_kept now profit rm0) as K1.
    destruct (_check_loss_limits _ _ _) as [lc rm1]. cbn [snd] in K1.
    destruct (should_stop lc); [destruct K1 as (? & _ & _ & ?); auto|].
    pose proof (check_position_size_kept now position rm1) as K2.
    destruct (_check_position_size _ _ _) as [pc rm2]. cbn [snd] in K2.
    pose proof (kept_trans _ _ _ K1 K2) as K12.
    destruct (should_reduce_position pc); [destruct K12 as (? & _ & _ & ?); auto|].
    pose proof (check_trading_frequency_kept now rm2) as K3.
    destruct (_check_trading_frequency _ _) as [fc rm3]. cbn [snd] in K3.
    pose proof (kept_trans _ _ _ K12 K3) as K13.
    destruct (should_pause fc); [destruct K13 as (? & _ & _ & ?); auto|].
    pose proof (check_market_volatility_kept now price rm3) as K4.
    destruct (_check_market_volatility _ _ _) as [vc rm4]. cbn [snd] in K4.
    pose proof (kept_trans _ _ _ K13 K4) as K14.
    destruct (should_pause vc); [destruct K14 as (? & _ & _ & ?); auto|].
    pose proof (check_drawdown_kept now profit rm4) as K5.
    destruct (_check_drawdown _ _ _) as [dc rm5]. cbn [snd] in K5.
    pose proof (kept_trans _ _ _ K14 K5) as K15.
    destruct (should_stop dc); destruct K15 as (? & _ & _ & ?); auto. }
  exact K.
Qed.

Lemma record_trades_counts now profits : forall rm,
  trade_count_hour (record_trades now profits rm)
  = trade_count_hour rm + Z.of_nat (length profits) /\
  trade_count_day (record_trades now profits rm)
  = trade_count_day rm + Z.of_nat (length profits) /\
  configuration (record_trades now profits rm) = configuration rm /\
  last_hour_reset (record_trades now profits rm) = last_hour_reset rm.
Proof.
  induction profits as [|p l IH]; intros rm.
  - cbn. repeat split; lia.
  - unfold record_trades in *. cbn [fold_left].
    destruct (IH (record_trade now p rm)) as (H1 & H2 & H3 & H4).
    rewrite H1, H2, H3, H4. cbn [length]. cbn. repeat split; lia.
Qed.

(** X5.  Once the trades recorded in the current hour reach
    [max_trades_per_hour], and neither the total-loss limit nor the
    position-size limit is breached, [check_risk] returns the pause of
    severity MEDIUM for the hourly cap. *)
Theorem hourly_trade_cap_pauses now price position profit rm :
  now - last_hour_reset rm < 3600 ->
  max_trades_per_hour rm <= trade_count_hour rm ->
  Qleb (pct_of_capital rm profit) (max_loss_percentage rm) = false ->
  Qltb (max_position_size rm)
    (pct_of_capital rm (match pv_total_cost position with
                        | Some c => c | None => 0%Q end)) = false ->
  fst (check_risk now price position profit rm) =
  mkResult false false false true (ReasonHourlyTrades (max_trades_per_hour rm)) MEDIUM.
Proof.
  intros Hhour Hcap Hloss Hpos. unfold check_risk.
  assert (R : configuration (_reset_time_counters now rm) = configuration rm /\
              trade_count_hour (_reset_time_counters now rm) = trade_count_hour rm).
  { unfold _reset_time_counters.
    destruct (3600 <=? now - last_hour_reset rm) eqn:E;
      [apply Z.leb_le in E; lia|].
    destruct (negb _); split; reflexivity. }
  destruct R as [Rc Rh].
  set (rm0 := _reset_time_counters now rm) in *. clearbody rm0.
  pose proof (check_loss_limits_kept now profit rm0) as (K1 & K1h & _).
  assert (S1 : should_stop (fst (_check_loss_limits now profit rm0)) = false).
  { unfold _check_loss_limits.
    rewrite (pct_of_capital_configuration rm rm0 profit Rc).
    assert (Hm : max_loss_percentage rm0 = max_loss_percentage rm)
      by (unfold configuration in Rc; congruence).
    rewrite Hm, Hloss.
    destruct (Qleb (pct_of_capital rm0 (daily_pnl rm0)) (daily_loss_limit rm0));
      reflexivity. }
  destruct (_check_loss_limits _ _ _) as [lc rm1]. cbn [fst snd] in *.
  rewrite S1.
  assert (C1 : configuration rm1 = configuration rm) by congruence.
  unfold _check_position_size.
  rewrite (pct_of_capital_configuration rm rm1 _ C1).
  assert (Hm : max_position_size rm1 = max_position_size rm)
    by (unfold configuration in C1; congruence).
  rewrite Hm, Hpos. cbn [should_reduce_position with_reason].
  unfold _check_trading_frequency.
  assert (Hh : max_trades_per_hour rm1 = max_trades_per_hour rm)
    by (unfold configuration in C1; congruence).
  rewrite Hh, K1h, Rh.
  apply Z.leb_le in Hcap. rewrite Hcap. reflexivity.
Qed.

Lemma hourly_trade_cap_witness :
  should_pause
    (fst (check_risk 20 50000 (mkPositionView (Some 200%Q)) 10
            (record_trades 10 six_trades (test_manager 0)))) = true.
Proof.
  rewrite (hourly_trade_cap_pauses 20 50000 (mkPositionView (Some 200%Q)) 10
             (record_trades 10 six_trades (test_manager 0)));
    [reflexivity| | | |]; vm_compute; try reflexivity; discriminate.
Defined.

(** X6.  With exact decimal arithmetic, [emergency_stop_check] is true
    exactly when the capital is positive and the loss is at least half of
    it.  (The code rounds the quotient to 28 significant digits, which can
    move a case within rounding distance of the boundary.) *)
Theorem emergency_stop_at_half_capital now profit rm :
  fst (emergency_stop_check now profit rm) = true <->
  (0 < capital rm /\ profit <= - (capital rm / 2))%Q.
Proof.
  unfold emergency_stop_check, pct_of_capital.
  destruct (Qltb 0 (capital rm)) eqn:Ec.
  - apply Qltb_lt in Ec.
    destruct (Qleb (profit / capital rm * 100) (-50)) eqn:E; cbn [fst].
    + apply Qleb_le in E. split; [intros _|reflexivity]. split; [exact Ec|].
      assert (X : (profit / capital rm <= - (1 # 2))%Q).
      { set (x := (profit / capital rm)%Q) in *. clearbody x. lra. }
      assert (M : (profit / capital rm * capital rm <= (- (1 # 2)) * capital rm)%Q)
        by (apply Qmult_le_compat_r; [exact X|apply Qlt_le_weak, Ec]).
      assert (H : (profit == profit / capital rm * capital rm)%Q)
        by (field; intros Hz; rewrite Hz in Ec; exact (Qlt_irrefl _ Ec)).
      rewrite H. eapply Qle_trans; [exact M|].
      set (c := capital rm). clearbody c.
      assert (Hc : (- (1 # 2) * c == - (c / 2))%Q) by field.
      rewrite Hc. apply Qle_refl.
    + apply Qleb_false_gt in E. split; [discriminate|]. intros [_ H]. exfalso.
      assert (H2 : (profit / capital rm <= - (1 # 2))%Q).
      { apply Qle_shift_div_r; [exact Ec|].
        eapply Qle_trans; [exact H|].
        set (c := capital rm). clearbody c.
        assert (Hc : (- (1 # 2) * c == - (c / 2))%Q) by field.
        rewrite Hc. apply Qle_refl. }
      clear H Ec. set (x := (profit / capital rm)%Q) in *. clearbody x. lra.
  - apply Qltb_false_ge in Ec. cbn. split; [discriminate|].
    intros [H _]. exfalso. exact (Qlt_not_le _ _ H Ec).
Qed.

End RiskMoreFacts.

(** ** OrderExecutor: statuses, retries, bookkeeping *)

Section OrderExecMoreFacts.

Import OrderExec.

(** X7.  [OrderStatus(value)] and [.value] are inverse to each other: a
    string converts to a status exactly when it is that status's value,
    and every other string, ['closed'] among them, raises [ValueError]. *)
Theorem OrderStatus_value_inverse v st :
  OrderStatus_of_value v = Py.Return st <-> v = OrderStatus_value st.
Proof.
  split.
  - unfold OrderStatus_of_value.
    repeat match goal with
           | |- context [(v =? ?lit)%string] =>
               destruct (String.eqb_spec v lit); [subst v|]
           end; intros H; inversion H; reflexivity.
  - intros ->. apply OrderStatus_value_roundtrip.
Qed.

(** Every order is either active or completed, never both and never
    neither. *)
Theorem active_xor_completed o : is_active o = negb (is_completed o).
Proof. unfold is_active, is_completed. destruct (status o); reflexivity. Qed.

Lemma backoffs_cons_attempt a evs : backoffs (EvAttempt a :: evs) = backoffs evs.
Proof. reflexivity. Qed.

Lemma backoffs_backoff (b : bool) delay evs :
  backoffs ((if b then [EvBackoff delay] else []) ++ evs)
  = ((if b then 1 else 0) + backoffs evs)%nat.
Proof. destruct b; reflexivity. Qed.

(** From any point of the loop: the first attempt that succeeds ends it. *)
Lemma retry_loop_first_success call retries delay k r m :
  (m <= retries)%nat -> (retries - m <= k)%nat -> (k < retries)%nat ->
  (forall n, (retries - m <= n)%nat -> (n < k)%nat -> attempt_fails (call n)) ->
  call k = Py.Return (Some r) ->
  fst (retry_loop call retries delay m) = Some r /\
  attempts (snd (retry_loop call retries delay m)) = (k - (retries - m) + 1)%nat.
Proof.
  revert k. induction m as [|m IH]; intros k Hm Hlo Hk Hfail Hok; [lia|].
  cbn [retry_loop].
  destruct (Nat.eq_dec (retries - S m)%nat k) as [E|E].
  - rewrite E, Hok. cbn. split; [reflexivity|]. unfold attempts. cbn. lia.
  - assert (F : attempt_fails (call (retries - S m)%nat)) by (apply Hfail; lia).
    destruct (IH k) as [I1 I2]; try lia.
    { intros n Hn1 Hn2. apply Hfail; lia. }
    { exact Hok. }
    destruct (call (retries - S m)%nat) as [[xo|]|e]; cbn in F; [contradiction| |];
      destruct (retry_loop call retries delay m) as [res evs];
      cbn [fst snd] in *; (split; [assumption|]);
      rewrite attempts_cons_attempt, ?attempts_backoff, I2; lia.
Qed.

Lemma retry_loop_backoffs call retries delay m :
  (m <= retries)%nat ->
  (backoffs (snd (retry_loop call retries delay m)) <= m - 1)%nat.
Proof.
  induction m as [|m IH]; intros Hm; [cbn; lia|].
  cbn [retry_loop].
  destruct (call (retries - S m)%nat) as [[xo|]|e].
  - cbn. lia.
  - destruct (retry_loop call retries delay m) as [res evs].
    cbn [snd] in *. rewrite backoffs_cons_attempt. specialize (IH ltac:(lia)). lia.
  - destruct (retry_loop call retries delay m) as [res evs].
    cbn [snd] in *. rewrite backoffs_cons_attempt, backoffs_backoff.
    specialize (IH ltac:(lia)).
    destruct (retries - S m <? retries - 1)%nat eqn:E.
    + apply Nat.ltb_lt in E. lia.
    + lia.
Qed.

(** X8.  A submission stops at the first attempt that returns an order
    record: when the attempts before the [k]-th fail and the [k]-th
    succeeds, with [k] below [max_retries], [_execute_exchange_order]
    returns that record after exactly [k + 1] calls of the exchange; and
    it sleeps at most [max_retries - 1] times, never after the last
    attempt. *)
Theorem submission_stops_at_first_success kind did qty price ex call k r :
  match kind with
  | SubmitMarket => create_market_order_method (exchange_client ex)
  | SubmitLimit => create_limit_order_method (exchange_client ex)
  end = Some call ->
  (k < max_retries ex)%nat ->
  (forall n, (n < k)%nat -> attempt_fails (call n)) ->
  call k = Py.Return (Some r) ->
  let res := _execute_exchange_order kind did qty price ex in
  fst res = Some r /\
  attempts (snd res) = S k /\
  (backoffs (snd res) <= max_retries ex - 1)%nat.
Proof.
  intros Hcall Hk Hfail Hok. cbv zeta. unfold _execute_exchange_order.
  assert (Hc : match match kind with
                     | SubmitMarket => create_market_order_method (exchange_client ex)
                     | SubmitLimit => create_limit_order_method (exchange_client ex)
                     end with
               | Some m => m
               | None => fun _ => Py.Return
                                    (Some (dummy_response kind did qty price))
               end = call) by (rewrite Hcall; reflexivity).
  rewrite Hc.
  destruct (retry_loop_first_success call (max_retries ex) (retry_delay ex) k r
              (max_retries ex)) as [H1 H2]; try lia; auto.
  split; [exact H1|]. split; [rewrite H2; lia|].
  apply retry_loop_backoffs. lia.
Qed.

Lemma submission_stops_witness :
  attempts (snd (_execute_exchange_order SubmitMarket "d" 1 None
                   (init flaky_client "BTC/USDT"))) = 3%nat.
Proof.
  refine (proj1 (proj2 (submission_stops_at_first_success SubmitMarket "d" 1 None
                          (init flaky_client "BTC/USDT") flaky_call 2
                          (mkExchangeOrder (Some "m1"%string) (Some "open"%string)
                             None (Some 0%Q) (Some 0%Q) None) _ _ _ _))).
  - reflexivity.
  - cbn. lia.
  - intros [|[|n]] Hn; cbn; auto; lia.
  - reflexivity.
Defined.

Lemma closed_never_converts v st :
  OrderStatus_of_value v = Py.Return st -> (v =? "closed")%string = false.
Proof.
  intros H. apply OrderStatus_value_inverse in H. subst v. destruct st; reflexivity.
Qed.

(** X9.  [create_market_order] never records an order as completed and
    never counts a successful order, whatever the exchange answers: the
    branch for the status ['closed'] cannot be reached, because that
    status has already failed the conversion, and an order with any other
    status goes to the active set. *)
Theorem create_market_order_never_completes now did side_str qty info ex :
  let ex' := executor_after (fst (create_market_order now did side_str qty info ex)) ex in
  completed_orders ex' = completed_orders ex /\
  successful_orders ex' = successful_orders ex.
Proof.
  cbv zeta. unfold create_market_order.
  destruct (OrderSide_of_value _) as [sd|e]; [|cbn; auto].
  destruct (_execute_exchange_order _ _ _ _ _) as [[xo|] evs]; cbn; [|auto].
  destruct (getitem (xo_id xo)) as [oid|]; cbn; [|auto].
  destruct (getitem (xo_status xo)) as [st_str|]; cbn; [|auto].
  destruct (OrderStatus_of_value st_str) as [st|] eqn:E; cbn; [|auto].
  rewrite (closed_never_converts _ _ E). cbn. auto.
Qed.

Lemma keys_agree_insert ex oid o act :
  keys_agree ex -> order_id o = oid ->
  act = <[oid := o]> (active_orders ex) ->
  forall k x, act !! k = Some x -> order_id x = k.
Proof.
  intros Hk Ho -> k x. rewrite lookup_insert. case_decide.
  - intros [= <-]. congruence.
  - apply Hk.
Qed.

Lemma keys_agree_step op ex : keys_agree ex -> keys_agree (step op ex).
Proof.
  intros Hk. destruct op as [now did sd qty info|now did sd qty price info
                            |now oid resp|now oid resp]; cbn [step].
  - unfold create_market_order.
    destruct (OrderSide_of_value _) as [s0|e]; [|exact Hk].
    destruct (_execute_exchange_order _ _ _ _ _) as [[xo|] evs]; cbn; [|exact Hk].
    destruct (getitem (xo_id xo)) as [oid|]; cbn; [|exact Hk].
    destruct (getitem (xo_status xo)) as [st_str|]; cbn; [|exact Hk].
    destruct (OrderStatus_of_value st_str) as [st|] eqn:E; cbn; [|exact Hk].
    rewrite (closed_never_converts _ _ E). cbn.
    unfold keys_agree. cbn. eapply keys_agree_insert; [exact Hk| |reflexivity].
    reflexivity.
  - unfold create_limit_order.
    destruct (OrderSide_of_value _) as [s0|e]; [|exact Hk].
    destruct (_execute_exchange_order _ _ _ _ _) as [[xo|] evs]; cbn; [|exact Hk].
    destruct (getitem (xo_id xo)) as [oid|]; cbn; [|exact Hk].
    destruct (getitem (xo_status xo)) as [st_str|]; cbn; [|exact Hk].
    destruct (OrderStatus_of_value st_str) as [st|] eqn:E; cbn; [|exact Hk].
    unfold keys_agree. cbn. eapply keys_agree_insert; [exact Hk| |reflexivity].
    reflexivity.
  - unfold cancel_order.
    destruct (active_orders ex !! oid) as [o|]; [|exact Hk].
    destruct resp as [[|]|e]; cbn; try exact Hk.
    intros k x. cbn. rewrite lookup_delete. case_decide; [discriminate|apply Hk].
  - apply keys_agree_poll. exact Hk.
Qed.

(** X10.  In every state an executor can reach from its construction,
    each order of the active set is stored under its own id. *)
Theorem active_orders_keyed_by_id ops client sym :
  keys_agree (run ops (init client sym)).
Proof.
  assert (G : forall ex, keys_agree ex -> keys_agree (run ops ex)).
  { induction ops as [|op rest IH]; intros ex Hk; [exact Hk|].
    cbn [run]. apply IH, keys_agree_step, Hk. }
  apply G. intros k o H. cbn in H. rewrite lookup_empty in H. discriminate.
Qed.

(** X11.  [get_completed_orders(limit)] with a positive [limit] returns
    the last [limit] completed orders, or all of them when there are
    fewer; with [limit = 0] it returns all of them, not none. *)
Theorem get_completed_orders_is_suffix limit ex :
  0 <= limit ->
  exists earlier,
    completed_orders ex = earlier ++ get_completed_orders limit ex /\
    length (get_completed_orders limit ex) =
    if limit =? 0 then length (completed_orders ex)
    else Nat.min (Z.to_nat limit) (length (completed_orders ex)).
Proof.
  intros Hl. unfold get_completed_orders.
  destruct (limit =? 0) eqn:E0.
  - exists []. split; reflexivity.
  - apply Z.eqb_neq in E0.
    assert (Hp : (0 <? limit) = true) by (apply Z.ltb_lt; lia). rewrite Hp.
    exists (firstn (length (completed_orders ex) - Z.to_nat limit)
              (completed_orders ex)).
    split; [symmetry; apply firstn_skipn|].
    rewrite length_skipn. lia.
Qed.

Lemma get_completed_orders_witness :
  exists earlier,
    completed_orders (snd (cancel_order 5 "o1" (Py.Return true) tracking_executor))
    = earlier
      ++ get_completed_orders 1
           (snd (cancel_order 5 "o1" (Py.Return true) tracking_executor)) /\
    length (get_completed_orders 1
              (snd (cancel_order 5 "o1" (Py.Return true) tracking_executor)))
    = 1%nat.
Proof.
  apply (get_completed_orders_is_suffix 1
           (snd (cancel_order 5 "o1" (Py.Return true) tracking_executor))). lia.
Defined.



End OrderExecMoreFacts.

(** ** PositionManager: fills, sells and the trading predicates *)

Section PositionMoreFacts.

Import OrderExec PositionMgr.

Lemma touch_add_fee_position now o pm0 :
  position (touch now (add_fee o pm0)) =
  set_target_update (position pm0) (target_profit_price (position pm0)) now.
Proof.
  unfold touch, add_fee.
  destruct (fee o) as [d|]; [destruct (decide (d = ∅))|]; reflexivity.
Qed.

Lemma process_filled_order_pending now o pm :
  pending_orders (_process_filled_order now o pm) = pending_orders pm /\
  pm_completed_orders (_process_filled_order now o pm) = pm_completed_orders pm.
Proof.
  unfold _process_filled_order, touch, add_fee.
  destruct (side o).
  - destruct (fee o) as [d|]; [destruct (decide (d = ∅))|]; split; reflexivity.
  - cbn. destruct (Qleb _ dust);
      destruct (fee o) as [d|]; try destruct (decide (d = ∅)); split; reflexivity.
Qed.

(** X13.  A fill is never counted twice.  An update that retires a pending
    order (status FILLED, CANCELED or REJECTED) removes it from the pending
    orders, so a second update with the same order finds no such id and
    changes nothing: neither the position nor the order lists. *)
Theorem retiring_update_applies_once now now2 o pm :
  is_Some (pending_orders pm !! order_id o) ->
  retires (status o) = true ->
  let pm' := update_order_status now o pm in
  pending_orders pm' !! order_id o = None /\
  update_order_status now2 o pm' = pm'.
Proof.
  intros [old Hold] Hret. cbv zeta.
  assert (Hgone : pending_orders (update_order_status now o pm) !! order_id o = None).
  { unfold update_order_status. rewrite Hold.
    destruct (status o); try discriminate; cbn [set_pending pending_orders];
      apply lookup_delete_eq. }
  split; [exact Hgone|].
  unfold update_order_status at 1. rewrite Hgone. reflexivity.
Qed.

Lemma retiring_update_witness :
  update_order_status 1 (filled_buy "b1" 1 100)
    (run (buy_cycle "b1" 1 100) (init 0 1 1000 "BTC/USDT"))
  = run (buy_cycle "b1" 1 100) (init 0 1 1000 "BTC/USDT").
Proof.
  refine (proj2 (retiring_update_applies_once 0 1 (filled_buy "b1" 1 100)
                   (add_buy_order 0 (filled_buy "b1" 1 100)
                      (init 0 1 1000 "BTC/USDT")) _ _)).
  - vm_compute. eauto.
  - reflexivity.
Defined.

(** X14.  Only a fill moves the position: an update whose status is not
    FILLED leaves the position as it is, and unless the status is CANCELED
    or REJECTED the order stays pending, in its updated form; EXPIRED
    orders are never retired. *)
Theorem unfilled_update_keeps_position now o pm :
  status o <> FILLED ->
  position (update_order_status now o pm) = position pm /\
  (is_Some (pending_orders pm !! order_id o) -> retires (status o) = false ->
   pending_orders (update_order_status now o pm) !! order_id o = Some o).
Proof.
  intros Hst. unfold update_order_status.
  destruct (pending_orders pm !! order_id o) as [old|] eqn:Hold.
  - destruct (status o) eqn:E; try congruence;
      (split; [reflexivity|]); intros _ Hr; try discriminate;
      cbn [set_pending pending_orders]; apply lookup_insert_eq.
  - split; [reflexivity|]. intros [x Hx]. discriminate.
Qed.

Lemma unfilled_update_witness :
  let o := set_status (filled_buy "b1" 1 100) EXPIRED in
  position (update_order_status 1 o holding_three) = position holding_three.
Proof.
  refine (proj1 (unfilled_update_keeps_position 1
                   (set_status (filled_buy "b1" 1 100) EXPIRED) holding_three _)).
  discriminate.
Defined.

(** X15.  A filled sell that leaves at most the dust threshold closes the
    position: quantity, cost, average price, grid level and unrealized PnL
    are reset to zero, the status is EMPTY, one cycle is counted, and the
    realized PnL has grown by the sale value minus the cost basis of what
    was sold. *)
Theorem closing_sell_resets_position now o pm :
  is_Some (pending_orders pm !! order_id o) ->
  status o = FILLED -> side o = SELL ->
  (total_quantity (position pm) - filled_quantity o <= dust)%Q ->
  let pm' := update_order_status now o pm in
  let p' := position pm' in
  total_quantity p' = 0%Q /\ total_cost p' = 0%Q /\ pos_average_price p' = 0%Q /\
  grid_level p' = 0 /\ unrealized_pnl p' = 0%Q /\ pos_status p' = EMPTY /\
  total_cycles pm' = total_cycles pm + 1 /\
  realized_pnl p' =
  (realized_pnl (position pm)
   + (cost o - pos_average_price (position pm) * filled_quantity o))%Q.
Proof.
  intros [old Hold] Hst Hside Hdust. cbv zeta.
  unfold update_order_status. rewrite Hold, Hst.
  cbn [set_pending position total_cycles].
  unfold _process_filled_order. rewrite Hside.
  rewrite touch_add_fee_position.
  cbn [set_pending position set_position set_realized_pnl set_holdings
       total_quantity pos_average_price realized_pnl].
  apply Qleb_le in Hdust. rewrite Hdust.
  assert (Hc : forall pm0, total_cycles (touch now (add_fee o pm0)) = total_cycles pm0).
  { intros pm0. unfold touch, add_fee.
    destruct (fee o) as [d|]; [destruct (decide (d = ∅))|]; reflexivity. }
  rewrite Hc. cbn. repeat split; reflexivity.
Qed.

Lemma closing_sell_witness :
  total_quantity (position (run (sell_cycle "s1" 3 99) holding_three)) = 0%Q.
Proof.
  refine (proj1 (closing_sell_resets_position 0 (filled_sell "s1" 3 99)
                   (add_sell_order (filled_sell "s1" 3 99) holding_three)
                   _ _ _ _)).
  - vm_compute. eauto.
  - reflexivity.
  - reflexivity.
  - vm_compute. discriminate.
Defined.

Lemma filled_sell_position now o pm old :
  pending_orders pm !! order_id o = Some old ->
  status o = FILLED -> side o = SELL ->
  position (update_order_status now o pm) =
  let p := position pm in
  let p1 := set_realized_pnl p
              (realized_pnl p + (cost o - pos_average_price p * filled_quantity o))%Q in
  let qty := (total_quantity p - filled_quantity o)%Q in
  let p2 := set_holdings p1 qty (qty * pos_average_price p)%Q in
  let pm2 := set_position pm p2 in
  set_target_update
    (position (if Qleb qty dust then _close_position pm2 else pm2))
    (target_profit_price p) now.
Proof.
  intros Hold Hst Hside. unfold update_order_status. rewrite Hold, Hst.
  cbn [set_pending position]. unfold _process_filled_order. rewrite Hside.
  rewrite touch_add_fee_position. cbv zeta.
  cbn [set_pending position set_position set_realized_pnl set_holdings
       total_quantity pos_average_price realized_pnl].
  destruct (Qleb _ dust); reflexivity.
Qed.

(** X16.  A filled sell that leaves more than the dust threshold keeps the
    position open: the quantity shrinks by what was sold, the cost becomes
    quantity times average price, and the average price, the grid level,
    the status and the cycle counter stay as they were. *)
Theorem partial_sell_keeps_average now o pm :
  is_Some (pending_orders pm !! order_id o) ->
  status o = FILLED -> side o = SELL ->
  (dust < total_quantity (position pm) - filled_quantity o)%Q ->
  let p := position pm in
  let pm' := update_order_status now o pm in
  let p' := position pm' in
  total_quantity p' = (total_quantity p - filled_quantity o)%Q /\
  total_cost p' = (total_quantity p' * pos_average_price p)%Q /\
  pos_average_price p' = pos_average_price p /\
  grid_level p' = grid_level p /\
  pos_status p' = pos_status p /\
  total_cycles pm' = total_cycles pm.
Proof.
  intros [old Hold] Hst Hside Hrest. cbv zeta.
  rewrite (filled_sell_position now o pm old Hold Hst Hside). cbv zeta.
  apply Qleb_false_gt in Hrest. rewrite Hrest.
  repeat split; try reflexivity.
  unfold update_order_status. rewrite Hold, Hst.
  cbn [set_pending total_cycles]. unfold _process_filled_order. rewrite Hside.
  cbn [set_pending position set_position set_realized_pnl set_holdings
       total_quantity pos_average_price realized_pnl].
  rewrite Hrest. unfold touch, add_fee.
  destruct (fee o) as [d|]; [destruct (decide (d = ∅))|]; reflexivity.
Qed.

Lemma partial_sell_witness :
  pos_average_price
    (position (update_order_status 0 (filled_sell "s1" 1 99)
                 (add_sell_order (filled_sell "s1" 1 99) holding_three)))
  = pos_average_price
      (position (add_sell_order (filled_sell "s1" 1 99) holding_three)).
Proof.
  refine (proj1 (proj2 (proj2 (partial_sell_keeps_average 0 (filled_sell "s1" 1 99)
                   (add_sell_order (filled_sell "s1" 1 99) holding_three)
                   _ _ _ _)))).
  - vm_compute. eauto.
  - reflexivity.
  - reflexivity.
  - vm_compute. reflexivity.
Defined.

(** X17.  The profit of a sell is computed after the sell has been applied
    to the position, as [_update_orders] calls [update_order_status] before
    [calculate_cycle_profit].  For a sell that closes the position the
    average price has been reset to zero by then, so the reported cycle
    profit is the whole sale value, average sell price times filled
    quantity, not the gain over the purchase cost. *)
Theorem cycle_profit_after_closing_sell now o pm px :
  is_Some (pending_orders pm !! order_id o) ->
  status o = FILLED -> side o = SELL ->
  average_price o = Some px ->
  (total_quantity (position pm) - filled_quantity o <= dust)%Q ->
  exists profit,
    calculate_cycle_profit o (update_order_status now o pm) = Py.Return profit /\
    (profit == px * filled_quantity o)%Q.
Proof.
  intros [old Hold] Hst Hside Havg Hdust.
  unfold calculate_cycle_profit. rewrite Hside, Havg.
  eexists. split; [reflexivity|].
  rewrite (filled_sell_position now o pm old Hold Hst Hside). cbv zeta.
  apply Qleb_le in Hdust. rewrite Hdust. cbn. ring.
Qed.

Lemma cycle_profit_witness :
  exists profit,
    calculate_cycle_profit (filled_sell "s1" 3 99)
      (run (sell_cycle "s1" 3 99) holding_three) = Py.Return profit /\
    (profit == 99 * 3)%Q.
Proof.
  refine (cycle_profit_after_closing_sell 0 (filled_sell "s1" 3 99)
            (add_sell_order (filled_sell "s1" 3 99) holding_three) 99 _ _ _ _ _).
  - vm_compute. eauto.
  - reflexivity.
  - reflexivity.
  - reflexivity.
  - vm_compute. discriminate.
Defined.

Lemma touch_add_fee_cycles now o pm0 :
  total_cycles (touch now (add_fee o pm0)) = total_cycles pm0 /\
  successful_cycles (touch now (add_fee o pm0)) = successful_cycles pm0.
Proof.
  unfold touch, add_fee.
  destruct (fee o) as [d|]; [destruct (decide (d = ∅))|]; split; reflexivity.
Qed.

Lemma step_counters_ok op pm : counters_ok pm -> counters_ok (step op pm).
Proof.
  unfold counters_ok. intros Hinv.
  destruct op as [now o|o|now o|now price|now]; cbn [step].
  - unfold add_buy_order. destruct (negb _); [exact Hinv|].
    cbn. destruct (pos_status (position pm)); exact Hinv.
  - unfold add_sell_order. destruct (negb _); [exact Hinv|].
    cbn. destruct (Qleb _ _); exact Hinv.
  - unfold update_order_status.
    destruct (pending_orders pm !! order_id o); [|exact Hinv].
    destruct (status o); try exact Hinv.
    cbn [set_pending total_cycles successful_cycles].
    unfold _process_filled_order.
    match goal with
    | |- context [touch now (add_fee o ?x)] =>
        destruct (touch_add_fee_cycles now o x) as [-> ->]
    end.
    destruct (side o); [exact Hinv|].
    cbn. destruct (Qleb _ dust); cbn; [|exact Hinv].
    destruct (Qltb _ _); lia.
  - exact Hinv.
  - exact Hinv.
Qed.

(** X18.  Whatever calls a bot makes on its position manager, the number of
    successful cycles is never negative and never exceeds the number of
    cycles counted. *)
Theorem successful_cycles_within_total ops now bot cap sym :
  counters_ok (run ops (init now bot cap sym)).
Proof.
  assert (H : forall l pm, counters_ok pm -> counters_ok (run l pm)).
  { induction l as [|op l IH]; intros pm Hpm; [exact Hpm|].
    cbn [run]. apply IH, step_counters_ok, Hpm. }
  apply H. unfold counters_ok. cbn. lia.
Qed.

Lemma step_quantity_nonneg op pm :
  match op with
  | UpdateOrderStatus _ o => side o = BUY -> (0 <= filled_quantity o)%Q
  | _ => True
  end ->
  (0 <= total_quantity (position pm))%Q ->
  (0 <= total_quantity (position (step op pm)))%Q.
Proof.
  intros Hop Hinv.
  destruct op as [now o|o|now o|now price|now]; cbn [step].
  - unfold add_buy_order. destruct (negb _); [exact Hinv|].
    cbn. destruct (pos_status (position pm)); exact Hinv.
  - unfold add_sell_order. destruct (negb _); [exact Hinv|].
    cbn. destruct (Qleb _ _); exact Hinv.
  - unfold update_order_status.
    destruct (pending_orders pm !! order_id o); [|exact Hinv].
    destruct (status o); try exact Hinv.
    cbn [set_pending position]. unfold _process_filled_order.
    rewrite touch_add_fee_position.
    destruct (side o).
    + cbn. specialize (Hop eq_refl).
      rewrite <- (Qplus_0_r 0). apply Qplus_le_compat; assumption.
    + cbn.
      destruct (Qleb (total_quantity (position pm) - filled_quantity o) dust) eqn:Hd.
      * cbn. apply Qle_refl.
      * cbn. apply Qleb_false_gt in Hd. apply Qlt_le_weak.
        eapply Qlt_trans; [|exact Hd]. reflexivity.
  - exact Hinv.
  - cbn. apply Qle_refl.
Qed.

(** X19.  The held quantity never becomes negative, whatever is sold: when
    every filled buy reports a quantity that is not negative, the quantity
    of the position is not negative after any sequence of calls, since a
    sell that would take it to the dust threshold or below, or below zero,
    resets it to zero. *)
Theorem quantity_never_negative ops now bot cap sym :
  buys_nonnegative ops ->
  (0 <= total_quantity (position (run ops (init now bot cap sym))))%Q.
Proof.
  assert (H : forall l pm, buys_nonnegative l ->
                (0 <= total_quantity (position pm))%Q ->
                (0 <= total_quantity (position (run l pm)))%Q).
  { induction l as [|op l IH]; intros pm Hl Hpm; [exact Hpm|].
    inversion Hl; subst. cbn [run]. apply IH; [assumption|].
    apply step_quantity_nonneg; assumption. }
  intros Hops. apply H; [exact Hops|]. cbn. apply Qle_refl.
Qed.

Lemma quantity_never_negative_witness :
  (0 <= total_quantity (position
          (run (two_buys ++ sell_cycle "s1" 5 99) (init 0 1 1000 "BTC/USDT"))))%Q.
Proof.
  apply (quantity_never_negative (two_buys ++ sell_cycle "s1" 5 99)).
  repeat constructor; intros _; vm_compute; discriminate.
Defined.

Lemma pct_threshold a p t :
  (0 < a)%Q ->
  (t <= (p - a) / a * 100)%Q <-> (a * (1 + t / 100) <= p)%Q.
Proof.
  intros Ha.
  assert (Hne : ~ (a == 0)%Q).
  { intros Hz. rewrite Hz in Ha. exact (Qlt_irrefl _ Ha). }
  assert (Hk : (0 < 100 / a)%Q).
  { apply Qlt_shift_div_l; [exact Ha|]. rewrite Qmult_0_l. reflexivity. }
  assert (E : ((p - a) / a * 100 == t + (p - a * (1 + t / 100)) * (100 / a))%Q)
    by (field; exact Hne).
  assert (E2 : (p - a * (1 + t / 100) == ((p - a) / a * 100 - t) * (a / 100))%Q)
    by (field; exact Hne).
  assert (Hk2 : (0 < a / 100)%Q).
  { apply Qlt_shift_div_l; [reflexivity|]. rewrite Qmult_0_l. exact Ha. }
  split; intros H.
  - assert (H0 : (0 <= p - a * (1 + t / 100))%Q).
    { rewrite E2. apply Qmult_le_0_compat; [lra|lra]. }
    lra.
  - rewrite E.
    assert (H0 : (0 <= (p - a * (1 + t / 100)) * (100 / a))%Q).
    { apply Qmult_le_0_compat; [lra|lra]. }
    lra.
Qed.

Lemma pct_threshold_below a p t :
  (0 < a)%Q ->
  ((p - a) / a * 100 <= t)%Q <-> (p <= a * (1 + t / 100))%Q.
Proof.
  intros Ha.
  assert (Hne : ~ (a == 0)%Q).
  { intros Hz. rewrite Hz in Ha. exact (Qlt_irrefl _ Ha). }
  assert (Hk : (0 < 100 / a)%Q).
  { apply Qlt_shift_div_l; [exact Ha|]. rewrite Qmult_0_l. reflexivity. }
  assert (E : ((p - a) / a * 100 == t - (a * (1 + t / 100) - p) * (100 / a))%Q)
    by (field; exact Hne).
  assert (E2 : (a * (1 + t / 100) - p == (t - (p - a) / a * 100) * (a / 100))%Q)
    by (field; exact Hne).
  assert (Hk2 : (0 < a / 100)%Q).
  { apply Qlt_shift_div_l; [reflexivity|]. rewrite Qmult_0_l. exact Ha. }
  split; intros H.
  - assert (H0 : (0 <= a * (1 + t / 100) - p)%Q).
    { rewrite E2. apply Qmult_le_0_compat; [lra|lra]. }
    lra.
  - rewrite E.
    assert (H0 : (0 <= (a * (1 + t / 100) - p) * (100 / a))%Q).
    { apply Qmult_le_0_compat; [lra|lra]. }
    lra.
Qed.

(** X20.  With exact decimal arithmetic, the two exit predicates are
    price thresholds on the average price.  [should_take_profit] holds
    exactly when a position with a positive average price is quoted at or
    above average times (1 + threshold/100); [should_stop_loss] holds
    exactly when it is quoted at or below average times
    (1 + threshold/100).  Without a positive average price both are
    false.  (The code rounds the profit rate to 28 significant digits,
    which can move a price within rounding distance of the threshold.) *)
Theorem exit_predicates_are_price_thresholds price thr pm :
  let avg := pos_average_price (position pm) in
  (should_take_profit price thr pm = true <->
   (0 < avg)%Q /\ (avg * (1 + thr / 100) <= price)%Q) /\
  (should_stop_loss price thr pm = true <->
   (0 < avg)%Q /\ (price <= avg * (1 + thr / 100))%Q).
Proof.
  cbv zeta. unfold should_take_profit, should_stop_loss, get_profit_percentage.
  destruct (Qleb (pos_average_price (position pm)) 0) eqn:Hz.
  - apply Qleb_le in Hz.
    split; (split; [discriminate|]); intros [Hpos _]; exfalso;
      exact (Qlt_irrefl _ (Qlt_le_trans _ _ _ Hpos Hz)).
  - apply Qleb_false_gt in Hz.
    pose proof (proj2 (Qltb_lt _ _) Hz) as Hlt. rewrite Hlt.
    rewrite !Qleb_le.
    rewrite (pct_threshold _ price thr Hz), (pct_threshold_below _ price thr Hz).
    tauto.
Qed.

Lemma quantize_down4_bounds q :
  (0 <= q)%Q ->
  (0 <= quantize_down4 q)%Q /\ (quantize_down4 q <= q)%Q /\
  (q < quantize_down4 q + (1 # 10000))%Q.
Proof.
  intros Hq. unfold quantize_down4.
  assert (Hn : 0 <= Qnum q * 10000).
  { unfold Qle in Hq. cbn in Hq. lia. }
  rewrite Z.quot_div_nonneg by lia.
  set (t := Qnum q * 10000 / Z.pos (Qden q)).
  assert (Ht : 0 <= t) by (apply Z.div_pos; lia).
  assert (Hle : Z.pos (Qden q) * t <= Qnum q * 10000)
    by (apply Z.mul_div_le; lia).
  assert (Hgt : Qnum q * 10000 < Z.pos (Qden q) * Z.succ t)
    by (apply Z.mul_succ_div_gt; lia).
  split; [|split].
  - unfold Qle. cbn. lia.
  - unfold Qle. cbn. lia.
  - assert (E : ((t # 10000) + (1 # 10000) == (t + 1) # 10000)%Q).
    { unfold Qeq. cbn. lia. }
    rewrite E. unfold Qlt. cbn. lia.
Qed.

(** X21.  With exact decimal arithmetic, the quantity that
    [calculate_position_size] returns for a positive price and an amount
    that is not negative never costs more than the amount, is not negative,
    and falls short of amount/price by less than 0.0001. *)
Theorem position_size_within_budget usdt_amount price :
  (0 < price)%Q -> (0 <= usdt_amount)%Q ->
  let size := calculate_position_size usdt_amount price in
  (0 <= size)%Q /\ (size * price <= usdt_amount)%Q /\
  (usdt_amount / price < size + (1 # 10000))%Q.
Proof.
  intros Hp Ha. cbv zeta. unfold calculate_position_size.
  apply Qleb_false_gt in Hp as Hp'. rewrite Hp'.
  assert (Hq : (0 <= usdt_amount / price)%Q).
  { apply Qle_shift_div_l; [exact Hp|]. rewrite Qmult_0_l. exact Ha. }
  destruct (quantize_down4_bounds _ Hq) as (H0 & Hle & Hlt).
  split; [exact H0|]. split; [|exact Hlt].
  assert (E : (usdt_amount == usdt_amount / price * price)%Q).
  { field. intros Hz. rewrite Hz in Hp. exact (Qlt_irrefl _ Hp). }
  rewrite E at 2. apply Qmult_le_compat_r; [exact Hle|].
  apply Qlt_le_weak, Hp.
Qed.

Lemma position_size_witness :
  (calculate_position_size 100 3 * 3 <= 100)%Q.
Proof.
  refine (proj1 (proj2 (position_size_within_budget 100 3 _ _))).
  - reflexivity.
  - discriminate.
Defined.

(** X22.  With exact decimal arithmetic, the amount of the next grid buy
    grows geometrically and without bound: for a multiplier other than
    zero, each filled buy multiplies [get_next_grid_amount] by the
    multiplier, also beyond [max_grid_level].  (In the code the power is
    rounded to 28 significant digits.) *)
Theorem next_grid_amount_scales now o pm base_amount multiplier :
  is_Some (pending_orders pm !! order_id o) ->
  status o = FILLED -> side o = BUY ->
  0 <= grid_level (position pm) ->
  ~ (multiplier == 0)%Q ->
  exists before after,
    get_next_grid_amount base_amount multiplier pm = Some before /\
    get_next_grid_amount base_amount multiplier (update_order_status now o pm)
    = Some after /\
    (after == multiplier * before)%Q.
Proof.
  intros [old Hold] Hst Hside Hlvl Hm.
  assert (Hz : Qeqb multiplier 0 = false).
  { destruct (Qeqb multiplier 0) eqn:E; [|reflexivity].
    exfalso. apply Hm. apply Qeq_bool_iff. exact E. }
  unfold get_next_grid_amount, decimal_pow, update_order_status.
  rewrite Hold, Hst, Hz.
  cbn [set_pending position andb]. unfold _process_filled_order. rewrite Hside.
  rewrite touch_add_fee_position.
  cbn [set_status_opened set_grid_level update_average_price set_holdings
       set_target_update set_position position grid_level].
  cbn [set_pending position].
  replace (grid_level (position pm) + 1 + 1 - 1)
    with (grid_level (position pm) + 1) by lia.
  replace (grid_level (position pm) + 1 - 1) with (grid_level (position pm)) by lia.
  do 2 eexists. split; [reflexivity|]. split; [reflexivity|].
  rewrite Qpower_plus' by lia. cbn. ring.
Qed.

Lemma next_grid_amount_witness :
  exists before after,
    get_next_grid_amount 10 2
      (add_buy_order 0 (filled_buy "b3" 1 90) holding_three) = Some before /\
    get_next_grid_amount 10 2
      (update_order_status 0 (filled_buy "b3" 1 90)
         (add_buy_order 0 (filled_buy "b3" 1 90) holding_three)) = Some after /\
    (after == 2 * before)%Q.
Proof.
  refine (next_grid_amount_scales 0 (filled_buy "b3" 1 90)
            (add_buy_order 0 (filled_buy "b3" 1 90) holding_three) 10 2 _ _ _ _ _).
  - vm_compute. eauto.
  - reflexivity.
  - reflexivity.
  - vm_compute. discriminate.
  - vm_compute. discriminate.
Defined.

Lemma step_target_sticky op pm t :
  target_profit_price (position pm) = Some t ->
  Qeqb t 0 = false ->
  is_clear op = false ->
  target_profit_price (position (step op pm)) = Some t.
Proof.
  intros Ht Hnz Hop.
  destruct op as [now o|o|now o|now price|now]; cbn [step]; try discriminate.
  - unfold add_buy_order. destruct (negb _); [exact Ht|].
    cbn. destruct (pos_status (position pm)); exact Ht.
  - unfold add_sell_order. destruct (negb _); [exact Ht|].
    cbn. destruct (Qleb _ _); exact Ht.
  - unfold update_order_status.
    destruct (pending_orders pm !! order_id o); [|exact Ht].
    destruct (status o); try exact Ht.
    cbn [set_pending position]. unfold _process_filled_order.
    rewrite touch_add_fee_position.
    destruct (side o); cbn; [exact Ht|].
    destruct (Qleb _ dust); exact Ht.
  - unfold update_position. cbn. rewrite Ht, Hnz. cbn.
    rewrite andb_false_r. reflexivity.
Qed.

(** X23.  The take-profit target is written once and then kept: when the
    position carries a target price other than zero, no call except
    [clear_position] changes it, neither a price update nor a sell that
    closes the position nor the buys of the next cycle, so a later cycle
    runs with the target of an earlier average price. *)
Theorem target_price_is_sticky ops pm t :
  target_profit_price (position pm) = Some t ->
  ~ (t == 0)%Q ->
  Forall (fun op => is_clear op = false) ops ->
  target_profit_price (position (run ops pm)) = Some t.
Proof.
  intros Ht Hnz Hops.
  assert (Hz : Qeqb t 0 = false).
  { destruct (Qeqb t 0) eqn:E; [|reflexivity].
    exfalso. apply Hnz. apply Qeq_bool_iff. exact E. }
  revert pm Ht. induction Hops as [|op l Hop Hl IH]; intros pm Ht; [exact Ht|].
  cbn [run]. apply IH. apply step_target_sticky; assumption.
Qed.

Lemma target_price_witness :
  exists t,
    target_profit_price (position (update_position 0 98 holding_three)) = Some t /\
    target_profit_price
      (position (run next_cycle (update_position 0 98 holding_three))) = Some t.
Proof.
  eexists. split; [vm_compute; reflexivity|].
  apply (target_price_is_sticky next_cycle (update_position 0 98 holding_three)).
  - vm_compute. reflexivity.
  - vm_compute. discriminate.
  - repeat constructor.
Defined.

End PositionMoreFacts.

(** ** StrategyExecutor: the grid schedule and the signals *)

Section StrategyFacts.

Import PositionMgr Strategy.

Lemma Qeqb_false a b : ~ (a == b)%Q -> Qeqb a b = false.
Proof.
  intros H. destruct (Qeqb a b) eqn:E; [|reflexivity].
  exfalso. apply H. apply Qeq_bool_iff. exact E.
Qed.

Lemma grid_amounts_from_nth base m count : forall level l k a,
  grid_amounts_from base m level count = Some l ->
  nth_error l k = Some a ->
  a = (base * m ^ (level + Z.of_nat k))%Q.
Proof.
  induction count as [|count IH]; intros level l k a Hl Hk; cbn in Hl.
  - injection Hl as <-. destruct k; discriminate.
  - unfold decimal_pow in Hl.
    destruct (Qeqb m 0 && (level <=? 0)); [discriminate|]. cbn in Hl.
    destruct (grid_amounts_from base m (level + 1) count) as [tail|] eqn:Ht;
      [|discriminate].
    cbn in Hl. injection Hl as <-. destruct k as [|k].
    + cbn in Hk. injection Hk as <-. rewrite Z.add_0_r. reflexivity.
    + cbn [nth_error] in Hk. rewrite (IH _ _ _ _ Ht Hk).
      replace (level + 1 + Z.of_nat k) with (level + Z.of_nat (S k)) by lia.
      reflexivity.
Qed.

Lemma grid_amounts_from_length base m count : forall level l,
  grid_amounts_from base m level count = Some l -> length l = count.
Proof.
  induction count as [|count IH]; intros level l Hl; cbn in Hl.
  - injection Hl as <-. reflexivity.
  - destruct (decimal_pow m level); [|discriminate]. cbn in Hl.
    destruct (grid_amounts_from base m (level + 1) count) as [tail|] eqn:Ht;
      [|discriminate].
    cbn in Hl. injection Hl as <-. cbn. f_equal. eapply IH, Ht.
Qed.

Lemma grid_amounts_from_sum base m : ~ (m == 0)%Q -> forall count level,
  exists l, grid_amounts_from base m level count = Some l /\
    (sum l * (m - 1) == base * (m ^ (level + Z.of_nat count) - m ^ level))%Q.
Proof.
  intros Hm. pose proof (Qeqb_false _ _ Hm) as Hz.
  induction count as [|count IH]; intros level.
  - exists []. split; [reflexivity|]. cbn [sum]. rewrite Z.add_0_r. ring.
  - destruct (IH (level + 1)) as (tail & Ht & Hsum).
    exists ((base * m ^ level)%Q :: tail). split.
    + cbn. unfold decimal_pow. rewrite Hz. cbn. rewrite Ht. reflexivity.
    + cbn [sum].
      replace (level + Z.of_nat (S count)) with (level + 1 + Z.of_nat count) by lia.
      assert (E : ((base * m ^ level + sum tail) * (m - 1)
                   == base * m ^ level * (m - 1) + sum tail * (m - 1))%Q) by ring.
      rewrite E, Hsum. rewrite (Qpower_plus m level 1 Hm).
      change (m ^ 1)%Q with m. ring.
Qed.

(** X24.  The grid schedule is geometric.  For a multiplier other than
    zero [_calculate_grid_amounts] returns [grid_levels] amounts (none for
    a count that is not positive) and the amount of index [k] is
    [base_amount * multiplier ** k]; with exact decimal arithmetic the
    amounts add up to
    base_amount * (multiplier ** grid_levels - 1) / (multiplier - 1), which
    is the capital a full grid needs.  (In the code each power is rounded
    to 28 significant digits.) *)
Theorem grid_amounts_are_geometric ex :
  ~ (multiplier ex == 0)%Q ->
  exists amounts,
    _calculate_grid_amounts ex = Some amounts /\
    length amounts = Z.to_nat (grid_levels ex) /\
    (forall k a, nth_error amounts k = Some a ->
                 a = (base_amount ex * multiplier ex ^ Z.of_nat k)%Q) /\
    (sum amounts * (multiplier ex - 1)
     == base_amount ex * (multiplier ex ^ Z.max 0 (grid_levels ex) - 1))%Q.
Proof.
  intros Hm. unfold _calculate_grid_amounts.
  destruct (grid_amounts_from_sum (base_amount ex) _ Hm
              (Z.to_nat (grid_levels ex)) 0) as (l & Hl & Hsum).
  exists l. split; [exact Hl|]. split; [|split].
  - eapply grid_amounts_from_length, Hl.
  - intros k a Hk. rewrite (grid_amounts_from_nth _ _ _ _ _ _ _ Hl Hk).
    reflexivity.
  - rewrite Hsum. rewrite Z.add_0_l.
    replace (Z.of_nat (Z.to_nat (grid_levels ex))) with (Z.max 0 (grid_levels ex))
      by lia.
    change (multiplier ex ^ 0)%Q with 1%Q. reflexivity.
Qed.

Lemma grid_amounts_witness :
  exists amounts,
    _calculate_grid_amounts (__init__ "dantaro" test_settings) = Some amounts /\
    (sum amounts * (2 - 1) == 10 * (2 ^ 7 - 1))%Q.
Proof.
  destruct (grid_amounts_are_geometric (__init__ "dantaro" test_settings))
    as (amounts & Ha & _ & _ & Hsum).
  - vm_compute. discriminate.
  - exists amounts. split; [exact Ha|exact Hsum].
Defined.

Lemma initialize_dantaro st ex :
  initialize (__init__ "dantaro" st) = Some ex ->
  strategy_name ex = "dantaro"%string /\
  grid_levels ex = grid_levels (__init__ "dantaro" st) /\
  base_amount ex = base_amount (__init__ "dantaro" st) /\
  multiplier ex = multiplier (__init__ "dantaro" st) /\
  exists amounts,
    grid_amounts ex = Some amounts /\
    grid_amounts_from (base_amount ex) (multiplier ex) 0
      (Z.to_nat (grid_levels ex)) = Some amounts.
Proof.
  unfold initialize. cbn [__init__ strategy_name String.eqb].
  change (String.eqb "dantaro" "dantaro") with true. cbv iota.
  unfold _initialize_dantaro. cbn [settings __init__].
  destruct (s_capital st); [|discriminate].
  destruct (s_profit_target st); [|discriminate].
  destruct (s_grid_levels st); [|discriminate].
  destruct (_calculate_grid_amounts _) as [amounts|] eqn:Ha; [|discriminate].
  cbn. intros H. injection H as <-. cbn.
  repeat split. exists amounts. split; [reflexivity|exact Ha].
Qed.

Lemma decimal_div_value a b q :
  decimal_div a b = Some q -> q = (a / b)%Q /\ ~ (b == 0)%Q.
Proof.
  unfold decimal_div. destruct (Qeqb b 0) eqn:E; [discriminate|].
  intros H. injection H as <-. split; [reflexivity|]. intros Hz.
  apply Qeq_bool_iff in Hz. unfold Qeqb in E. congruence.
Qed.

(** X25.  A BUY signal of an initialised dantaro executor stays within the
    grid.  For a position at grid level [g >= 0] it is a market order at
    the current price for level [g + 1], that level is at most
    [grid_levels], the current price is not zero, and the quantity is the
    grid amount of the level divided by the current price, in the code's
    own expression [base_amount * multiplier ** g / current_price];
    beyond the last level no BUY is signalled. *)
Theorem buy_signal_stays_within_grid st ex current_price position g :
  initialize (__init__ "dantaro" st) = Some ex ->
  pd_grid_level position = Some g -> 0 <= g ->
  action (get_signal ex current_price position) = BUY ->
  let signal := get_signal ex current_price position in
  order_type signal = MARKET /\
  price signal = Some current_price /\
  sig_grid_level signal = Some (g + 1) /\
  g + 1 <= grid_levels ex /\
  ~ (current_price == 0)%Q /\
  quantity signal
  = Some (NDecimal (base_amount ex * multiplier ex ^ g / current_price)%Q).
Proof.
  intros Hinit Hg Hg0. cbv zeta.
  destruct (initialize_dantaro st ex Hinit)
    as (Hname & _ & _ & _ & amounts & Hamounts & Hfrom).
  pose proof (grid_amounts_from_length _ _ _ _ _ Hfrom) as Hlen.
  unfold get_signal. rewrite Hname.
  change (String.eqb "dantaro" "dantaro") with true. cbv iota.
  unfold _execute_dantaro_strategy. rewrite Hg. cbn [get_default].
  destruct (g =? 0) eqn:Hz.
  - apply Z.eqb_eq in Hz. subst g.
    unfold _dantaro_initial_buy. rewrite Hamounts. cbn [bind].
    unfold py_index. cbn [Z.leb Z.compare Z.to_nat].
    change (0 <=? 0) with true. cbv iota. change (Z.to_nat 0) with 0%nat.
    destruct (nth_error amounts 0) as [a|] eqn:Ha; [|discriminate].
    cbn [bind].
    destruct (decimal_div a current_price) as [q|] eqn:Hq; [|discriminate].
    cbn. intros _.
    assert (Hk : (0 < length amounts)%nat)
      by (apply nth_error_Some; congruence).
    destruct (decimal_div_value _ _ _ Hq) as [-> Hne].
    rewrite (grid_amounts_from_nth _ _ _ _ _ _ _ Hfrom Ha).
    repeat split; try lia. exact Hne.
  - apply Z.eqb_neq in Hz.
    destruct (_should_take_profit ex current_price _) as [[|]|]; cbn [bind];
      try discriminate.
    { unfold _dantaro_sell_signal.
      destruct (rate_over _ _); cbn; discriminate. }
    destruct (_should_add_position ex current_price position) as [[|]|];
      cbn [bind]; try discriminate.
    + unfold _dantaro_add_buy_signal.
      destruct (grid_levels ex <? g + 1) eqn:Hmax; [cbn; discriminate|].
      apply Z.ltb_ge in Hmax.
      rewrite Hamounts. cbn [bind]. unfold py_index.
      replace (g + 1 - 1) with g by lia.
      destruct (0 <=? g) eqn:Hpos; [|apply Z.leb_gt in Hpos; lia].
      destruct (nth_error amounts (Z.to_nat g)) as [a|] eqn:Ha; [|discriminate].
      cbn [bind].
      destruct (decimal_div a current_price) as [q|] eqn:Hq; [|discriminate].
      cbn. intros _.
      destruct (decimal_div_value _ _ _ Hq) as [-> Hne].
      rewrite (grid_amounts_from_nth _ _ _ _ _ _ _ Hfrom Ha).
      rewrite Z.add_0_l, Z2Nat.id by lia.
      repeat split; try lia. exact Hne.
    + destruct (_should_stop_loss ex current_price position) as [[|]|];
        cbn; discriminate.
Qed.

Lemma buy_signal_witness :
  sig_grid_level
    (get_signal (set_grid_amounts (__init__ "dantaro" test_settings)
                   [10; 20; 40; 80; 160; 320; 640]%Q)
       49000 (decimal_position 1 50000 50000 (2 # 10000)))
  = Some (1 + 1).
Proof.
  refine (proj1 (proj2 (proj2
    (buy_signal_stays_within_grid test_settings _ 49000
       (decimal_position 1 50000 50000 (2 # 10000)) 1 _ _ _ _)))).
  - vm_compute. reflexivity.
  - reflexivity.
  - lia.
  - vm_compute. reflexivity.
Defined.

(** X26.  With the position dict that the runner passes, the one of
    [get_current_position], the strategy never signals a SELL, and for a
    position whose grid level is not zero it signals HOLD at every price.
    The dict holds the average price as a [float] and has no
    ['last_buy_price']: a positive average makes the profit rate
    [Decimal - float] raise, which [get_signal] turns into a HOLD, and
    otherwise none of the three conditions holds. *)
Theorem runner_position_never_sells ex current_price to_float pm :
  let signal := get_signal ex current_price (get_current_position to_float pm) in
  action signal <> SELL /\
  (grid_level (position pm) <> 0 -> action signal = HOLD).
Proof.
  cbv zeta. unfold get_signal.
  destruct (String.eqb (strategy_name ex) "dantaro").
  - unfold _execute_dantaro_strategy.
    cbn [get_current_position pd_grid_level pd_average_price pd_total_quantity
         get_default].
    destruct (grid_level (position pm) =? 0) eqn:Hz.
    + apply Z.eqb_eq in Hz. split; [|congruence].
      unfold _dantaro_initial_buy.
      destruct (grid_amounts ex) as [amounts|]; cbn [bind]; [|discriminate].
      destruct (py_index amounts 0); cbn [bind]; [|discriminate].
      destruct (decimal_div _ _); cbn; discriminate.
    + assert (Hhold : forall s : option StrategySignal,
                s = None \/ s = Some (hold Waiting) ->
                action match s with Some sg => sg | None => hold ErrorOccurred end
                = HOLD).
      { intros s [->| ->]; reflexivity. }
      match goal with
      | |- ?A <> SELL /\ _ => assert (H : A = HOLD)
      end.
      { apply Hhold.
        unfold _should_take_profit, _should_stop_loss, _should_add_position,
          rate_over, decimal_minus.
        cbn [get_current_position pd_last_buy_price pd_average_price
             pd_grid_level get_default num_value bind].
        destruct (le_zero (NFloat _)); [|left; reflexivity].
        cbn [bind]. change (le_zero (NInt 0)) with true. cbn [orb bind].
        right. reflexivity. }
      rewrite H. split; [discriminate|reflexivity].
  - destruct (String.eqb (strategy_name ex) "scalping");
      [|destruct (String.eqb (strategy_name ex) "grid")];
      (split; [discriminate|reflexivity]).
Qed.

(** With decimal values in the dict the same executor does signal a SELL. *)
Lemma decimal_position_sells :
  action (get_signal (set_grid_amounts (__init__ "dantaro" test_settings)
                        [10; 20; 40; 80; 160; 320; 640]%Q)
            50500 (decimal_position 2 49500 49000 (6 # 10000)))
  = SELL.
Proof. vm_compute. reflexivity. Qed.

End StrategyFacts.

(** ** BotRunner: counters and the emergency stop *)

Section RunnerMoreFacts.

Import Runner.

Lemma apply_controls_tick_count cs : forall r,
  tick_count (apply_controls cs r) = tick_count r.
Proof.
  induction cs as [|c cs IH]; intros r; [reflexivity|].
  rewrite apply_controls_cons, IH. destruct c; reflexivity.
Qed.

Lemma trade_steps_tick_count env r :
  tick_count (fst (trade_steps env r)) = tick_count r.
Proof.
  unfold trade_steps.
  assert (F : forall l r0, tick_count (fold_left record_profit l r0) = tick_count r0).
  { induction l as [|x l IHl]; intros r0; [reflexivity|]. cbn. now rewrite IHl. }
  destruct (te_signal env); [destruct (te_order_placed env)..| |]; cbn; auto.
Qed.

Lemma tick_body_tick_count env r :
  match tick_body env r with
  | Finished r1 _ _ | Raised r1 _ | Cancelled r1 => tick_count r1 = tick_count r + 1
  end.
Proof.
  unfold tick_body.
  destruct (te_cancelled env); [reflexivity|].
  cbn [_paused _graceful_stop_requested set_progress].
  destruct (_paused r); [reflexivity|].
  destruct (_graceful_stop_requested r && negb (te_has_position env));
    [reflexivity|].
  destruct (te_market_data env) as [[price|e]|]; [|reflexivity..].
  destruct (te_position env) as [u|e]; [|reflexivity].
  destruct (Risk.should_stop (te_risk env)); [reflexivity|].
  destruct (Risk.should_pause (te_risk env)); [reflexivity|].
  match goal with
  | |- context [trade_steps env ?x] =>
      pose proof (trade_steps_tick_count env x) as T;
      destruct (trade_steps env x) as [r3 evs]
  end.
  cbn [fst] in T. rewrite T. reflexivity.
Qed.

Lemma loop_iteration_accounting env r :
  let '(r1, tr, _) := loop_iteration env r in
  error_count r1 = error_count r + Z.of_nat (count is_tick_error tr) /\
  tick_count r1 = tick_count r + 1.
Proof.
  unfold loop_iteration.
  pose proof (tick_body_cases env r) as H.
  pose proof (tick_body_tick_count env r) as T.
  destruct (tick_body env r) as [r1 tr ctl|r1 tr|r1].
  - destruct H as (He & Ht & _). rewrite Ht. split; [lia|exact T].
  - destruct H as (He & Ht & _).
    cbn [error_count set_progress].
    destruct (5 <=? error_count r1 + 1).
    + unfold _emergency_stop. cbv beta iota zeta.
      destruct (close_all_counts ReasonConsecutiveErrors env) as (C1 & _).
      change (EvTickError :: EvEmergencyStop ?x :: ?l)
        with ([EvTickError; EvEmergencyStop x] ++ l).
      rewrite !count_app, Ht, C1. cbn. split; [lia|exact T].
    + rewrite !count_app, Ht. cbn. split; [lia|exact T].
  - split; [cbn; lia|exact T].
Qed.

(** X27.  The two counters of the main loop only ever count up:
    [tick_count] grows by one for every iteration entered, also a paused or
    failed one, and [error_count] grows by one for every iteration that
    ends in the generic exception handler.  A successful iteration does not
    reset [error_count], so the stop after five errors counts all errors of
    the run, consecutive or not. *)
Theorem loop_counters_only_count_up envs : forall r,
  let res := _main_trading_loop envs r in
  error_count (lr_runner res)
  = error_count r + Z.of_nat (count is_tick_error (lr_trace res)) /\
  tick_count (lr_runner res) = tick_count r + Z.of_nat (lr_iterations res).
Proof.
  induction envs as [|env rest IH]; intros r; cbv zeta.
  - cbn. split; lia.
  - cbn [_main_trading_loop].
    pose proof (apply_controls_error_count (te_controls env) r) as E0.
    pose proof (apply_controls_tick_count (te_controls env) r) as T0.
    destruct (_stop_requested (apply_controls (te_controls env) r)).
    + cbn. split; lia.
    + pose proof (loop_iteration_accounting env
                    (apply_controls (te_controls env) r)) as H.
      destruct (loop_iteration env (apply_controls (te_controls env) r))
        as [[r1 tr] ctl].
      destruct H as [He Ht]. destruct ctl.
      * specialize (IH r1). cbv zeta in IH. destruct IH as [IHe IHt].
        cbn [lr_runner lr_trace lr_iterations].
        rewrite count_app. split; lia.
      * cbn [lr_runner lr_trace lr_iterations]. split; lia.
Qed.

Lemma loop_iteration_emergency env r :
  let '(r1, tr, ctl) := loop_iteration env r in
  count is_emergency_stop tr = 0%nat \/
  (ctl = Break /\ state r1 = ERROR /\ _stop_requested r1 = true /\
   exists tr0 reason,
     tr = tr0 ++ EvEmergencyStop reason :: _close_all_positions reason env /\
     count is_emergency_stop tr0 = 0%nat).
Proof.
  unfold loop_iteration.
  pose proof (tick_body_cases env r) as H.
  destruct (tick_body env r) as [r1 tr ctl|r1 tr|r1] eqn:Hb.
  - destruct ctl; [left; apply H; reflexivity|].
    unfold tick_body in Hb.
    destruct (te_cancelled env); [discriminate|].
    cbn [_paused _graceful_stop_requested set_progress] in Hb.
    destruct (_paused r); [discriminate|].
    destruct (_graceful_stop_requested r && negb (te_has_position env)).
    { injection Hb as <- <-. left. reflexivity. }
    destruct (te_market_data env) as [[price|e]|]; [|discriminate..].
    destruct (te_position env) as [u|e]; [|discriminate].
    destruct (Risk.should_stop (te_risk env)).
    + unfold _emergency_stop in Hb. cbv beta iota zeta in Hb.
      injection Hb as <- <-. right.
      split; [reflexivity|]. split; [reflexivity|]. split; [reflexivity|].
      exists [EvGetMarketData; EvCheckRisk],
             (ReasonRisk (Risk.reason (te_risk env))).
      split; reflexivity.
    + destruct (Risk.should_pause (te_risk env)); [discriminate|].
      destruct (trade_steps env _); discriminate.
  - destruct H as (He & Ht & Hs).
    cbn [error_count set_progress].
    destruct (5 <=? error_count r1 + 1).
    + right. cbn.
      split; [reflexivity|]. split; [reflexivity|]. split; [reflexivity|].
      exists (tr ++ [EvTickError]), ReasonConsecutiveErrors.
      split; [rewrite <- app_assoc; reflexivity|].
      rewrite count_app, Hs. reflexivity.
    + left. rewrite count_app, Hs. reflexivity.
  - left. reflexivity.
Qed.

(** X28.  An emergency stop is the last thing a run of the main loop does.
    In every run there is at most one, whether it comes from the risk check
    or from the fifth error; when there is one, the loop has been left
    with the runner in state ERROR and its stop flag set, and the only
    events after it are those of closing the positions. *)
Theorem emergency_stop_is_final envs : forall r,
  let res := _main_trading_loop envs r in
  count is_emergency_stop (lr_trace res) = 0%nat \/
  (count is_emergency_stop (lr_trace res) = 1%nat /\
   lr_exited res = true /\
   state (lr_runner res) = ERROR /\
   _stop_requested (lr_runner res) = true /\
   exists tr0 reason env,
     In env envs /\
     lr_trace res = tr0 ++ EvEmergencyStop reason :: _close_all_positions reason env /\
     count is_emergency_stop tr0 = 0%nat).
Proof.
  induction envs as [|env rest IH]; intros r; cbv zeta.
  - left. reflexivity.
  - cbn [_main_trading_loop].
    destruct (_stop_requested (apply_controls (te_controls env) r));
      [left; reflexivity|].
    pose proof (loop_iteration_emergency env
                  (apply_controls (te_controls env) r)) as H.
    pose proof (loop_iteration_cases env
                  (apply_controls (te_controls env) r)) as Hc.
    destruct (loop_iteration env (apply_controls (te_controls env) r))
      as [[r1 tr] ctl].
    destruct ctl.
    + assert (Htr : count is_emergency_stop tr = 0%nat).
      { destruct H as [H|(Hb & _)]; [exact H|discriminate]. }
      specialize (IH r1). cbv zeta in IH.
      cbn [lr_runner lr_trace lr_exited].
      destruct IH as [IH|(I1 & I2 & I3 & I4 & tr0 & reason & env0 & Hin & Ht & H0)].
      * left. rewrite count_app, Htr, IH. reflexivity.
      * right. rewrite count_app, Htr, I1.
        split; [reflexivity|]. split; [exact I2|]. split; [exact I3|].
        split; [exact I4|].
        exists (tr ++ tr0), reason, env0.
        split; [right; exact Hin|].
        split; [rewrite Ht, app_assoc; reflexivity|].
        rewrite count_app, Htr, H0. reflexivity.
    + cbn [lr_runner lr_trace lr_exited].
      destruct H as [H|(_ & Hs & Hq & tr0 & reason & Ht & H0)]; [left; exact H|].
      right.
      destruct (close_all_counts reason env) as (_ & C2 & _).
      split.
      { rewrite Ht.
        change (EvEmergencyStop reason :: ?l) with ([EvEmergencyStop reason] ++ l).
        rewrite !count_app, H0, C2. reflexivity. }
      split; [reflexivity|]. split; [exact Hs|]. split; [exact Hq|].
      exists tr0, reason, env. split; [left; reflexivity|]. split; assumption.
Qed.

End RunnerMoreFacts.

(** ** BotLifecycleManager: the registry *)

Section LifecycleMoreFacts.

Import Lifecycle.

Lemma step_registry_empty op m :
  running_bots m = ∅ -> running_bots (step op m) = ∅.
Proof.
  intros He.
  destruct op as [now env i action uid|now context outcome|i f|now| |]; cbn [step].
  - unfold execute_bot_action.
    destruct (get_async_session m); [|exact He].
    destruct (bots_table m !! i) as [bot|]; [|exact He].
    destruct (negb _); [exact He|].
    destruct action.
    + destruct (start_bot_never_registers now env bot m) as (_ & H & _).
      rewrite H. exact He.
    + unfold _stop_bot. rewrite He, lookup_empty. exact He.
    + unfold _pause_bot. rewrite He, lookup_empty. exact He.
    + unfold _resume_bot. rewrite He, lookup_empty. exact He.
    + unfold _force_stop_bot. rewrite He, lookup_empty. exact He.
  - unfold _run_bot. cbn [set_running running_bots].
    match goal with
    | |- delete _ (running_bots ?m1) = ∅ =>
        assert (H1 : running_bots m1 = ∅)
    end.
    { destruct outcome as [u|e]; [exact He|].
      destruct (3 <=? _); [|exact He].
      destruct (get_async_session m); [|exact He].
      cbn [set_running running_bots]. rewrite He. apply delete_empty. }
    rewrite H1. apply delete_empty.
  - unfold runner_step. cbn [set_running running_bots]. rewrite He.
    apply map_eq. intros j. rewrite lookup_empty.
    destruct (decide (i = j)) as [->|Hne].
    + rewrite lookup_alter_eq, lookup_empty. reflexivity.
    + rewrite lookup_alter_ne, lookup_empty by exact Hne. reflexivity.
  - unfold _monitor_bots. rewrite He, map_to_list_empty. exact He.
  - unfold _recover_running_bots. destruct (get_async_session m); exact He.
  - reflexivity.
Qed.

(** X29.  A manager whose registry is empty, as it is after construction,
    never registers a bot, whatever is done with it, and so no action ever
    succeeds: START fails when the runner is built, and STOP, PAUSE, RESUME
    and FORCE_STOP find no running bot. *)
Theorem no_action_ever_succeeds ops now env bot_id action uid m :
  running_bots m = ∅ ->
  running_bots (run ops m) = ∅ /\
  success (fst (execute_bot_action now env bot_id action uid (run ops m))) = false.
Proof.
  intros He.
  assert (H : running_bots (run ops m) = ∅).
  { revert m He. induction ops as [|op ops IH]; intros m He; [exact He|].
    cbn [run]. apply IH, step_registry_empty, He. }
  split; [exact H|].
  unfold execute_bot_action.
  destruct (get_async_session (run ops m)); [|reflexivity].
  destruct (bots_table (run ops m) !! bot_id) as [bot|]; [|reflexivity].
  destruct (negb _); [reflexivity|].
  destruct action.
  - apply start_bot_never_registers.
  - unfold _stop_bot. rewrite H, lookup_empty. reflexivity.
  - unfold _pause_bot. rewrite H, lookup_empty. reflexivity.
  - unfold _resume_bot. rewrite H, lookup_empty. reflexivity.
  - unfold _force_stop_bot. rewrite H, lookup_empty. reflexivity.
Qed.

Lemma no_action_witness :
  success (fst (execute_bot_action 2000 sample_init_env 1 PAUSE 100
                  (run [ExecuteBotAction 1000 sample_init_env 1 START 100;
                        MonitorBots 1500]
                     sample_manager))) = false.
Proof.
  refine (proj2 (no_action_ever_succeeds
                   [ExecuteBotAction 1000 sample_init_env 1 START 100;
                    MonitorBots 1500]
                   2000 sample_init_env 1 PAUSE 100 sample_manager _)).
  reflexivity.
Defined.

End LifecycleMoreFacts.
